(** * Secular evolution of hierarchical triples

    A model of the two programs of the repository, [triplesec.py] (class
    [Triple]: three massive bodies, orbital elements) and [ts_vector.py]
    (class [Triple_vector]: test particle limit, vectorial elements).

    Python floats are idealised as real numbers: the equations of motion
    and the constructors are written over [R] with the Standard Library's
    [sqrt], [cos], [sin], [acos] and [Rpower] (for [**] with a fractional
    exponent).  Division and [sqrt] are the total functions of the
    Standard Library; where a property depends on a zero divisor
    ([_evec_root]) or on a domain error ([math.acos]) the partial
    operation is written out.  [None] in an attribute and the exceptions
    it leads to are modelled by [pyval] and [result].

    The integration drivers only compare and print what the ODE solver
    hands back; they are written over [Q], with the solver and the clock
    given as data, so that runs can be evaluated. *)

From Stdlib Require Import Reals Lra Lia QArith ZArith List Bool.
Import ListNotations.

(** ** Python values, exceptions *)

Inductive exn : Set :=
| TypeError | NameError | AttributeError | ValueError | ZeroDivisionError.

Inductive result (A : Type) : Type :=
| Ok (a : A)
| Raise (e : exn).

Arguments Ok {A} a.
Arguments Raise {A} e.

Definition bind {A B : Type} (m : result A) (k : A -> result B)
  : result B :=
  match m with
  | Ok a => k a
  | Raise e => Raise e
  end.

Declare Scope py_scope.
Delimit Scope py_scope with py.
Notation "x <- m ;; k" := (bind m (fun x => k))
  (at level 61, m at next level, right associativity) : py_scope.

Definition succeeds {A : Type} (m : result A) : bool :=
  match m with Ok _ => true | Raise _ => false end.

(** An attribute that holds either a float or [None]. *)
Inductive pyval : Type :=
| PyNone
| PyFloat (x : R).

Open Scope R_scope.

(** [v * x], [v ** n], [v / x] and a plain read where a float is needed:
    [None] as an operand is a [TypeError]. *)
Definition float_of (v : pyval) : result R :=
  match v with
  | PyFloat x => Ok x
  | PyNone => Raise TypeError
  end.

Definition py_mul (v : pyval) (x : R) : result R :=
  match v with
  | PyFloat a => Ok (a * x)
  | PyNone => Raise TypeError
  end.

Definition py_pow (v : pyval) (n : nat) : result R :=
  match v with
  | PyFloat a => Ok (a ^ n)
  | PyNone => Raise TypeError
  end.

(** [v == 0]: [None == 0] is [False]. *)
Definition py_eq0 (v : pyval) : bool :=
  match v with
  | PyFloat a => if Req_dec_T a 0 then true else false
  | PyNone => false
  end.

(** [math.acos] raises [ValueError] outside of [-1, 1]. *)
Definition math_acos (x : R) : result R :=
  if Rle_dec (-1) x then
    if Rle_dec x 1 then Ok (acos x) else Raise ValueError
  else Raise ValueError.

(** [x % m] on floats: the remainder has the sign of the divisor,
    [x - m * floor(x / m)]. *)
Definition py_mod (x m : R) : R := x - m * IZR (Int_part (x / m)).

(** A state vector of six floats ([y]) and its entries [y[0]] ... [y[5]]. *)
Definition vec6 : Type := (R * R * R * R * R * R)%type.

Definition item0 (y : vec6) : R := let '(y0, _, _, _, _, _) := y in y0.
Definition item1 (y : vec6) : R := let '(_, y1, _, _, _, _) := y in y1.
Definition item2 (y : vec6) : R := let '(_, _, y2, _, _, _) := y in y2.
Definition item3 (y : vec6) : R := let '(_, _, _, y3, _, _) := y in y3.
Definition item4 (y : vec6) : R := let '(_, _, _, _, y4, _) := y in y4.
Definition item5 (y : vec6) : R := let '(_, _, _, _, _, y5) := y in y5.

(** * triplesec.py: class Triple *)

Module triplesec.

Section WithConstants.

(** The constants of [ts_constants] ([from ts_constants import *]), whose
    values the equations do not fix. *)
Variables G c M_sun au yr2s : R.

Local Open Scope py_scope.

(** The state vector is [y = [a1, e1, g1, e2, g2, H]]. *)

(** The attributes of a [Triple] that enter the numerical model.  [a1],
    [a2] and [e2] may hold [None]. *)
Record Triple : Type := {
  a1 : pyval; a2 : pyval; e1 : R; e2 : pyval;
  inc : R; g1 : R; g2 : R;
  m1 : R; m2 : R; m3 : R; r1 : R; r2 : R;
  epsoct : R; t : R; _t : R; th : R;
  _m1 : R; _m2 : R; _m3 : R; _a1 : R; _a2 : R;
  quadrupole : bool; octupole : bool; hexadecapole : bool; gr : bool;
  C2 : R; C3 : R; _G1 : R; _G2 : R; _H : R; cosphi : R
}.

(** Attribute assignment, one function for each group of attributes that a
    method assigns. *)
Definition set_C (self : Triple) (c2 : R) (c3 : R) : Triple :=
  {| a1 := a1 self; a2 := a2 self; e1 := e1 self; e2 := e2 self;
     inc := inc self; g1 := g1 self; g2 := g2 self; m1 := m1 self;
     m2 := m2 self; m3 := m3 self; r1 := r1 self; r2 := r2 self;
     epsoct := epsoct self; t := t self; _t := _t self; th := th self;
     _m1 := _m1 self; _m2 := _m2 self; _m3 := _m3 self; _a1 := _a1 self;
     _a2 := _a2 self; quadrupole := quadrupole self;
     octupole := octupole self; hexadecapole := hexadecapole self;
     gr := gr self; C2 := c2; C3 := c3; _G1 := _G1 self; _G2 := _G2 self;
     _H := _H self; cosphi := cosphi self |}.

Definition set_cosphi (self : Triple) (v : R) : Triple :=
  {| a1 := a1 self; a2 := a2 self; e1 := e1 self; e2 := e2 self;
     inc := inc self; g1 := g1 self; g2 := g2 self; m1 := m1 self;
     m2 := m2 self; m3 := m3 self; r1 := r1 self; r2 := r2 self;
     epsoct := epsoct self; t := t self; _t := _t self; th := th self;
     _m1 := _m1 self; _m2 := _m2 self; _m3 := _m3 self; _a1 := _a1 self;
     _a2 := _a2 self; quadrupole := quadrupole self;
     octupole := octupole self; hexadecapole := hexadecapole self;
     gr := gr self; C2 := C2 self; C3 := C3 self; _G1 := _G1 self;
     _G2 := _G2 self; _H := _H self; cosphi := v |}.

Definition set_G1 (self : Triple) (v : R) : Triple :=
  {| a1 := a1 self; a2 := a2 self; e1 := e1 self; e2 := e2 self;
     inc := inc self; g1 := g1 self; g2 := g2 self; m1 := m1 self;
     m2 := m2 self; m3 := m3 self; r1 := r1 self; r2 := r2 self;
     epsoct := epsoct self; t := t self; _t := _t self; th := th self;
     _m1 := _m1 self; _m2 := _m2 self; _m3 := _m3 self; _a1 := _a1 self;
     _a2 := _a2 self; quadrupole := quadrupole self;
     octupole := octupole self; hexadecapole := hexadecapole self;
     gr := gr self; C2 := C2 self; C3 := C3 self; _G1 := v;
     _G2 := _G2 self; _H := _H self; cosphi := cosphi self |}.

Definition set_G2 (self : Triple) (v : R) : Triple :=
  {| a1 := a1 self; a2 := a2 self; e1 := e1 self; e2 := e2 self;
     inc := inc self; g1 := g1 self; g2 := g2 self; m1 := m1 self;
     m2 := m2 self; m3 := m3 self; r1 := r1 self; r2 := r2 self;
     epsoct := epsoct self; t := t self; _t := _t self; th := th self;
     _m1 := _m1 self; _m2 := _m2 self; _m3 := _m3 self; _a1 := _a1 self;
     _a2 := _a2 self; quadrupole := quadrupole self;
     octupole := octupole self; hexadecapole := hexadecapole self;
     gr := gr self; C2 := C2 self; C3 := C3 self; _G1 := _G1 self;
     _G2 := v; _H := _H self; cosphi := cosphi self |}.

Definition set_th (self : Triple) (v : R) : Triple :=
  {| a1 := a1 self; a2 := a2 self; e1 := e1 self; e2 := e2 self;
     inc := inc self; g1 := g1 self; g2 := g2 self; m1 := m1 self;
     m2 := m2 self; m3 := m3 self; r1 := r1 self; r2 := r2 self;
     epsoct := epsoct self; t := t self; _t := _t self; th := v;
     _m1 := _m1 self; _m2 := _m2 self; _m3 := _m3 self; _a1 := _a1 self;
     _a2 := _a2 self; quadrupole := quadrupole self;
     octupole := octupole self; hexadecapole := hexadecapole self;
     gr := gr self; C2 := C2 self; C3 := C3 self; _G1 := _G1 self;
     _G2 := _G2 self; _H := _H self; cosphi := cosphi self |}.

Definition set_H (self : Triple) (v : R) : Triple :=
  {| a1 := a1 self; a2 := a2 self; e1 := e1 self; e2 := e2 self;
     inc := inc self; g1 := g1 self; g2 := g2 self; m1 := m1 self;
     m2 := m2 self; m3 := m3 self; r1 := r1 self; r2 := r2 self;
     epsoct := epsoct self; t := t self; _t := _t self; th := th self;
     _m1 := _m1 self; _m2 := _m2 self; _m3 := _m3 self; _a1 := _a1 self;
     _a2 := _a2 self; quadrupole := quadrupole self;
     octupole := octupole self; hexadecapole := hexadecapole self;
     gr := gr self; C2 := C2 self; C3 := C3 self; _G1 := _G1 self;
     _G2 := _G2 self; _H := v; cosphi := cosphi self |}.

Definition set_units (self : Triple) (i : R) (a : pyval) (tt : R) : Triple :=
  {| a1 := a; a2 := a2 self; e1 := e1 self; e2 := e2 self; inc := i;
     g1 := g1 self; g2 := g2 self; m1 := m1 self; m2 := m2 self;
     m3 := m3 self; r1 := r1 self; r2 := r2 self; epsoct := epsoct self;
     t := tt; _t := _t self; th := th self; _m1 := _m1 self;
     _m2 := _m2 self; _m3 := _m3 self; _a1 := _a1 self; _a2 := _a2 self;
     quadrupole := quadrupole self; octupole := octupole self;
     hexadecapole := hexadecapole self; gr := gr self; C2 := C2 self;
     C3 := C3 self; _G1 := _G1 self; _G2 := _G2 self; _H := _H self;
     cosphi := cosphi self |}.


(** [calc_cosphi]: the angle between periastron directions. *)
Definition calc_cosphi (self : Triple) : Triple :=
  set_cosphi self
    (- cos (g1 self) * cos (g2 self) - th self * sin (g1 self) * sin (g2 self)).

Definition calc_G1 (self : Triple) : Triple :=
  set_G1 self
    (_m1 self * _m2 self *
     sqrt (G * _a1 self * (1 - (e1 self) ^ 2) / (_m1 self + _m2 self))).

Definition calc_G2 (self : Triple) : result Triple :=
  e2_ <- float_of (e2 self) ;;
  Ok (set_G2 self
        ((_m1 self + _m2 self) * _m3 self *
         sqrt (G * _a2 self * (1 - e2_ ^ 2) /
               (_m1 self + _m2 self + _m3 self)))).

(** [calc_C]: [self.e2] is read only in the branches of enabled terms. *)
Definition calc_C (self : Triple) : result Triple :=
  c2 <- (if quadrupole self then
           e2_ <- float_of (e2 self) ;;
           Ok (G * _m1 self * _m2 self * _m3 self /
               (16 * (_m1 self + _m2 self) * _a2 self *
                Rpower (1 - e2_ ^ 2) (3 / 2)) *
               (_a1 self / _a2 self) ^ 2)
         else Ok 0) ;;
  c3 <- (if octupole self then
           e2_ <- float_of (e2 self) ;;
           Ok (15 * G * _m1 self * _m2 self * _m3 self *
               (_m1 self - _m2 self) /
               (64 * (_m1 self + _m2 self) ^ 2 * _a2 self *
                Rpower (1 - e2_ ^ 2) (5 / 2)) *
               (_a1 self / _a2 self) ^ 3)
         else Ok 0) ;;
  Ok (set_C self c2 c3).

Definition calc_th (self : Triple) : Triple :=
  set_th self
    (((_H self) ^ 2 - (_G1 self) ^ 2 - (_G2 self) ^ 2) /
     (2 * _G1 self * _G2 self)).

Definition calc_cosi (self : Triple) : Triple := calc_th self.

(** [update]: refresh the derived attributes after a step. *)
Definition update (self : Triple) : result Triple :=
  self <- calc_C self ;;
  let self := calc_cosphi self in
  let self := calc_G1 self in
  self <- calc_G2 self ;;
  let self := calc_th self in
  i <- math_acos (th self) ;;
  Ok (set_units self (i * 180 / PI) (PyFloat (_a1 self / au))
        (_t self / yr2s)).

(** The arguments of the constructor that enter the numerical model;
    [epsoct = None] is the default. *)
Record Triple_args : Type := {
  arg_a1 : R; arg_a2 : R; arg_e1 : R; arg_e2 : R; arg_inc : R;
  arg_argperi1 : R; arg_argperi2 : R;
  arg_m1 : R; arg_m2 : R; arg_m3 : R; arg_r1 : R; arg_r2 : R;
  arg_epsoct : option R;
  arg_quadrupole : bool; arg_octupole : bool;
  arg_hexadecapole : bool; arg_gr : bool
}.

(** [Triple.__init__], up to the point where the integrator is set up.
    Attributes that are assigned later in the constructor are held at [0]
    until then; none is read before it is assigned. *)
Definition __init__ (args : Triple_args) : result Triple :=
  let a1 := PyFloat (arg_a1 args) in
  let a2 := PyFloat (arg_a2 args) in
  let e1 := arg_e1 args in
  let e2 := PyFloat (arg_e2 args) in
  let inc := arg_inc args * PI / 180 in
  let g1 := arg_argperi1 args * PI / 180 in
  let g2 := arg_argperi2 args * PI / 180 in
  (* Derived parameters *)
  let '(epsoct, e2, a1, a2) :=
    match arg_epsoct args with
    | None =>
        (arg_e2 args / (1 - (arg_e2 args) ^ 2) * arg_a1 args / arg_a2 args,
         e2, a1, a2)
    | Some eps => (eps, PyNone, PyNone, PyNone)
    end in
  (* Unit conversions *)
  let th := cos inc in
  let _m1 := arg_m1 args * M_sun in
  let _m2 := arg_m2 args * M_sun in
  let _m3 := arg_m3 args * M_sun in
  _a1 <- py_mul a1 au ;;
  _a2 <- py_mul a2 au ;;
  let octupole := if py_eq0 e2 then false else arg_octupole args in
  let self :=
    {| a1 := a1; a2 := a2; e1 := e1; e2 := e2; inc := inc; g1 := g1;
       g2 := g2; m1 := arg_m1 args; m2 := arg_m2 args; m3 := arg_m3 args;
       r1 := arg_r1 args; r2 := arg_r2 args; epsoct := epsoct;
       t := 0; _t := 0; th := th;
       _m1 := _m1; _m2 := _m2; _m3 := _m3; _a1 := _a1; _a2 := _a2;
       quadrupole := arg_quadrupole args; octupole := octupole;
       hexadecapole := arg_hexadecapole args; gr := arg_gr args;
       C2 := 0; C3 := 0; _G1 := 0; _G2 := 0; _H := 0; cosphi := 0 |} in
  self <- calc_C self ;;
  let self := calc_G1 self in
  self <- calc_G2 self ;;
  let self :=
    set_H self
      (sqrt (2 * _G1 self * _G2 self * th + (_G1 self) ^ 2 +
             (_G2 self) ^ 2)) in
  update self.

(** The quantities that [_deriv] recomputes from [y] before the equations
    of motion: [G1], [G2], [C2], [C3], [th], [cosphi], [B] and [A]. *)
Record locals : Type := {
  l_G1 : R; l_G2 : R; l_C2 : R; l_C3 : R;
  l_th : R; l_cosphi : R; l_B : R; l_A : R
}.

Definition _deriv_locals (self : Triple) (y : vec6) : locals :=
  let '(a1, e1, g1, e2, g2, H) := y in
  let sing1 := sin g1 in
  let sing2 := sin g2 in
  let cosg1 := cos g1 in
  let cosg2 := cos g2 in
  let m1 := _m1 self in
  let m2 := _m2 self in
  let m3 := _m3 self in
  let a2 := _a2 self in
  let G1 := m1 * m2 * sqrt (G * a1 * (1 - e1 ^ 2) / (m1 + m2)) in
  let G2 := (m1 + m2) * m3 * sqrt (G * a2 * (1 - e2 ^ 2) / (m1 + m2 + m3))
    in
  let C2 := G * m1 * m2 * m3 / (16 * (m1 + m2) * a2 * Rpower (1 - e2 ^ 2)
    (3 / 2)) * (a1 / a2) ^ 2 in
  let C3 := 15 * G * m1 * m2 * m3 * (m2 - m1) / (64 * (m1 + m2) ^ 2 * a2 *
    Rpower (1 - e2 ^ 2) (5 / 2)) * (a1 / a2) ^ 3 in
  let th := (H ^ 2 - G1 ^ 2 - G2 ^ 2) / (2 * G1 * G2) in
  let cosphi := cosg1 * cosg2 - th * sing1 * sing2 in
  let B := 2 + 5 * e1 ^ 2 - 7 * e1 ^ 2 * cos (2 * g1) in
  let A := 4 + 3 * e1 ^ 2 - 5 / 2 * (1 - th ^ 2) * B in
  {| l_G1 := G1; l_G2 := G2; l_C2 := C2; l_C3 := C3;
     l_th := th; l_cosphi := cosphi; l_B := B; l_A := A |}.

(** [_deriv]: the equations of motion, Eqs. 11 -- 17 of Blaes et al. *)
Definition _deriv (self : Triple) (t : R) (y : vec6) : vec6 :=
  let '(a1, e1, g1, e2, g2, H) := y in
  let sing1 := sin g1 in
  let sing2 := sin g2 in
  let cosg1 := cos g1 in
  let cosg2 := cos g2 in
  let m1 := _m1 self in
  let m2 := _m2 self in
  let m3 := _m3 self in
  let a2 := _a2 self in
  let L := _deriv_locals self y in
  let G1 := l_G1 L in
  let G2 := l_G2 L in
  let C2 := l_C2 L in
  let C3 := l_C3 L in
  let th := l_th L in
  let cosphi := l_cosphi L in
  let B := l_B L in
  let A := l_A L in
  let da1dt := 0 in
  let da1dt := if gr self then da1dt + (- (64 * G ^ 3 * m1 * m2 * (m1 +
    m2) / (5 * c ^ 5 * a1 ^ 3 * sqrt ((1 - e1 ^ 2) ^ 7)) * (1 + 73 / 24 *
    e1 ^ 2 + 37 / 96 * e1 ^ 4))) else da1dt in
  let dg1dt := 0 in
  let dg1dt := if quadrupole self then dg1dt + (6 * C2 * (1 / G1 * (4 * th
    ^ 2 + (5 * cos (2 * g1) - 1) * (1 - e1 ^ 2 - th ^ 2)) + th / G2 * (2 +
    e1 ^ 2 * (3 - 5 * cos (2 * g1))))) else dg1dt in
  let dg1dt := if octupole self then dg1dt + (C3 * e2 * e1 * (1 / G2 + th
    / G1) * (sing1 * sing2 * (A + 10 * (3 * th ^ 2 - 1) * (1 - e1 ^ 2)) -
    5 * th * B * cosphi) - C3 * e2 * (1 - e1 ^ 2) / (e1 * G1) * (10 * th *
    (1 - th ^ 2) * (1 - 3 * e1 ^ 2) * sing1 * sing2 + cosphi * (3 * A - 10
    * th ^ 2 + 2))) else dg1dt in
  let dg1dt := if gr self then dg1dt + (3 / (c ^ 2 * a1 * (1 - e1 ^ 2)) *
    sqrt ((G * (m1 + m2) / a1) ^ 3)) else dg1dt in
  let dg1dt := if hexadecapole self then dg1dt + (1 / (4096 * a2 ^ 5 *
    sqrt (1 - e1 ^ 2) * (m1 + m2) ^ 5) * 45 * a1 ^ 3 * sqrt (a1 * G * (m1
    + m2)) * (- 1 / ((e2 ^ 2 - 1) ^ 4 * sqrt (a2 * G * (m1 + m2 + m3))) *
    (m1 ^ 2 - m1 * m2 + m2 ^ 2) * (sqrt (1 - e2 ^ 2) * m2 ^ 2 * m3 * sqrt
    (a2 * G * (m1 + m2 + m3)) * th + m1 ^ 2 * (sqrt (1 - e1 ^ 2) * m2 *
    sqrt (a1 * G * (m1 + m2)) + sqrt (1 - e2 ^ 2) * m3 * sqrt (a2 * G *
    (m1 + m2 + m3)) * th) + m1 * m2 * (sqrt (1 - e1 ^ 2) * m2 * sqrt (a1 *
    G * (m1 + m2)) + sqrt (1 - e1 ^ 2) * sqrt (a1 * G * (m1 + m2)) * m3 +
    2 * sqrt (1 - e2 ^ 2) * m3 * sqrt (a2 * G * (m1 + m2 + m3)) * th)) *
    (96 * th + 480 * e1 ^ 2 * th + 180 * e1 ^ 4 * th + 144 * e2 ^ 2 * th +
    720 * e1 ^ 2 * e2 ^ 2 * th + 270 * e1 ^ 4 * e2 ^ 2 * th - 224 * th ^ 3
    - 1120 * e1 ^ 2 * th ^ 3 - 420 * e1 ^ 4 * th ^ 3 - 336 * e2 ^ 2 * th ^
    3 - 1680 * e1 ^ 2 * e2 ^ 2 * th ^ 3 - 630 * e1 ^ 4 * e2 ^ 2 * th ^ 3 +
    56 * e1 ^ 2 * (2 + e1 ^ 2) * (2 + 3 * e2 ^ 2) * th * (7 * th ^ 2 - 4)
    * cos (2 * g1) - 294 * e1 ^ 4 * (2 + 3 * e2 ^ 2) * th * (th ^ 2 - 1) *
    cos (4 * g1) - 147 * e1 ^ 4 * e2 ^ 2 * cos (4 * g1 - 2 * g2) + 441 *
    e1 ^ 4 * e2 ^ 2 * th ^ 2 * cos (4 * g1 - 2 * g2) + 294 * e1 ^ 4 * e2 ^
    2 * th ^ 3 * cos (4 * g1 - 2 * g2) + 140 * e1 ^ 2 * e2 ^ 2 * cos (2 *
    (g1 - g2)) + 70 * e1 ^ 4 * e2 ^ 2 * cos (2 * (g1 - g2)) + 336 * e1 ^ 2
    * e2 ^ 3 * th * cos (2 * (g1 - g2)) + 168 * e1 ^ 4 * e2 ^ 2 * th * cos
    (2 * (g1 - g2)) - 588 * e1 ^ 2 * e2 ^ 2 * th ^ 2 * cos (2 * (g1 - g2))
    - 294 * e1 ^ 4 * e2 ^ 2 * th ^ 2 * cos (2 * (g1 - g2)) - 784 * e1 ^ 2
    * e2 ^ 2 * th ^ 3 * cos (2 * (g1 - g2)) - 392 * e1 ^ 4 * e2 ^ 2 * th ^
    3 * cos (2 * (g1 - g2)) - 128 * e2 ^ 2 * th * cos (2 * g2) - 640 * e1
    ^ 2 * e2 ^ 2 * th * cos (2 * g2) - 240 * e1 ^ 4 * e2 ^ 2 * th * cos (2
    * g2) + 224 * e2 ^ 2 * th ^ 3 * cos (2 * g2) + 1120 * e1 ^ 2 * e2 ^ 2
    * th ^ 3 * cos (2 * g2) + 420 * e1 ^ 4 * e2 ^ 2 * th ^ 3 * cos (2 *
    g2) - 140 * e1 ^ 2 * e2 ^ 2 * cos (2 * (g1 + g2)) - 70 * e1 ^ 4 * e2 ^
    2 * cos (2 * (g1 + g2)) + 336 * e1 ^ 2 * e2 ^ 2 * th * cos (2 * (g1 +
    g2)) + 168 * e1 ^ 4 * e2 ^ 2 * th * cos (2 * (g1 + g2)) + 588 * e1 ^ 2
    * e2 ^ 2 * th ^ 2 * cos (2 * (g1 + g2)) + 294 * e1 ^ 4 * e2 ^ 2 * th ^
    2 * cos (2 * (g1 + g2)) - 784 * e1 ^ 2 * e2 ^ 2 * th ^ 3 * cos (2 *
    (g1 + g2)) - 392 * e1 ^ 4 * e2 ^ 2 * th ^ 3 * cos (2 * (g1 + g2)) +
    147 * e1 ^ 4 * e2 ^ 2 * cos (2 * (2 * g1 + g2)) - 441 * e1 ^ 4 * e2 ^
    2 * th ^ 2 * cos (2 * (2 * g1 + g2)) + 294 * e1 ^ 4 * e2 ^ 2 * th ^ 3
    * cos (2 * (2 * g1 + g2))) + 1 / (e1 * sqrt ((1 - e2 ^ 2) ^ 7)) * 2 *
    (1 - e1 ^ 2) * (m1 + m2) * (m1 ^ 3 + m2 ^ 3) * m3 * (e1 * (4 + 3 * e1
    ^ 2) * (2 + 3 * e2 ^ 2) * (3 - 30 * th ^ 2 + 35 * th ^ 4) - 28 * (e1 +
    e1 ^ 3) * (2 + 3 * e2 ^ 2) * (1 - 8 * th ^ 2 + 7 * th ^ 4) * cos (2 *
    g1) + 147 * e1 ^ 3 * (2 + 3 * e2 ^ 2) * (th ^ 2 - 1) ^ 2 * cos (4 *
    g1) - 10 * e1 * (4 + 3 * e1 ^ 2) * e2 ^ 2 * (1 - 8 * th ^ 2 + 7 * th ^
    4) * cos (2 * g2) + 28 * (e1 + e1 ^ 3) * e2 ^ 2 * ((1 + th) ^ 2 * (1 -
    7 * th + 7 * th ^ 2) * cos (2 * (g1 - g2)) + (th - 1) ^ 2 * (1 + 7 *
    th + 7 * th ^ 2) * cos (2 * (g1 + g2))) - 147 * e1 ^ 3 * e2 ^ 2 * (th
    ^ 2 - 1) * ((1 + th) ^ 2 * cos (4 * g1 - 2 * g2) + (th - 1) ^ 2 * cos
    (2 * (2 * g1 + g2)))))) else dg1dt in
  let de1dt := 0 in
  let de1dt := if quadrupole self then de1dt + (30 * C2 * e1 * (1 - e1 ^
    2) / G1 * (1 - th ^ 2) * sin (2 * g1)) else de1dt in
  let de1dt := if octupole self then de1dt + (- C3 * e2 * (1 - e1 ^ 2) /
    G1 * (35 * cosphi * (1 - th ^ 2) * e1 ^ 2 * sin (2 * g1) - 10 * th *
    (1 - e1 ^ 2) * (1 - th ^ 2) * cosg1 * sing2 - A * (sing1 * cosg2 - th
    * cosg1 * sing2))) else de1dt in
  let de1dt := if gr self then de1dt + (- 304 * G ^ 3 * m1 * m2 * (m1 +
    m2) * e1 / (15 * c ^ 4 * a1 ^ 4 * sqrt ((1 - e1 ^ 2) ^ 5)) * (1 + 121
    / 304 * e1 ^ 2)) else de1dt in
  let de1dt := if hexadecapole self then de1dt + (- (315 * a1 ^ 3 * e1 *
    sqrt (1 - e1 ^ 2) * sqrt (a1 * G * (m1 + m2)) * (m1 ^ 2 - m1 * m2 + m2
    ^ 2) * m3 * (2 * (2 + e1 ^ 2) * (2 + 3 * e2 ^ 2) * (1 - 8 * th ^ 2 + 7
    * th ^ 4) * sin (2 * g1) - 21 * e1 ^ 2 * (2 + 3 * e2 ^ 2) * (th ^ 2 -
    1) ^ 2 * sin (4 * g1) + e2 ^ 2 * (21 * e1 ^ 2 * (th - 1) * (1 + th) ^
    3 * sin (4 * g1 - 2 * g2) - 2 * (2 + e1 ^ 2) * (1 + th) ^ 2 * (1 - 7 *
    th + 7 * th ^ 2) * sin (2 * (g1 - g2)) - (th - 1) ^ 2 * (2 * (2 + e1 ^
    2) * (1 + 7 * th + 7 * th ^ 2) * sin (2 * (g1 + g2)) - 21 * e1 ^ 2 *
    (th ^ 2 - 1) * sin (2 * (2 * g1 + g2)))))) / (2048 * a2 ^ 5 * sqrt ((1
    - e2 ^ 2) ^ 7) * (m1 + m2) ^ 3)) else de1dt in
  let dg2dt := 0 in
  let dg2dt := if quadrupole self then dg2dt + (3 * C2 * (2 * th / G1 * (2
    + e1 ^ 2 * (3 - 5 * cos (2 * g1))) + 1 / G2 * (4 + 6 * e1 ^ 2 + (5 *
    th ^ 2 - 3) * (2 + 3 * e1 ^ 2 - 5 * e1 ^ 2 * cos (2 * g1))))) else
    dg2dt in
  let dg2dt := if octupole self then dg2dt + (- C3 * e1 * sing1 * sing2 *
    ((4 * e2 ^ 2 + 1) / (e2 * G2) * 10 * th * (1 - th ^ 2) * (1 - e1 ^ 2)
    - e2 * (1 / G1 + th / G2) * (A + 10 * (3 * th ^ 2 - 1) * (1 - e1 ^
    2))) - C3 * e1 * cosphi * (5 * B * th * e2 * (1 / G1 + th / G2) + (4 *
    e2 ^ 2 + 1) / (e2 * G2) * A)) else dg2dt in
  let dg2dt := if hexadecapole self then dg2dt + (9 * a1 ^ 3 * (- 1 / sqrt
    (1 - e1 ^ 2) * 10 * a2 * sqrt (a1 * G * (m1 + m2)) * (m1 ^ 2 - m1 * m2
    + m2 ^ 2) * (sqrt (1 - e2 ^ 2) * m2 ^ 2 * m3 * sqrt (a2 * G * (m1 + m2
    + m3)) + m1 ^ 2 * (sqrt (1 - e2 ^ 2) * m3 * sqrt (a2 * G * (m1 + m2 +
    m3)) + sqrt (1 - e1 ^ 2) * m2 * sqrt (a1 * G * (m1 + m2)) * th) + m1 *
    m2 * (2 * sqrt (1 - e2 ^ 2) * m3 * sqrt (a2 * G * (m1 + m2 + m3)) +
    sqrt (1 - e1 ^ 2) * m2 * sqrt (a1 * G * (m1 + m2)) * th + sqrt (1 - e1
    ^ 2) * sqrt (a1 * G * (m1 + m2)) * m3 * th)) * (96 * th + 480 * e1 ^ 2
    * th + 180 * e1 ^ 4 * th + 144 * e2 ^ 2 * th + 720 * e1 ^ 2 * e2 ^ 2 *
    th + 270 * e1 ^ 4 * e2 ^ 2 * th - 224 * th ^ 3 - 1120 * e1 ^ 2 * th ^
    3 - 420 * e1 ^ 4 * th ^ 3 - 336 * e2 ^ 2 * th ^ 3 - 1680 * e1 ^ 2 * e2
    ^ 2 * th ^ 3 - 630 * e1 ^ 4 * e2 ^ 2 * th ^ 3 + 56 * e1 ^ 2 * (2 + e1
    ^ 2) * (2 + 3 * e2 ^ 2) * th * (7 * th ^ 2 - 4) * cos (2 * g1) - 294 *
    e1 ^ 4 * (2 + 3 * e2 ^ 2) * th * (th ^ 2 - 1) * cos (4 * g1) - 147 *
    e1 ^ 4 * e2 ^ 2 * cos (4 * g1 - 2 * g2) + 441 * e1 ^ 4 * e2 ^ 2 * th ^
    2 * cos (4 * g1 - 2 * g2) + 294 * e1 ^ 4 * e2 ^ 2 * th ^ 3 * cos (4 *
    g1 - 2 * g2) + 140 * e1 ^ 2 * e2 ^ 2 * cos (2 * (g1 - g2)) + 70 * e1 ^
    4 * e2 ^ 2 * cos (2 * (g1 - g2)) + 336 * e1 ^ 2 * e2 ^ 2 * th * cos (2
    * (g1 - g2)) + 168 * e1 ^ 4 * e2 ^ 2 * th * cos (2 * (g1 - g2)) - 588
    * e1 ^ 2 * e2 ^ 2 * th ^ 2 * cos (2 * (g1 - g2)) - 294 * e1 ^ 4 * e2 ^
    2 * th ^ 2 * cos (2 * (g1 - g2)) - 784 * e1 ^ 2 * e2 ^ 2 * th ^ 3 *
    cos (2 * (g1 - g2)) - 392 * e1 ^ 4 * e2 ^ 2 * th ^ 3 * cos (2 * (g1 -
    g2)) - 128 * e2 ^ 2 * th * cos (2 * g2) - 640 * e1 ^ 2 * e2 ^ 2 * th *
    cos (2 * g2) - 240 * e1 ^ 4 * e2 ^ 2 * th * cos (2 * g2) + 224 * e2 ^
    2 * th ^ 3 * cos (2 * g2) + 1120 * e1 ^ 2 * e2 ^ 2 * th ^ 3 * cos (2 *
    g2) + 420 * e1 ^ 4 * e2 ^ 2 * th ^ 3 * cos (2 * g2) - 140 * e1 ^ 2 *
    e2 ^ 2 * cos (2 * (g1 + g2)) - 70 * e1 ^ 4 * e2 ^ 2 * cos (2 * (g1 +
    g2)) + 336 * e1 ^ 2 * e2 ^ 2 * th * cos (2 * (g1 + g2)) + 168 * e1 ^ 4
    * e2 ^ 2 * th * cos (2 * (g1 + g2)) + 588 * e1 ^ 2 * e2 ^ 2 * th ^ 2 *
    cos (2 * (g1 + g2)) + 294 * e1 ^ 4 * e2 ^ 2 * th ^ 2 * cos (2 * (g1 +
    g2)) - 784 * e1 ^ 2 * e2 ^ 2 * th ^ 3 * cos (2 * (g1 + g2)) - 392 * e1
    ^ 4 * e2 ^ 2 * th ^ 3 * cos (2 * (g1 + g2)) + 147 * e1 ^ 4 * e2 ^ 2 *
    cos (2 * (2 * g1 + g2)) - 441 * e1 ^ 4 * e2 ^ 2 * th ^ 2 * cos (2 * (2
    * g1 + g2)) + 294 * e1 ^ 4 * e2 ^ 2 * th ^ 3 * cos (2 * (2 * g1 +
    g2))) + a1 * a2 * G * m1 * m2 * (m1 ^ 3 + m2 ^ 3) * (m1 + m2 + m3) *
    (- 6 * (8 + 40 * e1 ^ 2 + 15 * e1 ^ 4) * (- 1 + e2 ^ 2) * (3 - 30 * th
    ^ 2 + 35 * th ^ 4) + 7 * (8 + 40 * e1 ^ 2 + 15 * e1 ^ 4) * (2 + 3 * e2
    ^ 2) * (3 - 30 * th ^ 2 + 35 * th ^ 4) + 840 * e1 ^ 2 * (2 + e1 ^ 2) *
    (- 1 + e2 ^ 2) * (1 - 8 * th ^ 2 + 7 * th ^ 4) * cos (2 * g1) - 980 *
    e1 ^ 2 * (2 + e1 ^ 2) * (2 + 3 * e2 ^ 2) * (1 - 8 * th ^ 2 + 7 * th ^
    4) * cos (2 * g1) - 4410 * e1 ^ 4 * (- 1 + e2 ^ 2) * (- 1 + th ^ 2) ^
    2 * cos (4 * g1) + 5145 * e1 ^ 4 * (2 + 3 * e2 ^ 2) * (- 1 + th ^ 2) ^
    2 * cos (4 * g1) - 70 * (8 + 40 * e1 ^ 2 + 15 * e1 ^ 4) * e2 ^ 2 * (1
    - 8 * th ^ 2 + 7 * th ^ 4) * cos (2 * g2) + 20 * (8 + 40 * e1 ^ 2 + 15
    * e1 ^ 4) * (- 1 + e2 ^ 2) * (1 - 8 * th ^ 2 + 7 * th ^ 4) * cos (2 *
    g2) + 980 * e1 ^ 2 * (2 + e1 ^ 2) * e2 ^ 2 * ((1 + th) ^ 2 * (1 - 7 *
    th + 7 * th ^ 2) * cos (2 * (g1 - g2)) + (- 1 + th) ^ 2 * (1 + 7 * th
    + 7 * th ^ 2) * cos (2 * (g1 + g2))) - 280 * e1 ^ 2 * (2 + e1 ^ 2) *
    (- 1 + e2 ^ 2) * ((1 + th) ^ 2 * (1 - 7 * th + 7 * th ^ 2) * cos (2 *
    (g1 - g2)) + (- 1 + th) ^ 2 * (1 + 7 * th + 7 * th ^ 2) * cos (2 * (g1
    + g2))) - 1470 * e1 ^ 4 * (1 - e2 ^ 2) * (- 1 + th) * (1 + th) * ((1 +
    th) ^ 2 * cos (4 * g1 - 2 * g2) + (- 1 + th) ^ 2 * cos (2 * (2 * g1 +
    g2))) - 5145 * e1 ^ 4 * e2 ^ 2 * (- 1 + th ^ 2) * ((1 + th) ^ 2 * cos
    (4 * g1 - 2 * g2) + (- 1 + th) ^ 2 * cos (2 * (2 * g1 + g2))))) /
    (8192 * a2 ^ 6 * (- 1 + e2 ^ 2) ^ 4 * (m1 + m2) ^ 5 * sqrt (a2 * G *
    (m1 + m2 + m3)))) else dg2dt in
  let de2dt := 0 in
  let de2dt := if octupole self then de2dt + (C3 * e1 * (1 - e2 ^ 2) / G2
    * (10 * th * (1 - th ^ 2) * (1 - e1 ^ 2) * sing1 * cosg2 + A * (cosg1
    * sing2 - th * sing1 * cosg2))) else de2dt in
  let de2dt := if hexadecapole self then de2dt + (45 * a1 ^ 4 * e2 * m1 *
    m2 * (m1 ^ 2 - m1 * m2 + m2 ^ 2) * sqrt (a2 * G * (m1 + m2 + m3)) * (-
    147 * e1 ^ 4 * (- 1 + th) * (1 + th) ^ 3 * sin (4 * g1 - 2 * g2) + 28
    * e1 ^ 2 * (2 + e1 ^ 2) * (1 + th) ^ 2 * (1 - 7 * th + 7 * th ^ 2) *
    sin (2 * (g1 - g2)) + (- 1 + th) * (2 * (8 + 40 * e1 ^ 2 + 15 * e1 ^
    4) * (- 1 - th + 7 * th ^ 2 + 7 * th ^ 3) * sin (2 * g2) - 7 * e1 ^ 2
    * (- 1 + th) * (4 * (2 + e1 ^ 2) * (1 + 7 * th + 7 * th ^ 2) * sin (2
    * (g1 + g2)) - 21 * e1 ^ 2 * (- 1 + th ^ 2) * sin (2 * (2 * g1 +
    g2))))) / (4096 * a2 ^ 6 * (- 1 + e2 ^ 2) ^ 3 * (m1 + m2) ^ 4)) else
    de2dt in
  let dHdt := 0 in
  let dHdt := if gr self then dHdt + (- 32 * G ^ 3 * m1 ^ 2 * m2 ^ 2 / (5
    * c ^ 5 * a1 ^ 3 * (1 - e1 ^ 2) ^ 2) * sqrt (G * (m1 + m2) / a1) * (1
    + 7 / 8 * e1 ^ 2) * (G1 + G2 * th) / H) else dHdt in
  (da1dt, de1dt, dg1dt, de2dt, dg2dt, dHdt).

(** Assignment of what the solver hands back, and of an angle. *)
Definition set_solution (self : Triple)
    (tt : R) (a : pyval) (e : R) (w1 : R) (ee : pyval) (w2 : R) (h : R)
  : Triple :=
  {| a1 := a; a2 := a2 self; e1 := e; e2 := ee; inc := inc self; g1 := w1;
     g2 := w2; m1 := m1 self; m2 := m2 self; m3 := m3 self; r1 := r1 self;
     r2 := r2 self; epsoct := epsoct self; t := t self; _t := tt;
     th := th self; _m1 := _m1 self; _m2 := _m2 self; _m3 := _m3 self;
     _a1 := _a1 self; _a2 := _a2 self; quadrupole := quadrupole self;
     octupole := octupole self; hexadecapole := hexadecapole self;
     gr := gr self; C2 := C2 self; C3 := C3 self; _G1 := _G1 self;
     _G2 := _G2 self; _H := h; cosphi := cosphi self |}.

Definition set_g1 (self : Triple) (w : R) : Triple :=
  {| a1 := a1 self; a2 := a2 self; e1 := e1 self; e2 := e2 self;
     inc := inc self; g1 := w; g2 := g2 self; m1 := m1 self; m2 := m2 self;
     m3 := m3 self; r1 := r1 self; r2 := r2 self; epsoct := epsoct self;
     t := t self; _t := _t self; th := th self; _m1 := _m1 self;
     _m2 := _m2 self; _m3 := _m3 self; _a1 := _a1 self; _a2 := _a2 self;
     quadrupole := quadrupole self; octupole := octupole self;
     hexadecapole := hexadecapole self; gr := gr self; C2 := C2 self;
     C3 := C3 self; _G1 := _G1 self; _G2 := _G2 self; _H := _H self;
     cosphi := cosphi self |}.

Definition set_g2 (self : Triple) (w : R) : Triple :=
  {| a1 := a1 self; a2 := a2 self; e1 := e1 self; e2 := e2 self;
     inc := inc self; g1 := g1 self; g2 := w; m1 := m1 self; m2 := m2 self;
     m3 := m3 self; r1 := r1 self; r2 := r2 self; epsoct := epsoct self;
     t := t self; _t := _t self; th := th self; _m1 := _m1 self;
     _m2 := _m2 self; _m3 := _m3 self; _a1 := _a1 self; _a2 := _a2 self;
     quadrupole := quadrupole self; octupole := octupole self;
     hexadecapole := hexadecapole self; gr := gr self; C2 := C2 self;
     C3 := C3 self; _G1 := _G1 self; _G2 := _G2 self; _H := _H self;
     cosphi := cosphi self |}.

(** [_step], on the numerical attributes: [sol_t] and [sol_y] are
    [self.solver.t] and [self.solver.y] as [self.solver.integrate] leaves
    them.  The step counter is kept by the drivers below. *)
Definition _step (sol_t : R) (sol_y : vec6) (self : Triple)
  : result Triple :=
  let '(y0, y1, y2, y3, y4, y5) := sol_y in
  let self :=
    set_solution self sol_t (PyFloat y0) y1 y2 (PyFloat y3) y4 y5 in
  let self := set_g1 self (py_mod (g1 self) (2 * PI)) in
  let self := set_g2 self (py_mod (g2 self) (2 * PI)) in
  update self.

(** The command line of [triplesec.py], as far as it reaches the
    numerical model: an option that is not given is [None]; the flags
    [--noquad], [--nooct], [--GR] and [--hex] are given or not. *)
Record command_line : Type := {
  opt_m1 : option R; opt_m2 : option R; opt_m3 : option R;
  opt_r1 : option R; opt_r2 : option R;
  opt_a1 : option R; opt_a2 : option R;
  opt_g1 : option R; opt_g2 : option R;
  opt_e1 : option R; opt_e2 : option R; opt_inc : option R;
  opt_noquad : bool; opt_nooct : bool; opt_GR : bool; opt_hex : bool
}.

(** What [parser.parse_args()] hands back. *)
Record namespace : Type := {
  ns_m1 : R; ns_m2 : R; ns_m3 : R; ns_r1 : R; ns_r2 : R;
  ns_a1 : pyval; ns_a2 : pyval; ns_g1 : R; ns_g2 : R;
  ns_e1 : R; ns_e2 : pyval; ns_inc : R;
  ns_quad : bool; ns_oct : bool; ns_gr : bool; ns_hex : bool
}.

(** [Triple()]: the default arguments of the constructor. *)
Definition default_args : Triple_args :=
  {| arg_a1 := 1; arg_a2 := 20; arg_e1 := 1 / 10; arg_e2 := 3 / 10;
     arg_inc := 80; arg_argperi1 := 0; arg_argperi2 := 0;
     arg_m1 := 1; arg_m2 := 1; arg_m3 := 1; arg_r1 := 0; arg_r2 := 0;
     arg_epsoct := None;
     arg_quadrupole := true; arg_octupole := true;
     arg_hexadecapole := false; arg_gr := false |}.

(** [type=float] with [default=...]: the option when it is given, the
    default otherwise. *)
Definition float_option (opt : option R) (default : R) : R :=
  match opt with
  | Some x => x
  | None => default
  end.

Definition pyval_option (opt : option R) (default : pyval) : pyval :=
  match opt with
  | Some x => PyFloat x
  | None => default
  end.

(** [process_command_line]: the defaults of the options are read off the
    attributes of [def_trip = Triple()]. *)
Definition process_command_line (cl : command_line) : result namespace :=
  def_trip <- __init__ default_args ;;
  Ok {| ns_m1 := float_option (opt_m1 cl) (m1 def_trip);
        ns_m2 := float_option (opt_m2 cl) (m2 def_trip);
        ns_m3 := float_option (opt_m3 cl) (m3 def_trip);
        ns_r1 := float_option (opt_r1 cl) (r1 def_trip);
        ns_r2 := float_option (opt_r2 cl) (r2 def_trip);
        ns_a1 := pyval_option (opt_a1 cl) (a1 def_trip);
        ns_a2 := pyval_option (opt_a2 cl) (a2 def_trip);
        ns_g1 := float_option (opt_g1 cl) (g1 def_trip);
        ns_g2 := float_option (opt_g2 cl) (g2 def_trip);
        ns_e1 := float_option (opt_e1 cl) (e1 def_trip);
        ns_e2 := pyval_option (opt_e2 cl) (e2 def_trip);
        ns_inc := float_option (opt_inc cl) (inc def_trip);
        ns_quad := if opt_noquad cl then false else quadrupole def_trip;
        ns_oct := if opt_nooct cl then false else octupole def_trip;
        ns_gr := if opt_GR cl then true else gr def_trip;
        ns_hex := if opt_hex cl then true else hexadecapole def_trip |}.

(** [main], up to the call of [t.integrate()]: the object it builds. *)
Definition main (cl : command_line) : result Triple :=
  args <- process_command_line cl ;;
  a1_ <- float_of (ns_a1 args) ;;
  a2_ <- float_of (ns_a2 args) ;;
  e2_ <- float_of (ns_e2 args) ;;
  __init__
    {| arg_a1 := a1_; arg_a2 := a2_; arg_e1 := ns_e1 args; arg_e2 := e2_;
       arg_inc := ns_inc args; arg_argperi1 := ns_g1 args;
       arg_argperi2 := ns_g2 args; arg_m1 := ns_m1 args;
       arg_m2 := ns_m2 args; arg_m3 := ns_m3 args;
       arg_r1 := ns_r1 args; arg_r2 := ns_r2 args; arg_epsoct := None;
       arg_quadrupole := ns_quad args; arg_octupole := ns_oct args;
       arg_hexadecapole := ns_hex args; arg_gr := ns_gr args |}.

End WithConstants.

End triplesec.

(** * ts_vector.py: class Triple_vector *)

Module ts_vector.

Definition vec3 : Type := (R * R * R)%type.

(** numpy array arithmetic on three-vectors. *)
Definition np_add (u v : vec3) : vec3 :=
  let '(u0, u1, u2) := u in
  let '(v0, v1, v2) := v in
  (u0 + v0, u1 + v1, u2 + v2).

Definition np_scale (k : R) (v : vec3) : vec3 :=
  let '(v0, v1, v2) := v in (k * v0, k * v1, k * v2).

Definition np_cross (u v : vec3) : vec3 :=
  let '(u0, u1, u2) := u in
  let '(v0, v1, v2) := v in
  (u1 * v2 - u2 * v1, u2 * v0 - u0 * v2, u0 * v1 - u1 * v0).

Definition np_linalg_norm (v : vec3) : R :=
  let '(v0, v1, v2) := v in sqrt (v0 ^ 2 + v1 ^ 2 + v2 ^ 2).

(** Division of numpy floats: a zero divisor yields [nan] or [inf] and no
    number; [None] stands for that. *)
Definition np_div (a b : R) : option R :=
  if Req_dec_T b 0 then None else Some (a / b).

(** [_evec_root]: the three conditions that determine the direction of
    the eccentricity vector.  The third one divides by [crossnorm]. *)
Definition crossnorm (j : vec3) : R :=
  let '(j0, j1, _) := j in sqrt (j0 ^ 2 + j1 ^ 2).

Definition _evec_root (x j : vec3) (g1 : R) : list (option R) :=
  let '(x0, x1, x2) := x in
  let '(j0, j1, j2) := j in
  (* Orthogonal to j *)
  let cond1 := x0 * j0 + x1 * j1 + x2 * j2 in
  (* Normalized *)
  let cond2 := x0 ^ 2 + x1 ^ 2 + x2 ^ 2 - 1 in
  (* Gives the right argument of periapsis *)
  let crossnorm := sqrt (j0 ^ 2 + j1 ^ 2) in
  let cond3 :=
    match np_div (x0 * j1) crossnorm, np_div (x1 * j0) crossnorm with
    | Some p, Some q => Some (p - q + cos g1)
    | _, _ => None
    end in
  [Some cond1; Some cond2; cond3].

(** [_deriv]: the equations of motion, Eqs. 4 of Katz et al. (2011), with
    [y = [j_x, j_y, j_z, e_x, e_y, e_z]]. *)
Definition _deriv (t : R) (y : vec6) (epsoct : R) : vec6 :=
  let '(jx, jy, jz, ex, ey, ez) := y in
  let e_sq := ex ^ 2 + ey ^ 2 + ez ^ 2 in
  (* Calculate the derivatives of phi. *)
  let grad_j_phi_q : vec3 := (0, 0, 3 / 4 * jz) in
  let grad_j_phi_oct : vec3 :=
    np_scale (- 75 / 32) (ez * jz, 0, ex * jz + ez * jx) in
  let grad_e_phi_q : vec3 := (3 / 2 * ex, 3 / 2 * ey, - 9 / 4 * ez) in
  let grad_e_phi_oct : vec3 :=
    (75 / 64 * (1 / 5 - 8 / 5 * e_sq + 7 * ez ^ 2 - jz ^ 2) - 15 / 4 * ex ^ 2,
     - 15 / 4 * ex * ey,
     75 / 64 * (54 / 5 * ex * ez - 2 * jx * jz)) in
  let grad_j_phi := np_add grad_j_phi_q (np_scale epsoct grad_j_phi_oct) in
  let grad_e_phi := np_add grad_e_phi_q (np_scale epsoct grad_e_phi_oct) in
  let djdtau :=
    np_add (np_cross (jx, jy, jz) grad_j_phi)
           (np_cross (ex, ey, ez) grad_e_phi) in
  let dedtau :=
    np_add (np_cross (jx, jy, jz) grad_e_phi)
           (np_cross (ex, ey, ez) grad_j_phi) in
  let '(dj0, dj1, dj2) := djdtau in
  let '(de0, de1, de2) := dedtau in
  (dj0, dj1, dj2, de0, de1, de2).

Section WithRootFinder.

(** [scipy.optimize.root]: given the residual function and a starting
    point, it hands back a point ([ehatvec_sol.x]) or raises. *)
Variable root : (vec3 -> list (option R)) -> vec3 -> result vec3.

Local Open Scope py_scope.

Record Triple_vector : Type := {
  a1 : pyval; a2 : pyval; e1 : R; e2 : pyval;
  inc : R; Omega : R; g1 : R; m1 : R; m2 : R; m3 : R; _t : R;
  quadrupole : bool; octupole : bool;
  th : R; j : R; epsoct : R; Hhatquad : R;
  jhatvec : vec3; jvec : vec3; ehatvec : vec3; evec : vec3;
  Phi0 : R; phiq : R; phioct : R; tsec : R;
  Th : R; CKL : R; t : R
}.

Definition set_Th (self : Triple_vector) (v : R) : Triple_vector :=
  {| a1 := a1 self; a2 := a2 self; e1 := e1 self; e2 := e2 self;
     inc := inc self; Omega := Omega self; g1 := g1 self; m1 := m1 self;
     m2 := m2 self; m3 := m3 self; _t := _t self;
     quadrupole := quadrupole self; octupole := octupole self;
     th := th self; j := j self; epsoct := epsoct self;
     Hhatquad := Hhatquad self; jhatvec := jhatvec self; jvec := jvec self;
     ehatvec := ehatvec self; evec := evec self; Phi0 := Phi0 self;
     phiq := phiq self; phioct := phioct self; tsec := tsec self; Th := v;
     CKL := CKL self; t := t self |}.

Definition set_CKL (self : Triple_vector) (v : R) : Triple_vector :=
  {| a1 := a1 self; a2 := a2 self; e1 := e1 self; e2 := e2 self;
     inc := inc self; Omega := Omega self; g1 := g1 self; m1 := m1 self;
     m2 := m2 self; m3 := m3 self; _t := _t self;
     quadrupole := quadrupole self; octupole := octupole self;
     th := th self; j := j self; epsoct := epsoct self;
     Hhatquad := Hhatquad self; jhatvec := jhatvec self; jvec := jvec self;
     ehatvec := ehatvec self; evec := evec self; Phi0 := Phi0 self;
     phiq := phiq self; phioct := phioct self; tsec := tsec self;
     Th := Th self; CKL := v; t := t self |}.

Definition set_t_e1 (self : Triple_vector) (tt : R) (e : R) : Triple_vector :=
  {| a1 := a1 self; a2 := a2 self; e1 := e; e2 := e2 self; inc := inc self;
     Omega := Omega self; g1 := g1 self; m1 := m1 self; m2 := m2 self;
     m3 := m3 self; _t := _t self; quadrupole := quadrupole self;
     octupole := octupole self; th := th self; j := j self;
     epsoct := epsoct self; Hhatquad := Hhatquad self;
     jhatvec := jhatvec self; jvec := jvec self; ehatvec := ehatvec self;
     evec := evec self; Phi0 := Phi0 self; phiq := phiq self;
     phioct := phioct self; tsec := tsec self; Th := Th self;
     CKL := CKL self; t := tt |}.

(** [calc_Th]: Kozai's integral. *)
Definition calc_Th (self : Triple_vector) : Triple_vector :=
  set_Th self ((1 - (e1 self) ^ 2) * (cos (inc self)) ^ 2).

(** [calc_CKL]: the libration constant. *)
Definition calc_CKL (self : Triple_vector) : Triple_vector :=
  set_CKL self
    ((e1 self) ^ 2 *
     (1 - 5 / 2 * (sin (inc self)) ^ 2 * (sin (g1 self)) ^ 2)).

Definition update (self : Triple_vector) : Triple_vector :=
  let self := calc_Th self in
  let self := calc_CKL self in
  set_t_e1 self (_t self * tsec self) (np_linalg_norm (evec self)).

Record Triple_vector_args : Type := {
  arg_a1 : R; arg_a2 : R; arg_e1 : R; arg_e2 : R; arg_inc : R;
  arg_longascnode : R; arg_argperi : R; arg_m1 : R; arg_m3 : R;
  arg_epsoct : option R;
  arg_quadrupole : bool; arg_octupole : bool
}.

(** The direction of the angular momentum built by the constructor. *)
Definition init_jhatvec (inc Omega : R) : vec3 :=
  (sin inc * sin Omega, - sin inc * cos Omega, cos inc).

(** [Triple_vector.__init__], up to the point where the integrator is set
    up.  [Th], [CKL] and [t] are assigned by [update] at the end and are
    held at [0] until then. *)
Definition __init__ (args : Triple_vector_args) : result Triple_vector :=
  (* Given parameters *)
  let a1 := PyFloat (arg_a1 args) in
  let a2 := PyFloat (arg_a2 args) in
  let e1 := arg_e1 args in
  let e2 := PyFloat (arg_e2 args) in
  let inc := arg_inc args * PI / 180 in
  let Omega := arg_longascnode args * PI / 180 in
  let g1 := arg_argperi args * PI / 180 in
  let m1 := arg_m1 args in
  let m2 := 0 in
  let m3 := arg_m3 args in
  (* Derived parameters *)
  let th := cos inc in
  let j := sqrt (1 - e1 ^ 2) in
  let '(epsoct, e2, a1, a2) :=
    match arg_epsoct args with
    | None =>
        (arg_e2 args / (1 - (arg_e2 args) ^ 2) * (arg_a1 args / arg_a2 args),
         e2, a1, a2)
    | Some eps => (eps, PyNone, PyNone, PyNone)
    end in
  (* Integrals of motion *)
  let Hhatquad :=
    (2 + 3 * e1 ^ 2) * (1 - 3 * th ^ 2) -
    15 * e1 ^ 2 * (1 - th ^ 2) * cos (2 * g1) in
  (* The vectorial elements *)
  let jhatvec := init_jhatvec inc Omega in
  let jvec := np_scale j jhatvec in
  ehatvec <- root (fun x => _evec_root x jhatvec g1) (1 / 2, 1 / 2, 1 / 2) ;;
  let evec := np_scale e1 ehatvec in
  (* Elements of the potential *)
  a1sq <- py_pow a1 2 ;;
  a2cu <- py_pow a2 3 ;;
  e2sq <- py_pow e2 2 ;;
  let Phi0 := 4 * PI ^ 2 * m3 * a1sq / (a2cu * Rpower (1 - e2sq) (3 / 2)) in
  let '(jvec0, _, jvec2) := jvec in
  let '(evec0, _, evec2) := evec in
  let phiq := 0 in
  let phiq :=
    if arg_quadrupole args then
      phiq + 3 / 4 * (jvec2 ^ 2 / 2 + e1 ^ 2 - 5 / 2 * evec2 ^ 2 - 1 / 6)
    else phiq in
  let phioct := 0 in
  let phioct :=
    if arg_octupole args then
      phioct + epsoct * 75 / 64 *
        (evec0 * (1 / 5 - 8 / 5 * e1 ^ 2 + 7 * evec2 ^ 2 - jvec2 ^ 2) -
         2 * evec2 * jvec0 * jvec2)
    else phioct in
  a1f <- float_of a1 ;;
  let tsec := 2 * PI * sqrt (m1 * a1f) / Phi0 in
  Ok (update
        {| a1 := a1; a2 := a2; e1 := e1; e2 := e2; inc := inc;
           Omega := Omega; g1 := g1; m1 := m1; m2 := m2; m3 := m3; _t := 0;
           quadrupole := arg_quadrupole args; octupole := arg_octupole args;
           th := th; j := j; epsoct := epsoct; Hhatquad := Hhatquad;
           jhatvec := jhatvec; jvec := jvec; ehatvec := ehatvec;
           evec := evec; Phi0 := Phi0; phiq := phiq; phioct := phioct;
           tsec := tsec; Th := 0; CKL := 0; t := 0 |}).

(** The right-hand side the ODE solver integrates: [ode(self._deriv)] with
    [set_f_params(self.epsoct)]. *)
Definition solver_f (self : Triple_vector) (t : R) (y : vec6) : vec6 :=
  _deriv t y (epsoct self).

(** The initial values that [_save_initial_params] keeps in the
    attributes [e1_0], [e2_0], ..., [evec_0]; nothing else assigns them. *)
Record initial_params : Type := {
  e1_0 : R; e2_0 : pyval; inc_0 : R; Omega_0 : R; g1_0 : R; j_0 : R;
  jhatvec_0 : vec3; jvec_0 : vec3; ehatvec_0 : vec3; evec_0 : vec3
}.

Definition _save_initial_params (self : Triple_vector) : initial_params :=
  {| e1_0 := e1 self; e2_0 := e2 self; inc_0 := inc self;
     Omega_0 := Omega self; g1_0 := g1 self; j_0 := j self;
     jhatvec_0 := jhatvec self; jvec_0 := jvec self;
     ehatvec_0 := ehatvec self; evec_0 := evec self |}.

(** The assignments of [reset] before its call of [update]. *)
Definition set_initial (self : Triple_vector)
    (p : initial_params)
  : Triple_vector :=
  {| a1 := a1 self; a2 := a2 self; e1 := e1_0 p; e2 := e2_0 p;
     inc := inc_0 p; Omega := Omega_0 p; g1 := g1_0 p; m1 := m1 self;
     m2 := m2 self; m3 := m3 self; _t := 0; quadrupole := quadrupole self;
     octupole := octupole self; th := th self; j := j_0 p;
     epsoct := epsoct self; Hhatquad := Hhatquad self;
     jhatvec := jhatvec_0 p; jvec := jvec_0 p; ehatvec := ehatvec_0 p;
     evec := evec_0 p; Phi0 := Phi0 self; phiq := phiq self;
     phioct := phioct self; tsec := tsec self; Th := Th self;
     CKL := CKL self; t := t self |}.

(** [reset], on the numerical attributes; the solver is not touched. *)
Definition reset (p : initial_params) (self : Triple_vector)
  : Triple_vector :=
  update (set_initial self p).

(** Assignment of what the solver hands back. *)
Definition set_solution (self : Triple_vector)
    (tt : R) (jv : vec3) (ev : vec3)
  : Triple_vector :=
  {| a1 := a1 self; a2 := a2 self; e1 := e1 self; e2 := e2 self;
     inc := inc self; Omega := Omega self; g1 := g1 self; m1 := m1 self;
     m2 := m2 self; m3 := m3 self; _t := tt; quadrupole := quadrupole self;
     octupole := octupole self; th := th self; j := j self;
     epsoct := epsoct self; Hhatquad := Hhatquad self;
     jhatvec := jhatvec self; jvec := jv; ehatvec := ehatvec self;
     evec := ev; Phi0 := Phi0 self; phiq := phiq self;
     phioct := phioct self; tsec := tsec self; Th := Th self;
     CKL := CKL self; t := t self |}.

(** [_step], on the numerical attributes: [sol_t] and [sol_y] are
    [self.solver.t] and [self.solver.y] as [self.solver.integrate] leaves
    them; [jvec] is [y[:3]] and [evec] is [y[3:]]. *)
Definition _step (sol_t : R) (sol_y : vec6) (self : Triple_vector)
  : Triple_vector :=
  let '(y0, y1, y2, y3, y4, y5) := sol_y in
  update (set_solution self sol_t (y0, y1, y2) (y3, y4, y5)).

(** The command line of [ts_vector.py], as far as it reaches the
    numerical model: an option that is not given is [None]; [--noquad]
    and [--nooct] are given or not. *)
Record command_line : Type := {
  opt_m1 : option R; opt_m3 : option R;
  opt_a1 : option R; opt_a2 : option R;
  opt_g1 : option R; opt_Omega : option R;
  opt_e1 : option R; opt_e2 : option R; opt_inc : option R;
  opt_epsoct : option R;
  opt_noquad : bool; opt_nooct : bool
}.

(** What [parser.parse_args()] hands back. *)
Record namespace : Type := {
  ns_m1 : R; ns_m3 : R; ns_a1 : pyval; ns_a2 : pyval;
  ns_g1 : R; ns_Omega : R; ns_e1 : R; ns_e2 : pyval; ns_inc : R;
  ns_epsoct : option R; ns_quad : bool; ns_oct : bool
}.

(** [Triple_vector()]: the default arguments of the constructor. *)
Definition default_args : Triple_vector_args :=
  {| arg_a1 := 1; arg_a2 := 20; arg_e1 := 1 / 10; arg_e2 := 3 / 10;
     arg_inc := 80; arg_longascnode := 180; arg_argperi := 0;
     arg_m1 := 1; arg_m3 := 1; arg_epsoct := None;
     arg_quadrupole := true; arg_octupole := true |}.

(** [type=float] with [default=...]: the option when it is given, the
    default otherwise. *)
Definition float_option (opt : option R) (default : R) : R :=
  match opt with
  | Some x => x
  | None => default
  end.

Definition pyval_option (opt : option R) (default : pyval) : pyval :=
  match opt with
  | Some x => PyFloat x
  | None => default
  end.

(** [process_command_line]: the defaults of the options are read off the
    attributes of [def_trip = Triple_vector()]. *)
Definition process_command_line (cl : command_line) : result namespace :=
  def_trip <- __init__ default_args ;;
  Ok {| ns_m1 := float_option (opt_m1 cl) (m1 def_trip);
        ns_m3 := float_option (opt_m3 cl) (m3 def_trip);
        ns_a1 := pyval_option (opt_a1 cl) (a1 def_trip);
        ns_a2 := pyval_option (opt_a2 cl) (a2 def_trip);
        ns_g1 := float_option (opt_g1 cl) (g1 def_trip);
        ns_Omega := float_option (opt_Omega cl) (Omega def_trip);
        ns_e1 := float_option (opt_e1 cl) (e1 def_trip);
        ns_e2 := pyval_option (opt_e2 cl) (e2 def_trip);
        ns_inc := float_option (opt_inc cl) (inc def_trip);
        ns_epsoct := opt_epsoct cl;
        ns_quad := if opt_noquad cl then false else quadrupole def_trip;
        ns_oct := if opt_nooct cl then false else octupole def_trip |}.

(** [main], up to the call of [tv.integrate()]: the object it builds. *)
Definition main (cl : command_line) : result Triple_vector :=
  args <- process_command_line cl ;;
  a1_ <- float_of (ns_a1 args) ;;
  a2_ <- float_of (ns_a2 args) ;;
  e2_ <- float_of (ns_e2 args) ;;
  __init__
    {| arg_a1 := a1_; arg_a2 := a2_; arg_e1 := ns_e1 args; arg_e2 := e2_;
       arg_inc := ns_inc args; arg_longascnode := ns_Omega args;
       arg_argperi := ns_g1 args; arg_m1 := ns_m1 args;
       arg_m3 := ns_m3 args; arg_epsoct := ns_epsoct args;
       arg_quadrupole := ns_quad args; arg_octupole := ns_oct args |}.

End WithRootFinder.

End ts_vector.

(** * The integration drivers

    The drivers call [_step] (one internal step of the ODE solver followed
    by [update]), compare what it leaves in the object, and print.  The
    solver is outside of the programs: a run is given the list of the
    states that the successive calls of [_step] leave behind, and the
    readings of [time.time()].  When the list is used up and the driver
    asks for one more step the run is [Starved]. *)

Module Run.

Open Scope Q_scope.

Definition Qltb (x y : Q) : bool := negb (Qle_bool y x).

(** [np.sign]: -1, 0 or 1. *)
Definition np_sign (x : Q) : Z := Z.sgn (Qnum x).

(** One printed record: the numbers joined by blanks. *)
Definition line : Type := list Q.

(** The output file: whether it has been closed, and what was written. *)
Record file : Type := { closed : bool; content : list line }.

Definition file_write (f : file) (l : line) : file :=
  {| closed := closed f; content := content f ++ [l] |}.

Definition file_close (f : file) : file :=
  {| closed := true; content := content f |}.

(** What a driver ends with: it returns, an exception leaves it, or the
    list of solver states was too short. *)
Inductive outcome (A : Type) : Type :=
| Returns (a : A)
| Raises (e : exn) (a : A)
| Starved.

Arguments Returns {A} a.
Arguments Raises {A} e a.
Arguments Starved {A}.

Definition obind {A : Type} (m : outcome A) (k : A -> outcome A)
  : outcome A :=
  match m with
  | Returns a => k a
  | Raises e a => Raises e a
  | Starved => Starved
  end.

Declare Scope run_scope.
Delimit Scope run_scope with run.
Notation "x <- m ;; k" := (obind m (fun x => k))
  (at level 61, m at next level, right associativity) : run_scope.

End Run.

(** ** triplesec.py: integrate, ecc_extrema, printflips *)

Module triplesec_run.

Import Run.
Open Scope Q_scope.
Local Open Scope run_scope.

(** What [_step] reads back from the solver and [update] derives. *)
Record elements : Type := {
  s_t : Q; s_a1 : Q; s_e1 : Q; s_g1 : Q; s_e2 : Q; s_g2 : Q;
  s_inc : Q; s_th : Q
}.

(** The attributes of a [Triple] that the drivers use.  [outfile] is
    [None] when [outfilename] is [None]: the attribute does not exist
    then.  [ticks] counts the calls of [time.time()]. *)
Record Triple : Type := {
  now : elements;
  r1 : Q; r2 : Q; tstop : Q; cputstop : Q; outfreq : Z;
  nstep : Z; collision : bool;
  outfile : option file; stdout : list line;
  tstart : Q; ticks : nat
}.

Definition t (self : Triple) : Q := s_t (now self).
Definition a1 (self : Triple) : Q := s_a1 (now self).
Definition e1 (self : Triple) : Q := s_e1 (now self).
Definition th (self : Triple) : Q := s_th (now self).

Definition set_now (self : Triple) (x : elements) (n : Z) : Triple :=
  {| now := x; r1 := r1 self; r2 := r2 self; tstop := tstop self;
     cputstop := cputstop self; outfreq := outfreq self; nstep := n;
     collision := collision self; outfile := outfile self;
     stdout := stdout self; tstart := tstart self; ticks := ticks self |}.

Definition set_collision (self : Triple) (b : bool) : Triple :=
  {| now := now self; r1 := r1 self; r2 := r2 self; tstop := tstop self;
     cputstop := cputstop self; outfreq := outfreq self;
     nstep := nstep self; collision := b; outfile := outfile self;
     stdout := stdout self; tstart := tstart self; ticks := ticks self |}.

Definition set_output (self : Triple) (f : option file) (o : list line)
  : Triple :=
  {| now := now self; r1 := r1 self; r2 := r2 self; tstop := tstop self;
     cputstop := cputstop self; outfreq := outfreq self;
     nstep := nstep self; collision := collision self; outfile := f;
     stdout := o; tstart := tstart self; ticks := ticks self |}.

Definition set_clock (self : Triple) (start : Q) (n : nat) : Triple :=
  {| now := now self; r1 := r1 self; r2 := r2 self; tstop := tstop self;
     cputstop := cputstop self; outfreq := outfreq self;
     nstep := nstep self; collision := collision self;
     outfile := outfile self; stdout := stdout self; tstart := start;
     ticks := n |}.

(** [print outstring] or [self.outfile.write(outstring + '\n')]; writing
    to a closed file is a [ValueError]. *)
Definition emit (l : line) (self : Triple) : outcome Triple :=
  match outfile self with
  | None => Returns (set_output self None (stdout self ++ [l]))
  | Some f =>
      if closed f then Raises ValueError self
      else Returns (set_output self (Some (file_write f l)) (stdout self))
  end.

(** [self.outfile.close()]; without the attribute an [AttributeError]. *)
Definition outfile_close (self : Triple) : outcome Triple :=
  match outfile self with
  | None => Raises AttributeError self
  | Some f => Returns (set_output self (Some (file_close f)) (stdout self))
  end.

(** The output file exists and has not been closed. *)
Definition file_open (self : Triple) : Prop :=
  exists f, outfile self = Some f /\ closed f = false.

(** Where the records go, what has been written there, and whether a
    record can be written: there is no file, or the file is open. *)
Definition written (self : Triple) : list line :=
  match outfile self with
  | Some f => content f
  | None => stdout self
  end.

Definition can_write (self : Triple) : Prop :=
  match outfile self with
  | Some f => closed f = false
  | None => True
  end.

(** The record that [ts_printout] prints for the current state. *)
Definition record_now (self : Triple) : line :=
  [s_t (now self); s_a1 (now self); s_e1 (now self); s_g1 (now self);
   s_e2 (now self); s_g2 (now self); s_inc (now self)].

Definition ts_printout (self : Triple) : outcome Triple :=
  emit [t self; a1 self; s_e1 (now self); s_g1 (now self); s_e2 (now self);
        s_g2 (now self); s_inc (now self)] self.

(** [_step]: the next state of the solver, refreshed by [update]. *)
Definition _step (x : elements) (self : Triple) : Triple :=
  set_now self x (nstep self + 1).

Section Drivers.

(** The readings of [time.time()], in the order of the calls. *)
Variable clock : nat -> Q.

(** The module-level name [e], which [printflips] reads: [None] when
    [from ts_constants import *] does not bind it. *)
Variable global_e : option Q.

Definition time_time (self : Triple) : Q * Triple :=
  (clock (ticks self), set_clock self (tstart self) (S (ticks self))).

Fixpoint integrate_loop (samples : list elements) (self : Triple)
  : outcome Triple :=
  if Qltb (t self) (tstop self) then
    let (clk, self) := time_time self in
    if Qltb (clk - tstart self) (cputstop self) then
      match samples with
      | [] => Starved
      | x :: samples =>
          let self := _step x self in
          self <- (if (outfreq self =? 0)%Z then
                     Raises ZeroDivisionError self
                   else if (nstep self mod outfreq self =? 0)%Z then
                     ts_printout self
                   else Returns self) ;;
          if Qltb (a1 self * (1 - e1 self)) (r1 self + r2 self) then
            Returns (set_collision self true)
          else integrate_loop samples self
      end
    else Returns self
  else Returns self.

Definition integrate (samples : list elements) (self : Triple)
  : outcome Triple :=
  self <- ts_printout self ;;
  let (clk, self) := time_time self in
  let self := set_clock self clk (ticks self) in
  self <- integrate_loop samples self ;;
  self <- ts_printout self ;;
  match outfile self with
  | Some _ => outfile_close self
  | None => Returns self
  end.

Fixpoint ecc_extrema_loop (samples : list elements)
    (t_prev e_prev e_prev2 : Q) (self : Triple) : outcome Triple :=
  if Qltb (t self) (tstop self) then
    let (clk, self) := time_time self in
    if Qltb (clk - tstart self) (cputstop self) then
      match samples with
      | [] => Starved
      | x :: samples =>
          let self := _step x self in
          self <- (if Qltb e_prev2 e_prev && Qltb (e1 self) e_prev then
                     emit [t_prev; e_prev] self
                   else Returns self) ;;
          ecc_extrema_loop samples (t self) (e1 self) e_prev self
      end
    else Returns self
  else Returns self.

Definition ecc_extrema (samples : list elements) (self : Triple)
  : outcome Triple :=
  let (clk, self) := time_time self in
  let self := set_clock self clk (ticks self) in
  ecc_extrema_loop samples 0 0 0 self.

Fixpoint printflips_loop (samples : list elements)
    (t_prev e_prev e_prev2 : Q) (sign_prev : Z) (self : Triple)
  : outcome Triple :=
  if Qltb (t self) (tstop self) then
    match samples with
    | [] => Starved
    | x :: samples =>
        let self := _step x self in
        let is_max := Qltb e_prev2 e_prev && Qltb (e1 self) e_prev in
        self <- (if is_max && negb (np_sign (th self) =? sign_prev)%Z then
                   emit [t_prev; e_prev] self
                 else Returns self) ;;
        let sign_prev := if is_max then np_sign (th self) else sign_prev in
        match global_e with
        | None => Raises NameError self
        | Some e =>
            printflips_loop samples (t self) e e_prev sign_prev self
        end
    end
  else Returns self.

Definition printflips (samples : list elements) (self : Triple)
  : outcome Triple :=
  self <- printflips_loop samples 0 0 0 (np_sign (th self)) self ;;
  outfile_close self.

End Drivers.

End triplesec_run.

(** ** ts_vector.py: integrate, ecc_extrema, printflips *)

Module ts_vector_run.

Import Run.
Open Scope Q_scope.
Local Open Scope run_scope.

Definition qvec3 : Type := (Q * Q * Q)%type.

(** What [_step] reads back from the solver: the time, [jvec], [evec],
    and the value that [np.linalg.norm(self.evec)] has for it. *)
Record elements : Type := {
  s_t : Q; s_jvec : qvec3; s_evec : qvec3; s_norm : Q
}.

Record Triple_vector : Type := {
  now : elements;
  tstop : Q; cputstop : Q; outfreq : Z; nstep : Z;
  outfile : option file; stdout : list line;
  tstart : Q; ticks : nat
}.

Definition t (self : Triple_vector) : Q := s_t (now self).

(** [self.jvec[2]] *)
Definition jvec_2 (self : Triple_vector) : Q :=
  let '(_, _, jz) := s_jvec (now self) in jz.

Definition np_linalg_norm_evec (self : Triple_vector) : Q :=
  s_norm (now self).

Definition set_now (self : Triple_vector) (x : elements) (n : Z)
  : Triple_vector :=
  {| now := x; tstop := tstop self; cputstop := cputstop self;
     outfreq := outfreq self; nstep := n; outfile := outfile self;
     stdout := stdout self; tstart := tstart self; ticks := ticks self |}.

Definition set_output (self : Triple_vector) (f : option file)
    (o : list line) : Triple_vector :=
  {| now := now self; tstop := tstop self; cputstop := cputstop self;
     outfreq := outfreq self; nstep := nstep self; outfile := f;
     stdout := o; tstart := tstart self; ticks := ticks self |}.

Definition set_clock (self : Triple_vector) (start : Q) (n : nat)
  : Triple_vector :=
  {| now := now self; tstop := tstop self; cputstop := cputstop self;
     outfreq := outfreq self; nstep := nstep self; outfile := outfile self;
     stdout := stdout self; tstart := start; ticks := n |}.

Definition emit (l : line) (self : Triple_vector) : outcome Triple_vector :=
  match outfile self with
  | None => Returns (set_output self None (stdout self ++ [l]))
  | Some f =>
      if closed f then Raises ValueError self
      else Returns (set_output self (Some (file_write f l)) (stdout self))
  end.

Definition outfile_close (self : Triple_vector) : outcome Triple_vector :=
  match outfile self with
  | None => Raises AttributeError self
  | Some f => Returns (set_output self (Some (file_close f)) (stdout self))
  end.

(** Where the records go, what has been written there, and whether a
    record can be written: there is no file, or the file is open. *)
Definition written (self : Triple_vector) : list line :=
  match outfile self with
  | Some f => content f
  | None => stdout self
  end.

Definition can_write (self : Triple_vector) : Prop :=
  match outfile self with
  | Some f => closed f = false
  | None => True
  end.

Definition printout (self : Triple_vector) : outcome Triple_vector :=
  let '(jx, jy, jz) := s_jvec (now self) in
  let '(ex, ey, ez) := s_evec (now self) in
  emit [t self; jx; jy; jz; ex; ey; ez] self.

Definition _step (x : elements) (self : Triple_vector) : Triple_vector :=
  set_now self x (nstep self + 1).

Section Drivers.

Variable clock : nat -> Q.

Definition time_time (self : Triple_vector) : Q * Triple_vector :=
  (clock (ticks self), set_clock self (tstart self) (S (ticks self))).

Fixpoint integrate_loop (samples : list elements) (self : Triple_vector)
  : outcome Triple_vector :=
  if Qltb (t self) (tstop self) then
    let (clk, self) := time_time self in
    if Qltb (clk - tstart self) (cputstop self) then
      match samples with
      | [] => Starved
      | x :: samples =>
          let self := _step x self in
          self <- (if (outfreq self =? 0)%Z then
                     Raises ZeroDivisionError self
                   else if (nstep self mod outfreq self =? 0)%Z then
                     printout self
                   else Returns self) ;;
          integrate_loop samples self
      end
    else Returns self
  else Returns self.

Definition integrate (samples : list elements) (self : Triple_vector)
  : outcome Triple_vector :=
  self <- printout self ;;
  let (clk, self) := time_time self in
  let self := set_clock self clk (ticks self) in
  self <- integrate_loop samples self ;;
  self <- printout self ;;
  match outfile self with
  | Some _ => outfile_close self
  | None => Returns self
  end.

End Drivers.

Fixpoint ecc_extrema_loop (samples : list elements)
    (t_prev e_prev e_prev2 : Q) (self : Triple_vector)
  : outcome Triple_vector :=
  if Qltb (t self) (tstop self) then
    match samples with
    | [] => Starved
    | x :: samples =>
        let self := _step x self in
        let e := np_linalg_norm_evec self in
        self <- (if Qltb e_prev2 e_prev && Qltb e e_prev then
                   emit [t_prev; e_prev] self
                 else Returns self) ;;
        ecc_extrema_loop samples (t self) e e_prev self
    end
  else Returns self.

Definition ecc_extrema (samples : list elements) (self : Triple_vector)
  : outcome Triple_vector :=
  self <- ecc_extrema_loop samples 0 0 0 self ;;
  match outfile self with
  | Some _ => outfile_close self
  | None => Returns self
  end.

Fixpoint printflips_loop (samples : list elements)
    (t_prev e_prev e_prev2 : Q) (sign_prev : Z) (self : Triple_vector)
  : outcome Triple_vector :=
  if Qltb (t self) (tstop self) then
    match samples with
    | [] => Starved
    | x :: samples =>
        let self := _step x self in
        let e := np_linalg_norm_evec self in
        let is_max := Qltb e_prev2 e_prev && Qltb e e_prev in
        self <- (if is_max && negb (np_sign (jvec_2 self) =? sign_prev)%Z
                 then emit [t_prev; e_prev] self
                 else Returns self) ;;
        let sign_prev :=
          if is_max then np_sign (jvec_2 self) else sign_prev in
        printflips_loop samples (t self) e e_prev sign_prev self
    end
  else Returns self.

Definition printflips (samples : list elements) (self : Triple_vector)
  : outcome Triple_vector :=
  self <- printflips_loop samples 0 0 0 (np_sign (jvec_2 self)) self ;;
  outfile_close self.

(** The record that [printout] prints for the current state. *)
Definition record_now (self : Triple_vector) : line :=
  let '(jx, jy, jz) := s_jvec (now self) in
  let '(ex, ey, ez) := s_evec (now self) in
  [t self; jx; jy; jz; ex; ey; ez].

(** The eccentricity does not go down along a list of solver states that
    follows the eccentricity [e_prev]. *)
Fixpoint never_decreases (e_prev : Q) (samples : list elements) : Prop :=
  match samples with
  | [] => True
  | x :: samples => e_prev <= s_norm x /\ never_decreases (s_norm x) samples
  end.

(** [flip_times]: step until [nflips] sign changes of [j_z] have been
    seen, printing the state at each. *)
Fixpoint flip_times_loop (samples : list elements) (nflips flip_count : Z)
    (sign_prev : Z) (self : Triple_vector) : outcome Triple_vector :=
  if (flip_count <? nflips)%Z then
    match samples with
    | [] => Starved
    | x :: samples =>
        let self := _step x self in
        let sign := np_sign (jvec_2 self) in
        if negb (sign =? sign_prev)%Z then
          self <- printout self ;;
          flip_times_loop samples nflips (flip_count + 1) sign self
        else flip_times_loop samples nflips flip_count sign self
    end
  else Returns self.

Definition flip_times (samples : list elements) (nflips : Z)
    (self : Triple_vector) : outcome Triple_vector :=
  let sign := np_sign (jvec_2 self) in
  flip_times_loop samples nflips 0 sign self.

(** [np.mean] of a list: the sum over the length; of the empty list it is
    [nan], for which [None] stands. *)
Definition np_mean (l : list Q) : option Q :=
  match l with
  | [] => None
  | _ => Some (fold_left Qplus l 0 / inject_Z (Z.of_nat (length l)))
  end.

(** [flip_period]: the mean of the times between successive sign changes
    of [j_z], with [fliptime_prev = 0] standing for no flip yet. *)
Fixpoint flip_period_loop (samples : list elements) (nflips : Z)
    (sign_prev : Z) (fliptime_prev : Q) (periods : list Q)
    (self : Triple_vector) : outcome (list Q * Triple_vector) :=
  if (Z.of_nat (length periods) <? nflips)%Z then
    match samples with
    | [] => Starved
    | x :: samples =>
        let self := _step x self in
        let sign := np_sign (jvec_2 self) in
        if negb (sign =? sign_prev)%Z then
          let periods :=
            if negb (Qeq_bool fliptime_prev 0) then
              periods ++ [t self - fliptime_prev]
            else periods in
          flip_period_loop samples nflips sign (t self) periods self
        else
          flip_period_loop samples nflips sign fliptime_prev periods self
    end
  else Returns (periods, self).

Definition flip_period (samples : list elements) (nflips : Z)
    (self : Triple_vector) : outcome (option Q * Triple_vector) :=
  let sign := np_sign (jvec_2 self) in
  match flip_period_loop samples nflips sign 0 [] self with
  | Returns (periods, self) => Returns (np_mean periods, self)
  | Raises e (periods, self) => Raises e (np_mean periods, self)
  | Starved => Starved
  end.

(** The times at which the sign of [j_z] differs from its sign one step
    before, along a list of solver states. *)
Fixpoint sign_changes (sign_prev : Z) (samples : list elements) : list Q :=
  match samples with
  | [] => []
  | x :: samples =>
      let sign := np_sign (let '(_, _, jz) := s_jvec x in jz) in
      if (sign =? sign_prev)%Z then sign_changes sign samples
      else s_t x :: sign_changes sign samples
  end.

(** *** The flip test, stated on its own

    The maxima that the three-sample test detects along a run, each with
    the record it would print and the sign of [j_z] when it is detected;
    and the flips among them: the maxima whose sign differs from the one at
    the maximum before, the first one being compared with the sign at the
    start of the run. *)

Record maximum : Type := { m_record : line; m_sign : Z }.

Fixpoint detected_maxima (tstop : Q) (samples : list elements)
    (t_now t_prev e_prev e_prev2 : Q) : list maximum :=
  if Qltb t_now tstop then
    match samples with
    | [] => []
    | x :: samples =>
        let e := s_norm x in
        let rest := detected_maxima tstop samples (s_t x) (s_t x) e e_prev in
        if Qltb e_prev2 e_prev && Qltb e e_prev then
          {| m_record := [t_prev; e_prev];
             m_sign := np_sign (let '(_, _, jz) := s_jvec x in jz) |} :: rest
        else rest
    end
  else [].

Fixpoint flips (sign_prev : Z) (maxima : list maximum) : list line :=
  match maxima with
  | [] => []
  | m :: maxima =>
      if (m_sign m =? sign_prev)%Z then flips (m_sign m) maxima
      else m_record m :: flips (m_sign m) maxima
  end.

(** Whether the run of a loop over [samples] from time [t_now] comes to its
    end: the stop time is reached before the solver states are used up. *)
Fixpoint reaches_tstop (tstop : Q) (samples : list elements) (t_now : Q)
  : bool :=
  if Qltb t_now tstop then
    match samples with
    | [] => false
    | x :: samples => reaches_tstop tstop samples (s_t x)
    end
  else true.

End ts_vector_run.

(** * Concrete inputs *)

Module Inputs.

Open Scope R_scope.

(** The arguments of [Triple(...)]: the defaults, with [epsoct] as
    given. *)
Definition massive_args (eps : option R) : triplesec.Triple_args :=
  {| triplesec.arg_a1 := 1; triplesec.arg_a2 := 20;
     triplesec.arg_e1 := 1 / 10; triplesec.arg_e2 := 3 / 10;
     triplesec.arg_inc := 80;
     triplesec.arg_argperi1 := 0; triplesec.arg_argperi2 := 0;
     triplesec.arg_m1 := 1; triplesec.arg_m2 := 1; triplesec.arg_m3 := 1;
     triplesec.arg_r1 := 0; triplesec.arg_r2 := 0;
     triplesec.arg_epsoct := eps;
     triplesec.arg_quadrupole := true; triplesec.arg_octupole := true;
     triplesec.arg_hexadecapole := false; triplesec.arg_gr := false |}.

(** A quadrupole-only triple without GR, with both arguments of periapsis
    at zero; masses and lengths in the units of the program. *)
Definition quadrupole_triple : triplesec.Triple :=
  {| triplesec.a1 := PyFloat 1; triplesec.a2 := PyFloat 20;
     triplesec.e1 := 1 / 10; triplesec.e2 := PyFloat (3 / 10);
     triplesec.inc := 0; triplesec.g1 := 0; triplesec.g2 := 0;
     triplesec.m1 := 2; triplesec.m2 := 1; triplesec.m3 := 1;
     triplesec.r1 := 0; triplesec.r2 := 0;
     triplesec.epsoct := 0; triplesec.t := 0; triplesec._t := 0;
     triplesec.th := 0; triplesec._m1 := 2; triplesec._m2 := 1;
     triplesec._m3 := 1; triplesec._a1 := 1; triplesec._a2 := 20;
     triplesec.quadrupole := true; triplesec.octupole := false;
     triplesec.hexadecapole := false; triplesec.gr := false;
     triplesec.C2 := 0; triplesec.C3 := 0; triplesec._G1 := 0;
     triplesec._G2 := 0; triplesec._H := 0; triplesec.cosphi := 0 |}.

(** The same triple with the octupole term enabled: [m1 = 2], [m2 = 1]. *)
Definition octupole_triple : triplesec.Triple :=
  {| triplesec.a1 := PyFloat 1; triplesec.a2 := PyFloat 20;
     triplesec.e1 := 1 / 10; triplesec.e2 := PyFloat (3 / 10);
     triplesec.inc := 0; triplesec.g1 := 0; triplesec.g2 := 0;
     triplesec.m1 := 2; triplesec.m2 := 1; triplesec.m3 := 1;
     triplesec.r1 := 0; triplesec.r2 := 0;
     triplesec.epsoct := 0; triplesec.t := 0; triplesec._t := 0;
     triplesec.th := 0; triplesec._m1 := 2; triplesec._m2 := 1;
     triplesec._m3 := 1; triplesec._a1 := 1; triplesec._a2 := 20;
     triplesec.quadrupole := true; triplesec.octupole := true;
     triplesec.hexadecapole := false; triplesec.gr := false;
     triplesec.C2 := 0; triplesec.C3 := 0; triplesec._G1 := 0;
     triplesec._G2 := 0; triplesec._H := 0; triplesec.cosphi := 0 |}.

(** A state [y] of the massive model at these elements. *)
Definition massive_state : vec6 := (1, 1 / 10, 0, 3 / 10, 0, 1).

(** The arguments of [Triple_vector(...)]: the defaults, with the
    octupole flag and [epsoct] as given. *)
Definition vector_args (oct : bool) (eps : option R)
  : ts_vector.Triple_vector_args :=
  {| ts_vector.arg_a1 := 1; ts_vector.arg_a2 := 20;
     ts_vector.arg_e1 := 1 / 10; ts_vector.arg_e2 := 3 / 10;
     ts_vector.arg_inc := 80; ts_vector.arg_longascnode := 180;
     ts_vector.arg_argperi := 0; ts_vector.arg_m1 := 1;
     ts_vector.arg_m3 := 1; ts_vector.arg_epsoct := eps;
     ts_vector.arg_quadrupole := true; ts_vector.arg_octupole := oct |}.

(** A state of the test particle model: [j = (0, 0, 3/5)] and
    [e = (0, 4/5, 0)], orthogonal, with [|j|^2 + |e|^2 = 1]. *)
Definition vector_state : vec6 := (0, 0, 3 / 5, 0, 4 / 5, 0).

(** A root finder that hands back the same point whatever it is asked. *)
Definition constant_root (f : ts_vector.vec3 -> list (option R))
    (x0 : ts_vector.vec3) : result ts_vector.vec3 :=
  Ok (1, 0, 0).

(** The arguments of [Triple(...)] for a circular outer orbit. *)
Definition circular_args : triplesec.Triple_args :=
  {| triplesec.arg_a1 := 1; triplesec.arg_a2 := 20;
     triplesec.arg_e1 := 1 / 10; triplesec.arg_e2 := 0;
     triplesec.arg_inc := 80;
     triplesec.arg_argperi1 := 0; triplesec.arg_argperi2 := 0;
     triplesec.arg_m1 := 1; triplesec.arg_m2 := 1; triplesec.arg_m3 := 1;
     triplesec.arg_r1 := 0; triplesec.arg_r2 := 0;
     triplesec.arg_epsoct := None;
     triplesec.arg_quadrupole := true; triplesec.arg_octupole := true;
     triplesec.arg_hexadecapole := false; triplesec.arg_gr := false |}.

(** What the solver may hand back to [quadrupole_triple], for [G = 1]:
    an inner semi-major axis of [2], the eccentricities [1/10] and
    [3/10], the angles [7] and [-1], and the total angular momentum of
    these elements at an inclination of 90 degrees. *)
Definition solver_G1 : R :=
  2 * 1 * sqrt (1 * 1 * (1 - (1 / 10) ^ 2) / (2 + 1)).

Definition solver_G2 : R :=
  (2 + 1) * 1 * sqrt (1 * 20 * (1 - (3 / 10) ^ 2) / (2 + 1 + 1)).

Definition solver_state : vec6 :=
  (2, 1 / 10, 7, 3 / 10, -1,
   sqrt (2 * solver_G1 * solver_G2 * cos (PI / 2) +
         solver_G1 ^ 2 + solver_G2 ^ 2)).

(** A command line without any option. *)
Definition massive_no_options : triplesec.command_line :=
  {| triplesec.opt_m1 := None; triplesec.opt_m2 := None;
     triplesec.opt_m3 := None; triplesec.opt_r1 := None;
     triplesec.opt_r2 := None; triplesec.opt_a1 := None;
     triplesec.opt_a2 := None; triplesec.opt_g1 := None;
     triplesec.opt_g2 := None; triplesec.opt_e1 := None;
     triplesec.opt_e2 := None; triplesec.opt_inc := None;
     triplesec.opt_noquad := false; triplesec.opt_nooct := false;
     triplesec.opt_GR := false; triplesec.opt_hex := false |}.

Definition vector_no_options : ts_vector.command_line :=
  {| ts_vector.opt_m1 := None; ts_vector.opt_m3 := None;
     ts_vector.opt_a1 := None; ts_vector.opt_a2 := None;
     ts_vector.opt_g1 := None; ts_vector.opt_Omega := None;
     ts_vector.opt_e1 := None; ts_vector.opt_e2 := None;
     ts_vector.opt_inc := None; ts_vector.opt_epsoct := None;
     ts_vector.opt_noquad := false; ts_vector.opt_nooct := false |}.

End Inputs.

(** ** Runs *)

Module RunInputs.

Import Run.
Open Scope Q_scope.

(** A state of the massive model as [_step] leaves it, with the time, the
    inner eccentricity and the cosine of the inclination as given. *)
Definition massive_elements (t e th : Q) : triplesec_run.elements :=
  {| triplesec_run.s_t := t; triplesec_run.s_a1 := 1;
     triplesec_run.s_e1 := e; triplesec_run.s_g1 := 0;
     triplesec_run.s_e2 := 0.3; triplesec_run.s_g2 := 0;
     triplesec_run.s_inc := 80; triplesec_run.s_th := th |}.

(** A [Triple] at time 0 with [e1 = 0.1], printing on every step, with
    the stop time, the CPU budget and the output file as given. *)
Definition massive_triple (tstop cputstop : Q) (out : option file)
  : triplesec_run.Triple :=
  {| triplesec_run.now := massive_elements 0 0.1 0.17;
     triplesec_run.r1 := 0; triplesec_run.r2 := 0;
     triplesec_run.tstop := tstop; triplesec_run.cputstop := cputstop;
     triplesec_run.outfreq := 1; triplesec_run.nstep := 0;
     triplesec_run.collision := false;
     triplesec_run.outfile := out; triplesec_run.stdout := [];
     triplesec_run.tstart := 0; triplesec_run.ticks := 0 |}.

(** A state of the test particle model with [j = (0, 0, jz)] and
    [e = (e, 0, 0)]. *)
Definition vector_elements (t e jz : Q) : ts_vector_run.elements :=
  {| ts_vector_run.s_t := t; ts_vector_run.s_jvec := (0, 0, jz);
     ts_vector_run.s_evec := (e, 0, 0); ts_vector_run.s_norm := e |}.

Definition vector_triple (tstop cputstop jz : Q) (out : option file)
  : ts_vector_run.Triple_vector :=
  {| ts_vector_run.now := vector_elements 0 0.1 jz;
     ts_vector_run.tstop := tstop; ts_vector_run.cputstop := cputstop;
     ts_vector_run.outfreq := 1; ts_vector_run.nstep := 0;
     ts_vector_run.outfile := out; ts_vector_run.stdout := [];
     ts_vector_run.tstart := 0; ts_vector_run.ticks := 0 |}.

(** An output file that has just been opened. *)
Definition fresh_file : file := {| closed := false; content := [] |}.

(** A clock that advances by one second at every reading. *)
Definition seconds (n : nat) : Q := inject_Z (Z.of_nat n).

(** The eccentricities 0.1, 0.3, 0.5, 0.4, 0.2 at the times 0, 1, 2, 3, 4. *)
Definition eccentricity_samples : list (Q * Q) :=
  [(0, 0.1); (1, 0.3); (2, 0.5); (3, 0.4); (4, 0.2)].

Definition massive_trace : list triplesec_run.elements :=
  map (fun p => massive_elements (fst p) (snd p) 0.17) eccentricity_samples.

Definition vector_trace : list ts_vector_run.elements :=
  map (fun p => vector_elements (fst p) (snd p) 0.6) eccentricity_samples.

(** Ten steps with eccentricity maxima of 0.5 at the times 1, 3, 5, 7
    and 9, each detected one step later; the sign of [j_z] there is
    +, +, -, -, +. *)
Definition flip_trace : list ts_vector_run.elements :=
  [ vector_elements 1 0.5 0.6; vector_elements 2 0.1 0.6;
    vector_elements 3 0.5 0.6; vector_elements 4 0.1 0.6;
    vector_elements 5 0.5 (-0.6); vector_elements 6 0.1 (-0.6);
    vector_elements 7 0.5 (-0.6); vector_elements 8 0.1 (-0.6);
    vector_elements 9 0.5 0.6; vector_elements 10 0.1 0.6 ].

(** The same [Triple] with an output frequency of zero. *)
Definition massive_triple_outfreq_zero (tstop cputstop : Q)
    (out : option file) : triplesec_run.Triple :=
  {| triplesec_run.now := massive_elements 0 0.1 0.17;
     triplesec_run.r1 := 0; triplesec_run.r2 := 0;
     triplesec_run.tstop := tstop; triplesec_run.cputstop := cputstop;
     triplesec_run.outfreq := 0; triplesec_run.nstep := 0;
     triplesec_run.collision := false;
     triplesec_run.outfile := out; triplesec_run.stdout := [];
     triplesec_run.tstart := 0; triplesec_run.ticks := 0 |}.

(** A clock that stands still. *)
Definition stopped_clock (n : nat) : Q := 0.

(** Three steps along which the eccentricity rises. *)
Definition rising_trace : list ts_vector_run.elements :=
  [ vector_elements 0 0.1 0.6; vector_elements 1 0.3 0.6;
    vector_elements 2 0.5 0.6 ].

End RunInputs.

(** * Properties of the equations of motion *)

Section EquationsOfMotion.

Open Scope R_scope.

Variables G c : R.

(** C7: with the GR flag disabled the first entry of what [Triple._deriv]
    returns, the derivative of [a1], is exactly [0], whatever the state
    and the other three flags are. *)
Theorem deriv_da1dt_zero_without_gr :
  forall (self : triplesec.Triple) (t : R) (y : vec6),
    triplesec.gr self = false ->
    item0 (triplesec._deriv G c self t y) = 0.
Proof.
  intros self t y Hgr.
  destruct y as [[[[[a1 e1] g1] e2] g2] H].
  unfold triplesec._deriv.
  rewrite Hgr.
  reflexivity.
Qed.

(** X4: With the GR flag disabled the last entry of what [Triple._deriv]
    returns, the derivative of [H], is exactly [0], whatever the state and
    the other flags are: only the GR branch adds to it. *)
Lemma deriv_dHdt_zero_without_gr :
  forall (self : triplesec.Triple) (t : R) (y : vec6),
    triplesec.gr self = false ->
    item5 (triplesec._deriv G c self t y) = 0.
Proof.
  intros self t y Hgr.
  destruct y as [[[[[a1 e1] g1] e2] g2] H].
  unfold triplesec._deriv.
  rewrite Hgr.
  reflexivity.
Qed.

(** What [_deriv] takes for [cosphi]: the product of the cosines enters
    with a plus sign. *)
Lemma deriv_cosphi_formula :
  forall (self : triplesec.Triple) (a1 e1 g1 e2 g2 H : R),
    let L := triplesec._deriv_locals G self (a1, e1, g1, e2, g2, H) in
    triplesec.l_cosphi L =
    cos g1 * cos g2 - triplesec.l_th L * sin g1 * sin g2.
Proof. reflexivity. Qed.

(** What [calc_cosphi] assigns: Eq. 23 of Blaes et al., with a minus
    sign. *)
Lemma calc_cosphi_formula :
  forall self : triplesec.Triple,
    triplesec.cosphi (triplesec.calc_cosphi self) =
    - cos (triplesec.g1 self) * cos (triplesec.g2 self) -
    triplesec.th self * sin (triplesec.g1 self) * sin (triplesec.g2 self).
Proof. reflexivity. Qed.

(** The two differ by twice the product of the cosines. *)
Lemma deriv_cosphi_minus_calc_cosphi :
  forall (self : triplesec.Triple) (a1 e1 e2 H : R),
    let y := (a1, e1, triplesec.g1 self, e2, triplesec.g2 self, H) in
    let L := triplesec._deriv_locals G self y in
    triplesec.l_cosphi L -
    triplesec.cosphi
      (triplesec.calc_cosphi (triplesec.set_th self (triplesec.l_th L))) =
    2 * cos (triplesec.g1 self) * cos (triplesec.g2 self).
Proof.
  intros self a1 e1 e2 H y L.
  rewrite calc_cosphi_formula.
  unfold L, y. rewrite deriv_cosphi_formula.
  cbn [triplesec.set_th triplesec.g1 triplesec.g2 triplesec.th].
  ring.
Qed.

(** C1: at a state with both arguments of periapsis at zero the [cosphi]
    that [_deriv] uses for the octupole terms is [1], while the formula of
    the claim, which [calc_cosphi] implements, gives [-1] for the same
    inclination cosine: the octupole terms are not evaluated with
    [-cos g1 cos g2 - th sin g1 sin g2]. *)
Theorem deriv_cosphi_is_not_calc_cosphi :
  forall (self : triplesec.Triple) (a1 e1 e2 H : R),
    triplesec.g1 self = 0 ->
    triplesec.g2 self = 0 ->
    let y := (a1, e1, triplesec.g1 self, e2, triplesec.g2 self, H) in
    let L := triplesec._deriv_locals G self y in
    triplesec.l_cosphi L = 1 /\
    triplesec.cosphi
      (triplesec.calc_cosphi (triplesec.set_th self (triplesec.l_th L))) =
    -1.
Proof.
  intros self a1 e1 e2 H Hg1 Hg2 y L.
  split.
  - unfold L, y. rewrite deriv_cosphi_formula.
    rewrite Hg1, Hg2, cos_0, sin_0. ring.
  - rewrite calc_cosphi_formula.
    cbn [triplesec.set_th triplesec.g1 triplesec.g2 triplesec.th].
    rewrite Hg1, Hg2, cos_0, sin_0. ring.
Qed.

End EquationsOfMotion.

Lemma deriv_cosphi_is_not_calc_cosphi_witness :
  let self := Inputs.octupole_triple in
  let L := triplesec._deriv_locals 1 self (1, 1 / 10, 0, 3 / 10, 0, 1) in
  triplesec.l_cosphi L = 1 /\
  triplesec.cosphi
    (triplesec.calc_cosphi (triplesec.set_th self (triplesec.l_th L))) = -1.
Proof.
  apply (deriv_cosphi_is_not_calc_cosphi 1 Inputs.octupole_triple
           1 (1 / 10) (3 / 10) 1); reflexivity.
Defined.

Lemma deriv_da1dt_zero_without_gr_witness :
  item0 (triplesec._deriv 1 1 Inputs.quadrupole_triple 0
           Inputs.massive_state) = 0.
Proof.
  apply deriv_da1dt_zero_without_gr.
  reflexivity.
Defined.

(** * The coefficients inside the equations of motion *)

Section Coefficients.

Open Scope R_scope.

Variable G : R.

Lemma Rdiv_neq_0 : forall a b : R, a <> 0 -> b <> 0 -> a / b <> 0.
Proof.
  intros a b Ha Hb. unfold Rdiv.
  apply Rmult_integral_contrapositive_currified; [ assumption | ].
  apply Rinv_neq_0_compat; assumption.
Qed.

Lemma Rpower_neq_0 : forall x y : R, Rpower x y <> 0.
Proof.
  intros x y. unfold Rpower. apply Rgt_not_eq, exp_pos.
Qed.

Ltac nonzero :=
  repeat first
    [ assumption
    | apply Rpower_neq_0
    | apply Rdiv_neq_0
    | apply Rmult_integral_contrapositive_currified
    | apply pow_nonzero
    | lra ].

(** With both flags enabled and the attributes [_a1], [e1] and [e2] of the
    object equal to the entries of the state, [calc_C], [calc_G1] and
    [calc_G2] agree with what [_deriv] recomputes for [C2], [G1] and [G2];
    the two values of [C3] are opposite, [calc_C] having [m1 - m2] where
    [_deriv] has [m2 - m1]. *)
Lemma deriv_coefficients_and_calc :
  forall (self : triplesec.Triple) (a1 e1 g1 e2 g2 H : R),
    triplesec.quadrupole self = true ->
    triplesec.octupole self = true ->
    triplesec._a1 self = a1 ->
    triplesec.e1 self = e1 ->
    triplesec.e2 self = PyFloat e2 ->
    let L := triplesec._deriv_locals G self (a1, e1, g1, e2, g2, H) in
    (exists s, triplesec.calc_C G self = Ok s /\
               triplesec.C2 s = triplesec.l_C2 L /\
               triplesec.C3 s = - triplesec.l_C3 L) /\
    triplesec._G1 (triplesec.calc_G1 G self) = triplesec.l_G1 L /\
    (exists s, triplesec.calc_G2 G self = Ok s /\
               triplesec._G2 s = triplesec.l_G2 L).
Proof.
  intros self a1 e1 g1 e2 g2 H Hq Ho Ha1 He1 He2 L.
  unfold L, triplesec._deriv_locals, triplesec.calc_C, triplesec.calc_G1,
    triplesec.calc_G2.
  rewrite Hq, Ho, He2, Ha1, He1.
  cbn.
  repeat split.
  - eexists. split; [ reflexivity | ]. cbn. split.
    + reflexivity.
    + unfold Rdiv. ring.
  - eexists. split; reflexivity.
Qed.

(** C2: for a triple with unequal inner masses the [C3] that [_deriv]
    recomputes is not the [C3] that [calc_C] computes for the same [a1],
    [e1] and [e2], although the two values of [C2] agree. *)
Theorem deriv_C3_is_not_calc_C3 :
  forall (self : triplesec.Triple) (a1 e1 g1 e2 g2 H : R),
    triplesec.quadrupole self = true ->
    triplesec.octupole self = true ->
    triplesec._a1 self = a1 ->
    triplesec.e1 self = e1 ->
    triplesec.e2 self = PyFloat e2 ->
    G <> 0 -> a1 <> 0 -> triplesec._a2 self <> 0 ->
    triplesec._m1 self <> 0 -> triplesec._m2 self <> 0 ->
    triplesec._m3 self <> 0 ->
    triplesec._m1 self + triplesec._m2 self <> 0 ->
    triplesec._m1 self <> triplesec._m2 self ->
    let L := triplesec._deriv_locals G self (a1, e1, g1, e2, g2, H) in
    exists s, triplesec.calc_C G self = Ok s /\
              triplesec.C2 s = triplesec.l_C2 L /\
              triplesec.C3 s <> triplesec.l_C3 L.
Proof.
  intros self a1 e1 g1 e2 g2 H Hq Ho Ha1 He1 He2 HG Ha Ha2 Hm1 Hm2 Hm3
    Hm12 Hneq L.
  destruct (deriv_coefficients_and_calc self a1 e1 g1 e2 g2 H
              Hq Ho Ha1 He1 He2) as [[s [Hs [HC2 HC3]]] _].
  exists s. split; [ exact Hs | ]. split; [ exact HC2 | ].
  fold L in HC3. rewrite HC3. intro Heq.
  assert (H0 : triplesec.l_C3 L = 0) by lra.
  revert H0. unfold L, triplesec._deriv_locals. cbn.
  assert (Hd : triplesec._m2 self - triplesec._m1 self <> 0) by lra.
  nonzero.
Qed.

End Coefficients.

Lemma deriv_C3_is_not_calc_C3_witness :
  let self := Inputs.octupole_triple in
  let L := triplesec._deriv_locals 1 self Inputs.massive_state in
  exists s, triplesec.calc_C 1 self = Ok s /\
            triplesec.C2 s = triplesec.l_C2 L /\
            triplesec.C3 s <> triplesec.l_C3 L.
Proof.
  apply (deriv_C3_is_not_calc_C3 1 Inputs.octupole_triple
           1 (1 / 10) 0 (3 / 10) 0 1);
    try reflexivity; cbn; lra.
Defined.

(** * Conservation laws of the test particle equations *)

Section KozaiIntegral.

Open Scope R_scope.

(** The third entry of [Triple_vector._deriv], the derivative of [j_z]:
    the quadrupole gradients cancel, the octupole ones are scaled by
    [epsoct]. *)
Lemma vector_deriv_jz :
  forall (t jx jy jz ex ey ez epsoct : R),
    item2 (ts_vector._deriv t (jx, jy, jz, ex, ey, ez) epsoct) =
    epsoct *
    (75 / 32 * jy * ez * jz -
     75 / 64 *
     (1 / 5 - 8 / 5 * (ex ^ 2 + ey ^ 2 + ez ^ 2) + 7 * ez ^ 2 - jz ^ 2) * ey).
Proof.
  intros. cbn. field.
Qed.

(** With [epsoct = 0], the quadrupole potential alone, [j_z] has a zero
    derivative at every state. *)
Lemma vector_jz_constant_for_zero_epsoct :
  forall (t : R) (y : vec6), item2 (ts_vector._deriv t y 0) = 0.
Proof.
  intros t y. destruct y as [[[[[jx jy] jz] ex] ey] ez].
  rewrite vector_deriv_jz. ring.
Qed.

(** X15: With [epsoct = 0], the quadrupole potential alone, Kozai's integral
    [j_z ^ 2] is constant along every curve that follows the equations:
    where [j_z] has the derivative that [_deriv] gives, [j_z ^ 2] has the
    derivative 0. *)
Lemma kozai_integral_constant_for_zero_epsoct :
  forall (y : R -> vec6) (tau : R),
    derivable_pt_lim (fun s => item2 (y s)) tau
      (item2 (ts_vector._deriv tau (y tau) 0)) ->
    derivable_pt_lim (fun s => item2 (y s) * item2 (y s)) tau 0.
Proof.
  intros y tau Hd.
  rewrite vector_jz_constant_for_zero_epsoct in Hd.
  replace 0 with (0 * item2 (y tau) + item2 (y tau) * 0) by ring.
  apply (derivable_pt_lim_mult _ _ tau 0 0 Hd Hd).
Qed.

Variable root : (ts_vector.vec3 -> list (option R)) ->
                ts_vector.vec3 -> result ts_vector.vec3.

(** What the constructor leaves in [epsoct] and in the flags when
    [epsoct] is not supplied: the octupole flag does not enter
    [epsoct]. *)
Lemma vector_init_epsoct :
  forall (args : ts_vector.Triple_vector_args) (self : ts_vector.Triple_vector),
    ts_vector.arg_epsoct args = None ->
    ts_vector.__init__ root args = Ok self ->
    ts_vector.epsoct self =
      ts_vector.arg_e2 args / (1 - (ts_vector.arg_e2 args) ^ 2) *
      (ts_vector.arg_a1 args / ts_vector.arg_a2 args) /\
    ts_vector.octupole self = ts_vector.arg_octupole args /\
    ts_vector.quadrupole self = ts_vector.arg_quadrupole args.
Proof.
  intros args self Heps Hinit.
  unfold ts_vector.__init__ in Hinit. rewrite Heps in Hinit.
  destruct (root _ _) as [v | e]; cbn in Hinit; [ | discriminate ].
  destruct v as [[v0 v1] v2].
  cbn in Hinit.
  injection Hinit as <-.
  cbn. repeat split; reflexivity.
Qed.

(** C6: a test particle model built with the octupole flag off and the
    other defaults still integrates the octupole terms: at the state
    [j = (0, 0, 3/5)], [e = (0, 4/5, 0)] the derivative of [j_z] that the
    solver is given is not zero, and neither is that of Kozai's integral
    [j_z ^ 2]. *)
Theorem vector_octupole_flag_does_not_reach_deriv :
  forall self : ts_vector.Triple_vector,
    ts_vector.__init__ root (Inputs.vector_args false None) = Ok self ->
    ts_vector.octupole self = false /\
    item2 (ts_vector.solver_f self 0 Inputs.vector_state) = 333 / 18200 /\
    2 * item2 Inputs.vector_state *
      item2 (ts_vector.solver_f self 0 Inputs.vector_state) <> 0.
Proof.
  intros self Hinit.
  destruct (vector_init_epsoct (Inputs.vector_args false None) self
              eq_refl Hinit) as [Heps [Hoct _]].
  cbn in Heps, Hoct.
  assert (Hjz : item2 (ts_vector.solver_f self 0 Inputs.vector_state)
                = 333 / 18200).
  { unfold ts_vector.solver_f, Inputs.vector_state.
    rewrite vector_deriv_jz, Heps. field. }
  split; [ exact Hoct | ]. split; [ exact Hjz | ].
  rewrite Hjz. cbn. lra.
Qed.

End KozaiIntegral.

Lemma vector_octupole_flag_does_not_reach_deriv_witness :
  exists self : ts_vector.Triple_vector,
    ts_vector.__init__ Inputs.constant_root (Inputs.vector_args false None)
      = Ok self /\
    ts_vector.octupole self = false /\
    item2 (ts_vector.solver_f self 0 Inputs.vector_state) = 333 / 18200.
Proof.
  eexists. split; [ reflexivity | ].
  destruct (vector_octupole_flag_does_not_reach_deriv
              Inputs.constant_root _ eq_refl) as [Hoct [Hjz _]].
  split; [ exact Hoct | exact Hjz ].
Defined.

(** * The initial eccentricity vector *)

Section EvecRoot.

Open Scope R_scope.





End EvecRoot.


(** * Construction with [epsoct] *)

Section ConstructionWithEpsoct.

Open Scope R_scope.

Variables G M_sun au yr2s : R.
Variable root : (ts_vector.vec3 -> list (option R)) ->
                ts_vector.vec3 -> result ts_vector.vec3.

(** Without [epsoct] the three attributes keep the floats they were
    given. *)
Lemma vector_init_keeps_floats :
  forall (args : ts_vector.Triple_vector_args) (self : ts_vector.Triple_vector),
    ts_vector.arg_epsoct args = None ->
    ts_vector.__init__ root args = Ok self ->
    ts_vector.a1 self = PyFloat (ts_vector.arg_a1 args) /\
    ts_vector.a2 self = PyFloat (ts_vector.arg_a2 args) /\
    ts_vector.e2 self = PyFloat (ts_vector.arg_e2 args).
Proof.
  intros args self Heps Hinit.
  unfold ts_vector.__init__ in Hinit. rewrite Heps in Hinit.
  destruct (root _ _) as [v | e]; cbn in Hinit; [ | discriminate ].
  destruct v as [[v0 v1] v2].
  cbn in Hinit.
  injection Hinit as <-.
  cbn. repeat split; reflexivity.
Qed.

(** [calc_th] inverts the relation that gives [H] from [G1], [G2] and the
    cosine of the inclination. *)
Lemma calc_th_inverts_H :
  forall (G1 G2 th : R),
    0 < G1 -> 0 < G2 -> -1 <= th <= 1 ->
    ((sqrt (2 * G1 * G2 * th + G1 ^ 2 + G2 ^ 2)) ^ 2 - G1 ^ 2 - G2 ^ 2) /
    (2 * G1 * G2) = th.
Proof.
  intros G1 G2 th H1 H2 Hth.
  assert (Hp : 0 < G1 * G2) by (apply Rmult_lt_0_compat; assumption).
  assert (Hq : 0 <= (G1 - G2) ^ 2) by apply pow2_ge_0.
  assert (Hx : 0 <= 2 * G1 * G2 * th + G1 ^ 2 + G2 ^ 2).
  { replace (2 * G1 * G2 * th + G1 ^ 2 + G2 ^ 2)
      with ((G1 - G2) ^ 2 + 2 * (G1 * G2) * (1 + th)) by ring.
    apply Rplus_le_le_0_compat; [ exact Hq | ].
    apply Rmult_le_pos; lra. }
  replace ((sqrt (2 * G1 * G2 * th + G1 ^ 2 + G2 ^ 2)) ^ 2)
    with (2 * G1 * G2 * th + G1 ^ 2 + G2 ^ 2).
  - field. split; lra.
  - symmetry. apply pow2_sqrt. exact Hx.
Qed.

(** [calc_C] succeeds on an object whose [e2] is a float. *)
Lemma calc_C_float :
  forall (self : triplesec.Triple) (x : R),
    triplesec.e2 self = PyFloat x ->
    exists c2 c3, triplesec.calc_C G self = Ok (triplesec.set_C self c2 c3).
Proof.
  intros self x He2. unfold triplesec.calc_C. rewrite He2.
  destruct (triplesec.quadrupole self), (triplesec.octupole self);
    cbn [float_of bind]; eexists; eexists; reflexivity.
Qed.

Lemma sqrt_quotient_pos :
  forall a e m : R,
    0 < G -> 0 < a -> -1 < e < 1 -> 0 < m ->
    0 < sqrt (G * a * (1 - e ^ 2) / m).
Proof.
  intros a e m HG Ha He Hm.
  apply sqrt_lt_R0.
  apply Rdiv_lt_0_compat; [ | exact Hm ].
  apply Rmult_lt_0_compat.
  - apply Rmult_lt_0_compat; assumption.
  - nra.
Qed.

(** [update] on an object whose [e2] is a float, written out: only
    [math.acos] can fail. *)
Lemma update_float :
  forall (self : triplesec.Triple) (x : R),
    triplesec.e2 self = PyFloat x ->
    exists c2 c3,
      let G1v :=
        triplesec._m1 self * triplesec._m2 self *
        sqrt (G * triplesec._a1 self * (1 - triplesec.e1 self ^ 2) /
              (triplesec._m1 self + triplesec._m2 self)) in
      let G2v :=
        (triplesec._m1 self + triplesec._m2 self) * triplesec._m3 self *
        sqrt (G * triplesec._a2 self * (1 - x ^ 2) /
              (triplesec._m1 self + triplesec._m2 self +
               triplesec._m3 self)) in
      let thv :=
        ((triplesec._H self) ^ 2 - G1v ^ 2 - G2v ^ 2) / (2 * G1v * G2v) in
      let s4 :=
        triplesec.set_th
          (triplesec.set_G2
             (triplesec.set_G1
                (triplesec.calc_cosphi (triplesec.set_C self c2 c3)) G1v)
             G2v) thv in
      triplesec.update G au yr2s self =
      bind (math_acos thv)
        (fun i => Ok (triplesec.set_units s4 (i * 180 / PI)
                        (PyFloat (triplesec._a1 self / au))
                        (triplesec._t self / yr2s))).
Proof.
  intros self x He2.
  destruct (calc_C_float self x He2) as [c2 [c3 Hc]].
  exists c2, c3. intros G1v G2v thv s4.
  unfold triplesec.update. rewrite Hc. cbn [bind].
  unfold triplesec.calc_G2.
  replace (triplesec.e2
             (triplesec.calc_G1 G
                (triplesec.calc_cosphi (triplesec.set_C self c2 c3))))
    with (PyFloat x) by (symmetry; exact He2).
  cbn [float_of bind].
  reflexivity.
Qed.

(** [update] on an object whose [_H] was derived from an inclination
    cosine [th0]: it succeeds and [calc_th] recovers [th0]. *)
Lemma update_recovers_th :
  forall (self : triplesec.Triple) (x th0 : R),
    let G1v :=
      triplesec._m1 self * triplesec._m2 self *
      sqrt (G * triplesec._a1 self * (1 - triplesec.e1 self ^ 2) /
            (triplesec._m1 self + triplesec._m2 self)) in
    let G2v :=
      (triplesec._m1 self + triplesec._m2 self) * triplesec._m3 self *
      sqrt (G * triplesec._a2 self * (1 - x ^ 2) /
            (triplesec._m1 self + triplesec._m2 self +
             triplesec._m3 self)) in
    triplesec.e2 self = PyFloat x ->
    0 < G -> 0 < triplesec._m1 self -> 0 < triplesec._m2 self ->
    0 < triplesec._m3 self ->
    0 < triplesec._a1 self -> 0 < triplesec._a2 self ->
    -1 < triplesec.e1 self < 1 -> -1 < x < 1 ->
    -1 <= th0 <= 1 ->
    triplesec._H self = sqrt (2 * G1v * G2v * th0 + G1v ^ 2 + G2v ^ 2) ->
    exists s,
      triplesec.update G au yr2s self = Ok s /\
      triplesec.th s = th0 /\
      triplesec.a1 s = PyFloat (triplesec._a1 self / au) /\
      triplesec.e2 s = PyFloat x /\
      triplesec.epsoct s = triplesec.epsoct self.
Proof.
  intros self x th0 G1v G2v He2 HG Hm1 Hm2 Hm3 Ha1 Ha2 He1 Hx Hth HH.
  assert (HG1 : 0 < G1v).
  { unfold G1v. apply Rmult_lt_0_compat.
    - apply Rmult_lt_0_compat; assumption.
    - apply sqrt_quotient_pos; try assumption. lra. }
  assert (HG2 : 0 < G2v).
  { unfold G2v. apply Rmult_lt_0_compat.
    - apply Rmult_lt_0_compat; [ lra | assumption ].
    - apply sqrt_quotient_pos; try assumption. lra. }
  destruct (update_float self x He2) as [c2 [c3 Hupd]].
  cbv zeta in Hupd. fold G1v G2v in Hupd.
  rewrite HH, (calc_th_inverts_H G1v G2v th0 HG1 HG2 Hth) in Hupd.
  rewrite Hupd. unfold math_acos.
  destruct (Rle_dec (-1) th0) as [_ | Hn]; [ | exfalso; lra ].
  destruct (Rle_dec th0 1) as [_ | Hn]; [ | exfalso; lra ].
  cbn [bind].
  eexists. split; [ reflexivity | ].
  repeat split. exact He2.
Qed.

(** Without [epsoct], and for positive constants, masses and semi-major
    axes and eccentricities below one, [Triple.__init__] produces an
    object; the inclination cosine that [update] recomputes is the cosine
    of the given inclination. *)
Lemma massive_init_succeeds :
  forall args : triplesec.Triple_args,
    0 < G -> 0 < M_sun -> 0 < au ->
    0 < triplesec.arg_m1 args -> 0 < triplesec.arg_m2 args ->
    0 < triplesec.arg_m3 args ->
    0 < triplesec.arg_a1 args -> 0 < triplesec.arg_a2 args ->
    -1 < triplesec.arg_e1 args < 1 ->
    -1 < triplesec.arg_e2 args < 1 ->
    triplesec.arg_epsoct args = None ->
    exists self,
      triplesec.__init__ G M_sun au yr2s args = Ok self /\
      triplesec.th self = cos (triplesec.arg_inc args * PI / 180) /\
      triplesec.a1 self = PyFloat (triplesec.arg_a1 args * au / au) /\
      triplesec.e2 self = PyFloat (triplesec.arg_e2 args) /\
      triplesec.epsoct self =
        triplesec.arg_e2 args / (1 - triplesec.arg_e2 args ^ 2) *
        triplesec.arg_a1 args / triplesec.arg_a2 args.
Proof.
  intros args HG HM Hau Hm1 Hm2 Hm3 Ha1 Ha2 He1 He2 Heps.
  unfold triplesec.__init__. rewrite Heps.
  cbn [py_mul bind].
  match goal with
  | |- context [triplesec.calc_C G ?s] =>
      destruct (calc_C_float s (triplesec.arg_e2 args) eq_refl)
        as [c2 [c3 ->]]
  end.
  cbn [bind].
  unfold triplesec.calc_G2 at 1.
  cbn [triplesec.calc_G1 triplesec.set_G1 triplesec.set_C triplesec.e2
       float_of bind].
  match goal with
  | |- context [triplesec.update G au yr2s ?s] =>
      destruct (update_recovers_th s (triplesec.arg_e2 args)
                  (cos (triplesec.arg_inc args * PI / 180)))
        as [s' [Hs' [Hth [Ha [He Hepsoct]]]]]
  end; try reflexivity; cbn; try assumption;
    try (apply Rmult_lt_0_compat; assumption).
  - apply COS_bound.
  - exists s'. split; [ exact Hs' | ].
    split; [ exact Hth | ]. split; [ exact Ha | ].
    split; [ exact He | exact Hepsoct ].
Qed.

(** When the root finder hands back a point, the test particle
    constructor with [epsoct] ends in the [TypeError] of [None ** 2]. *)
Lemma vector_init_with_epsoct_type_error :
  forall (args : ts_vector.Triple_vector_args) (eps : R) (v : ts_vector.vec3),
    ts_vector.arg_epsoct args = Some eps ->
    (forall f x0, root f x0 = Ok v) ->
    ts_vector.__init__ root args = Raise TypeError.
Proof.
  intros args eps v Heps Hroot.
  unfold ts_vector.__init__. rewrite Heps, Hroot.
  reflexivity.
Qed.

(** C4: when [epsoct] is supplied neither constructor produces an
    object.  [Triple.__init__] sets [a1], [a2] and [e2] to [None] and then
    raises [TypeError] at [self.a1 * au]; [Triple_vector.__init__] sets
    them to [None] and cannot succeed either, whatever the root finder
    does. *)
Theorem init_with_epsoct_does_not_succeed :
  forall (args : triplesec.Triple_args)
         (vargs : ts_vector.Triple_vector_args) (eps veps : R),
    triplesec.arg_epsoct args = Some eps ->
    ts_vector.arg_epsoct vargs = Some veps ->
    triplesec.__init__ G M_sun au yr2s args = Raise TypeError /\
    succeeds (ts_vector.__init__ root vargs) = false.
Proof.
  intros args vargs eps veps Heps Hveps. split.
  - unfold triplesec.__init__. rewrite Heps. reflexivity.
  - unfold ts_vector.__init__. rewrite Hveps.
    destruct (root _ _) as [v | e]; reflexivity.
Qed.

End ConstructionWithEpsoct.

Lemma init_with_epsoct_does_not_succeed_witness :
  triplesec.__init__ 1 1 1 1 (Inputs.massive_args (Some (1 / 100)%R))
    = Raise TypeError /\
  succeeds (ts_vector.__init__ Inputs.constant_root
              (Inputs.vector_args true (Some (1 / 100)%R))) = false.
Proof.
  apply (init_with_epsoct_does_not_succeed 1 1 1 1 Inputs.constant_root
           (Inputs.massive_args (Some (1 / 100)%R))
           (Inputs.vector_args true (Some (1 / 100)%R))
           (1 / 100)%R (1 / 100)%R); reflexivity.
Defined.

(** The default triple is constructed when [epsoct] is left out. *)
Example massive_init_default_succeeds :
  exists self,
    triplesec.__init__ 1 1 1 1 (Inputs.massive_args None) = Ok self /\
    triplesec.th self = cos (80 * PI / 180).
Proof.
  destruct (massive_init_succeeds 1 1 1 1 (Inputs.massive_args None))
    as [self [Hinit [Hth _]]]; cbn; try lra; try reflexivity.
  exists self. split; [ exact Hinit | exact Hth ].
Qed.

(** * The drivers *)

Section Comparisons.

Import Run.
Open Scope Q_scope.

Lemma Qltb_lt : forall x y : Q, Qltb x y = true <-> x < y.
Proof.
  intros x y. unfold Qltb. rewrite negb_true_iff.
  split.
  - intro H. apply Qnot_le_lt. intro Hle.
    apply Qle_bool_iff in Hle. congruence.
  - intro H. destruct (Qle_bool y x) eqn:E; [ | reflexivity ].
    apply Qle_bool_iff in E. exfalso. apply (Qlt_not_le _ _ H E).
Qed.

(** A reading of the clock that is not before the start is never within a
    budget of [-1]. *)
Lemma elapsed_not_below_minus_one :
  forall start clk : Q, start <= clk -> Qltb (clk - start) (-1) = false.
Proof.
  intros start clk Hle.
  destruct (Qltb (clk - start) (-1)) eqn:E; [ | reflexivity ].
  apply Qltb_lt in E. exfalso.
  assert (H0 : 0 <= clk - start).
  { setoid_replace 0 with (start - start) by ring.
    apply Qplus_le_l. exact Hle. }
  apply (Qlt_not_le _ _ E).
  apply Qle_trans with 0; [ discriminate | exact H0 ].
Qed.

Lemma Qltb_irrefl : forall x : Q, Qltb x x = false.
Proof.
  intro x. unfold Qltb.
  replace (Qle_bool x x) with true; [ reflexivity | ].
  symmetry. apply Qle_bool_iff. apply Qle_refl.
Qed.

End Comparisons.

Section CpuBudget.

Import Run.
Open Scope Q_scope.

Variable clock : nat -> Q.
Hypothesis clock_monotone : forall n : nat, clock n <= clock (S n).

(** Printing never asks the solver for a step, and touches neither the
    budget, the clock, the step count nor the elements. *)
Lemma massive_emit_cases :
  forall (l : line) (self : triplesec_run.Triple),
    (exists s, triplesec_run.emit l self = Returns s /\
               triplesec_run.cputstop s = triplesec_run.cputstop self /\
               triplesec_run.ticks s = triplesec_run.ticks self /\
               triplesec_run.nstep s = triplesec_run.nstep self /\
               triplesec_run.now s = triplesec_run.now self) \/
    triplesec_run.emit l self = Raises ValueError self.
Proof.
  intros l self. unfold triplesec_run.emit.
  destruct (triplesec_run.outfile self) as [f | ].
  - destruct (closed f).
    + right. reflexivity.
    + left. eexists. repeat split; reflexivity.
  - left. eexists. repeat split; reflexivity.
Qed.

Lemma vector_emit_cases :
  forall (l : line) (self : ts_vector_run.Triple_vector),
    (exists s, ts_vector_run.emit l self = Returns s /\
               ts_vector_run.cputstop s = ts_vector_run.cputstop self /\
               ts_vector_run.ticks s = ts_vector_run.ticks self /\
               ts_vector_run.nstep s = ts_vector_run.nstep self /\
               ts_vector_run.now s = ts_vector_run.now self) \/
    ts_vector_run.emit l self = Raises ValueError self.
Proof.
  intros l self. unfold ts_vector_run.emit.
  destruct (ts_vector_run.outfile self) as [f | ].
  - destruct (closed f).
    + right. reflexivity.
    + left. eexists. repeat split; reflexivity.
  - left. eexists. repeat split; reflexivity.
Qed.

(** The end of [integrate]: the last record and the closing of the
    file. *)
Lemma massive_integrate_end :
  forall (l : line) (self : triplesec_run.Triple),
    let r :=
      obind (triplesec_run.emit l self)
        (fun s => match triplesec_run.outfile s with
                  | Some _ => triplesec_run.outfile_close s
                  | None => Returns s
                  end) in
    r <> Starved /\
    forall s, r = Returns s ->
              triplesec_run.nstep s = triplesec_run.nstep self /\
              triplesec_run.now s = triplesec_run.now self.
Proof.
  intros l self r. unfold r.
  destruct (massive_emit_cases l self)
    as [[s1 [-> [_ [_ [Hn Hnow]]]]] | ->]; cbn [obind].
  - unfold triplesec_run.outfile_close.
    destruct (triplesec_run.outfile s1) as [f | ].
    + split; [ discriminate | ].
      intros s [= <-]. split; assumption.
    + split; [ discriminate | ].
      intros s [= <-]. split; assumption.
  - split; [ discriminate | ]. intros s [=].
Qed.

Lemma vector_integrate_end :
  forall (l : line) (self : ts_vector_run.Triple_vector),
    let r :=
      obind (ts_vector_run.emit l self)
        (fun s => match ts_vector_run.outfile s with
                  | Some _ => ts_vector_run.outfile_close s
                  | None => Returns s
                  end) in
    r <> Starved /\
    forall s, r = Returns s ->
              ts_vector_run.nstep s = ts_vector_run.nstep self /\
              ts_vector_run.now s = ts_vector_run.now self.
Proof.
  intros l self r. unfold r.
  destruct (vector_emit_cases l self)
    as [[s1 [-> [_ [_ [Hn Hnow]]]]] | ->]; cbn [obind].
  - unfold ts_vector_run.outfile_close.
    destruct (ts_vector_run.outfile s1) as [f | ].
    + split; [ discriminate | ].
      intros s [= <-]. split; assumption.
    + split; [ discriminate | ].
      intros s [= <-]. split; assumption.
  - split; [ discriminate | ]. intros s [=].
Qed.

(** With a budget of [-1] the loop of [Triple.integrate] leaves at its
    first test, whatever the solver has to offer. *)
Lemma massive_loop_budget_minus_one :
  forall (samples : list triplesec_run.elements)
         (self : triplesec_run.Triple),
    triplesec_run.cputstop self = -1 ->
    triplesec_run.tstart self <= clock (triplesec_run.ticks self) ->
    exists s,
      triplesec_run.integrate_loop clock samples self = Returns s /\
      triplesec_run.integrate_loop clock [] self = Returns s /\
      triplesec_run.nstep s = triplesec_run.nstep self /\
      triplesec_run.now s = triplesec_run.now self.
Proof.
  intros samples self Hcpu Hclk.
  destruct samples as [ | x samples];
    cbn [triplesec_run.integrate_loop triplesec_run.time_time];
    destruct (Qltb (triplesec_run.t self) (triplesec_run.tstop self));
    cbn [triplesec_run.tstart triplesec_run.cputstop
         triplesec_run.set_clock];
    try rewrite Hcpu;
    try rewrite (elapsed_not_below_minus_one _ _ Hclk);
    eexists; repeat split; reflexivity.
Qed.

Lemma vector_loop_budget_minus_one :
  forall (samples : list ts_vector_run.elements)
         (self : ts_vector_run.Triple_vector),
    ts_vector_run.cputstop self = -1 ->
    ts_vector_run.tstart self <= clock (ts_vector_run.ticks self) ->
    exists s,
      ts_vector_run.integrate_loop clock samples self = Returns s /\
      ts_vector_run.integrate_loop clock [] self = Returns s /\
      ts_vector_run.nstep s = ts_vector_run.nstep self /\
      ts_vector_run.now s = ts_vector_run.now self.
Proof.
  intros samples self Hcpu Hclk.
  destruct samples as [ | x samples];
    cbn [ts_vector_run.integrate_loop ts_vector_run.time_time];
    destruct (Qltb (ts_vector_run.t self) (ts_vector_run.tstop self));
    cbn [ts_vector_run.tstart ts_vector_run.cputstop
         ts_vector_run.set_clock];
    try rewrite Hcpu;
    try rewrite (elapsed_not_below_minus_one _ _ Hclk);
    eexists; repeat split; reflexivity.
Qed.

Lemma massive_integrate_budget_minus_one :
  forall (samples : list triplesec_run.elements)
         (self : triplesec_run.Triple),
    triplesec_run.cputstop self = -1 ->
    triplesec_run.integrate clock samples self =
      triplesec_run.integrate clock [] self /\
    triplesec_run.integrate clock samples self <> Starved /\
    forall s, triplesec_run.integrate clock samples self = Returns s ->
              triplesec_run.nstep s = triplesec_run.nstep self /\
              triplesec_run.now s = triplesec_run.now self.
Proof.
  intros samples self Hcpu.
  unfold triplesec_run.integrate, triplesec_run.ts_printout.
  match goal with
  | |- context [triplesec_run.emit ?l self] =>
      destruct (massive_emit_cases l self)
        as [[s1 [-> [Hc1 [Ht1 [Hn1 Hnow1]]]]] | ->]
  end; cbn [obind].
  2: { repeat split; try discriminate. }
  cbn [triplesec_run.time_time].
  set (s2 := triplesec_run.set_clock _ _ _).
  destruct (massive_loop_budget_minus_one samples s2)
    as [s3 [-> [-> [Hn3 Hnow3]]]].
  { unfold s2. cbn. rewrite Hc1. exact Hcpu. }
  { unfold s2. cbn. apply clock_monotone. }
  cbn [obind].
  split; [ reflexivity | ].
  unfold triplesec_run.t, triplesec_run.a1.
  match goal with
  | |- context [triplesec_run.emit ?l s3] =>
      destruct (massive_integrate_end l s3) as [Hns Hret]
  end.
  split; [ exact Hns | ].
  intros s Hs. destruct (Hret s Hs) as [Hn Hnow].
  rewrite Hn, Hnow, Hn3, Hnow3. unfold s2. cbn.
  split; assumption.
Qed.

Lemma vector_integrate_budget_minus_one :
  forall (samples : list ts_vector_run.elements)
         (self : ts_vector_run.Triple_vector),
    ts_vector_run.cputstop self = -1 ->
    ts_vector_run.integrate clock samples self =
      ts_vector_run.integrate clock [] self /\
    ts_vector_run.integrate clock samples self <> Starved /\
    forall s, ts_vector_run.integrate clock samples self = Returns s ->
              ts_vector_run.nstep s = ts_vector_run.nstep self /\
              ts_vector_run.now s = ts_vector_run.now self.
Proof.
  intros samples self Hcpu.
  unfold ts_vector_run.integrate, ts_vector_run.printout.
  destruct (ts_vector_run.s_jvec (ts_vector_run.now self))
    as [[jx jy] jz] eqn:Ej.
  destruct (ts_vector_run.s_evec (ts_vector_run.now self))
    as [[ex ey] ez] eqn:Ee.
  match goal with
  | |- context [ts_vector_run.emit ?l self] =>
      destruct (vector_emit_cases l self)
        as [[s1 [-> [Hc1 [Ht1 [Hn1 Hnow1]]]]] | ->]
  end; cbn [obind].
  2: { repeat split; try discriminate. }
  cbn [ts_vector_run.time_time].
  set (s2 := ts_vector_run.set_clock _ _ _).
  destruct (vector_loop_budget_minus_one samples s2)
    as [s3 [-> [-> [Hn3 Hnow3]]]].
  { unfold s2. cbn. rewrite Hc1. exact Hcpu. }
  { unfold s2. cbn. apply clock_monotone. }
  cbn [obind].
  split; [ reflexivity | ].
  destruct (ts_vector_run.s_jvec (ts_vector_run.now s3)) as [[jx' jy'] jz'].
  destruct (ts_vector_run.s_evec (ts_vector_run.now s3)) as [[ex' ey'] ez'].
  match goal with
  | |- context [ts_vector_run.emit ?l s3] =>
      destruct (vector_integrate_end l s3) as [Hns Hret]
  end.
  split; [ exact Hns | ].
  intros s Hs. destruct (Hret s Hs) as [Hn Hnow].
  rewrite Hn, Hnow, Hn3, Hnow3. unfold s2. cbn.
  split; assumption.
Qed.

(** C3: with [cputstop = -1] and a clock that does not run backwards,
    [integrate] never takes a step in either model: the run is the same
    with no solver state on offer, it is not [Starved], and when it returns
    the step count and the elements are those it started with, so that the
    time has not advanced towards [tstop]. *)
Theorem integrate_with_cputstop_minus_one_takes_no_step :
  (forall (samples : list triplesec_run.elements)
          (self : triplesec_run.Triple),
      triplesec_run.cputstop self = -1 ->
      triplesec_run.integrate clock samples self =
        triplesec_run.integrate clock [] self /\
      triplesec_run.integrate clock samples self <> Starved /\
      forall s, triplesec_run.integrate clock samples self = Returns s ->
                triplesec_run.nstep s = triplesec_run.nstep self /\
                triplesec_run.now s = triplesec_run.now self) /\
  (forall (samples : list ts_vector_run.elements)
          (self : ts_vector_run.Triple_vector),
      ts_vector_run.cputstop self = -1 ->
      ts_vector_run.integrate clock samples self =
        ts_vector_run.integrate clock [] self /\
      ts_vector_run.integrate clock samples self <> Starved /\
      forall s, ts_vector_run.integrate clock samples self = Returns s ->
                ts_vector_run.nstep s = ts_vector_run.nstep self /\
                ts_vector_run.now s = ts_vector_run.now self).
Proof.
  split.
  - exact massive_integrate_budget_minus_one.
  - exact vector_integrate_budget_minus_one.
Qed.

End CpuBudget.

Lemma seconds_monotone :
  forall n : nat, (RunInputs.seconds n <= RunInputs.seconds (S n))%Q.
Proof.
  intro n. unfold RunInputs.seconds. rewrite <- Zle_Qle. lia.
Qed.

(** The default run to [tstop = 4] on a trace of five steps: with a budget
    of 300 seconds it takes the five steps and reaches the stop time, with
    a budget of [-1] it takes none and prints the initial record twice. *)
Example massive_integrate_within_budget :
  exists s,
    triplesec_run.integrate RunInputs.seconds RunInputs.massive_trace
      (RunInputs.massive_triple 4 300 None) = Run.Returns s /\
    triplesec_run.nstep s = 5%Z /\
    triplesec_run.t s = 4%Q /\
    length (triplesec_run.stdout s) = 7%nat.
Proof.
  eexists. split; [ vm_compute; reflexivity | ].
  repeat split.
Qed.

Example massive_integrate_budget_minus_one_run :
  exists s,
    triplesec_run.integrate RunInputs.seconds RunInputs.massive_trace
      (RunInputs.massive_triple 4 (-1) None) = Run.Returns s /\
    triplesec_run.nstep s = 0%Z /\
    triplesec_run.t s = 0%Q /\
    triplesec_run.stdout s =
      [[0; 1; 0.1; 0; 0.3; 0; 80]; [0; 1; 0.1; 0; 0.3; 0; 80]]%Q.
Proof.
  eexists. split; [ vm_compute; reflexivity | ].
  repeat split.
Qed.

Lemma integrate_with_cputstop_minus_one_takes_no_step_witness :
  let self := RunInputs.massive_triple 4 (-1) None in
  triplesec_run.integrate RunInputs.seconds RunInputs.massive_trace self =
    triplesec_run.integrate RunInputs.seconds [] self /\
  triplesec_run.integrate RunInputs.seconds RunInputs.massive_trace self
    <> Run.Starved /\
  forall s,
    triplesec_run.integrate RunInputs.seconds RunInputs.massive_trace self
      = Run.Returns s ->
    triplesec_run.nstep s = triplesec_run.nstep self /\
    triplesec_run.now s = triplesec_run.now self.
Proof.
  apply (proj1 (integrate_with_cputstop_minus_one_takes_no_step
                  RunInputs.seconds seconds_monotone)
           RunInputs.massive_trace (RunInputs.massive_triple 4 (-1) None)).
  reflexivity.
Defined.

(** * Closing the output file *)

Section OutputFile.

Import Run.
Open Scope Q_scope.

Variable clock : nat -> Q.

Lemma massive_emit_keeps_file_open :
  forall (l : line) (self : triplesec_run.Triple),
    triplesec_run.file_open self ->
    exists s, triplesec_run.emit l self = Returns s /\
              triplesec_run.file_open s.
Proof.
  intros l self [f [Hf Hopen]].
  unfold triplesec_run.emit. rewrite Hf, Hopen.
  eexists. split; [ reflexivity | ].
  exists (file_write f l). split; [ reflexivity | exact Hopen ].
Qed.

(** Along the loop of [Triple.ecc_extrema] an open file stays open:
    nothing in the loop closes it. *)
Lemma massive_ecc_extrema_loop_keeps_file_open :
  forall (samples : list triplesec_run.elements)
         (t_prev e_prev e_prev2 : Q) (self s : triplesec_run.Triple),
    triplesec_run.file_open self ->
    triplesec_run.ecc_extrema_loop clock samples t_prev e_prev e_prev2 self
      = Returns s ->
    triplesec_run.file_open s.
Proof.
  induction samples as [ | x samples IH];
    intros t_prev e_prev e_prev2 self s Hopen;
    cbn [triplesec_run.ecc_extrema_loop triplesec_run.time_time];
    destruct (Qltb (triplesec_run.t self) (triplesec_run.tstop self));
    try (intros [= <-]; exact Hopen);
    destruct (Qltb _ _);
    try discriminate;
    try (intros [= <-]; exact Hopen).
  set (s1 := triplesec_run._step x _).
  assert (Hopen1 : triplesec_run.file_open s1) by exact Hopen.
  destruct (Qltb e_prev2 e_prev && Qltb (triplesec_run.e1 s1) e_prev).
  - destruct (massive_emit_keeps_file_open [t_prev; e_prev] s1 Hopen1)
      as [s2 [-> Hopen2]].
    cbn [obind]. apply IH. exact Hopen2.
  - cbn [obind]. apply IH. exact Hopen1.
Qed.

(** C5: [Triple.ecc_extrema] returns with the output file still open:
    when the file was opened at construction and the extrema-only mode of
    the massive model comes to its end, by the stop time or by the CPU
    budget, the file has not been closed. *)
Theorem massive_ecc_extrema_leaves_file_open :
  forall (samples : list triplesec_run.elements)
         (self s : triplesec_run.Triple) (f : file),
    triplesec_run.outfile self = Some f ->
    closed f = false ->
    triplesec_run.ecc_extrema clock samples self = Returns s ->
    exists f', triplesec_run.outfile s = Some f' /\ closed f' = false.
Proof.
  intros samples self s f Hf Hopen.
  unfold triplesec_run.ecc_extrema. cbn [triplesec_run.time_time].
  apply massive_ecc_extrema_loop_keeps_file_open.
  exists f. split; [ exact Hf | exact Hopen ].
Qed.

(** X12: [Triple.printflips] reads the name [e] at the end of its first pass
    through the loop; when no such global exists the [NameError] leaves the
    routine right after the first step, before [self.outfile.close()], the
    file still open. *)
Lemma massive_printflips_name_error :
  forall (x : triplesec_run.elements)
         (samples : list triplesec_run.elements)
         (self : triplesec_run.Triple) (f : file),
    triplesec_run.outfile self = Some f ->
    closed f = false ->
    Qltb (triplesec_run.t self) (triplesec_run.tstop self) = true ->
    triplesec_run.printflips None (x :: samples) self =
      Raises NameError (triplesec_run._step x self).
Proof.
  intros x samples self f Hf Hopen Ht.
  unfold triplesec_run.printflips.
  cbn [triplesec_run.printflips_loop]. rewrite Ht.
  replace (Qltb 0 0) with false by reflexivity.
  cbn [andb obind]. reflexivity.
Qed.

(** Were the name [e] bound by [ts_constants], to a value [v], the loop
    of [Triple.printflips] would compare [v] with itself from its third
    pass on and report nothing any more. *)
Lemma massive_printflips_bound_e_silent :
  forall (v : Q) (samples : list triplesec_run.elements)
         (t_prev : Q) (sign_prev : Z) (self s : triplesec_run.Triple),
    triplesec_run.printflips_loop (Some v) samples t_prev v v sign_prev self
      = Returns s ->
    triplesec_run.stdout s = triplesec_run.stdout self /\
    triplesec_run.outfile s = triplesec_run.outfile self.
Proof.
  intros v samples.
  induction samples as [ | x samples IH]; intros t_prev sign_prev self s;
    cbn [triplesec_run.printflips_loop];
    destruct (Qltb (triplesec_run.t self) (triplesec_run.tstop self));
    try discriminate;
    try (intros [= <-]; split; reflexivity).
  rewrite Qltb_irrefl. cbn [andb obind].
  intro Hs. apply IH in Hs. exact Hs.
Qed.

(** The other drivers: an output file is never lost, and it is closed
    on the way out. *)
Lemma massive_emit_keeps_file :
  forall (l : line) (self s : triplesec_run.Triple),
    triplesec_run.outfile self <> None ->
    triplesec_run.emit l self = Returns s ->
    triplesec_run.outfile s <> None.
Proof.
  intros l self s Hf. unfold triplesec_run.emit.
  destruct (triplesec_run.outfile self) as [f | ]; [ | contradiction ].
  destruct (closed f); [ discriminate | ].
  intros [= <-]. discriminate.
Qed.

Lemma massive_integrate_loop_keeps_file :
  forall (samples : list triplesec_run.elements)
         (self s : triplesec_run.Triple),
    triplesec_run.outfile self <> None ->
    triplesec_run.integrate_loop clock samples self = Returns s ->
    triplesec_run.outfile s <> None.
Proof.
  induction samples as [ | x samples IH]; intros self s Hf;
    cbn [triplesec_run.integrate_loop triplesec_run.time_time];
    destruct (Qltb (triplesec_run.t self) (triplesec_run.tstop self));
    try (intros [= <-]; exact Hf);
    destruct (Qltb _ _);
    try discriminate;
    try (intros [= <-]; exact Hf).
  set (s1 := triplesec_run._step x _).
  assert (Hf1 : triplesec_run.outfile s1 <> None) by exact Hf.
  unfold triplesec_run.ts_printout.
  destruct (triplesec_run.outfreq s1 =? 0)%Z; [ discriminate | ].
  destruct (triplesec_run.nstep s1 mod triplesec_run.outfreq s1 =? 0)%Z.
  - match goal with
    | |- context [triplesec_run.emit ?l s1] =>
        destruct (triplesec_run.emit l s1) as [s2 | e s2 | ] eqn:E
    end; cbn [obind]; try discriminate.
    apply massive_emit_keeps_file in E; [ | exact Hf1 ].
    destruct (Qltb _ _).
    + intros [= <-]. exact E.
    + apply IH. exact E.
  - cbn [obind]. destruct (Qltb _ _).
    + intros [= <-]. exact Hf1.
    + apply IH. exact Hf1.
Qed.

(** [Triple.integrate] closes the file on each of its ways out of the
    loop: stop time, CPU budget and collision. *)
Lemma massive_integrate_closes_file :
  forall (samples : list triplesec_run.elements)
         (self s : triplesec_run.Triple),
    triplesec_run.outfile self <> None ->
    triplesec_run.integrate clock samples self = Returns s ->
    exists f, triplesec_run.outfile s = Some f /\ closed f = true.
Proof.
  intros samples self s Hf.
  unfold triplesec_run.integrate, triplesec_run.ts_printout.
  match goal with
  | |- context [triplesec_run.emit ?l self] =>
      destruct (triplesec_run.emit l self) as [s1 | e s1 | ] eqn:E1
  end; cbn [obind]; try discriminate.
  apply massive_emit_keeps_file in E1; [ | exact Hf ].
  cbn [triplesec_run.time_time].
  match goal with
  | |- context [triplesec_run.integrate_loop clock samples ?s0] =>
      destruct (triplesec_run.integrate_loop clock samples s0)
        as [s2 | e s2 | ] eqn:E2
  end; cbn [obind]; try discriminate.
  apply massive_integrate_loop_keeps_file in E2; [ | exact E1 ].
  match goal with
  | |- context [triplesec_run.emit ?l s2] =>
      destruct (triplesec_run.emit l s2) as [s3 | e s3 | ] eqn:E3
  end; cbn [obind]; try discriminate.
  apply massive_emit_keeps_file in E3; [ | exact E2 ].
  unfold triplesec_run.outfile_close.
  destruct (triplesec_run.outfile s3) as [f | ]; [ | contradiction ].
  intros [= <-]. exists (file_close f). split; reflexivity.
Qed.

Lemma vector_emit_keeps_file :
  forall (l : line) (self s : ts_vector_run.Triple_vector),
    ts_vector_run.outfile self <> None ->
    ts_vector_run.emit l self = Returns s ->
    ts_vector_run.outfile s <> None.
Proof.
  intros l self s Hf. unfold ts_vector_run.emit.
  destruct (ts_vector_run.outfile self) as [f | ]; [ | contradiction ].
  destruct (closed f); [ discriminate | ].
  intros [= <-]. discriminate.
Qed.

Lemma vector_ecc_extrema_loop_keeps_file :
  forall (samples : list ts_vector_run.elements)
         (t_prev e_prev e_prev2 : Q) (self s : ts_vector_run.Triple_vector),
    ts_vector_run.outfile self <> None ->
    ts_vector_run.ecc_extrema_loop samples t_prev e_prev e_prev2 self
      = Returns s ->
    ts_vector_run.outfile s <> None.
Proof.
  induction samples as [ | x samples IH];
    intros t_prev e_prev e_prev2 self s Hf;
    cbn [ts_vector_run.ecc_extrema_loop];
    destruct (Qltb (ts_vector_run.t self) (ts_vector_run.tstop self));
    try discriminate;
    try (intros [= <-]; exact Hf).
  set (s1 := ts_vector_run._step x self).
  assert (Hf1 : ts_vector_run.outfile s1 <> None) by exact Hf.
  destruct (Qltb e_prev2 e_prev &&
            Qltb (ts_vector_run.np_linalg_norm_evec s1) e_prev).
  - destruct (ts_vector_run.emit [t_prev; e_prev] s1)
      as [s2 | e s2 | ] eqn:E; cbn [obind]; try discriminate.
    apply vector_emit_keeps_file in E; [ | exact Hf1 ].
    apply IH. exact E.
  - cbn [obind]. apply IH. exact Hf1.
Qed.

(** X25: [Triple_vector.ecc_extrema], unlike [Triple.ecc_extrema], closes
    the output file when it returns. *)
Lemma vector_ecc_extrema_closes_file :
  forall (samples : list ts_vector_run.elements)
         (self s : ts_vector_run.Triple_vector),
    ts_vector_run.outfile self <> None ->
    ts_vector_run.ecc_extrema samples self = Returns s ->
    exists f, ts_vector_run.outfile s = Some f /\ closed f = true.
Proof.
  intros samples self s Hf.
  unfold ts_vector_run.ecc_extrema.
  destruct (ts_vector_run.ecc_extrema_loop samples 0 0 0 self)
    as [s1 | e s1 | ] eqn:E; cbn [obind]; try discriminate.
  apply vector_ecc_extrema_loop_keeps_file in E; [ | exact Hf ].
  unfold ts_vector_run.outfile_close.
  destruct (ts_vector_run.outfile s1) as [f | ]; [ | contradiction ].
  intros [= <-]. exists (file_close f). split; reflexivity.
Qed.

End OutputFile.

Lemma massive_ecc_extrema_leaves_file_open_witness :
  exists s,
    triplesec_run.ecc_extrema RunInputs.seconds RunInputs.massive_trace
      (RunInputs.massive_triple 4 300 (Some RunInputs.fresh_file))
      = Run.Returns s /\
    exists f', triplesec_run.outfile s = Some f' /\ Run.closed f' = false.
Proof.
  eexists. split; [ vm_compute; reflexivity | ].
  apply (massive_ecc_extrema_leaves_file_open RunInputs.seconds
           RunInputs.massive_trace
           (RunInputs.massive_triple 4 300 (Some RunInputs.fresh_file))
           _ RunInputs.fresh_file);
    reflexivity.
Defined.

(** * Eccentricity maxima *)

(** C8: on the eccentricities 0.1, 0.3, 0.5, 0.4, 0.2 at the times 0, 1,
    2, 3, 4 the extrema-only mode of either model prints exactly one
    record, the time 2 with the eccentricity 0.5; this is so whether the
    five samples are all left by steps or the first one is the initial
    state of the object. *)
Theorem ecc_extrema_reports_the_single_maximum :
  (exists s,
      triplesec_run.ecc_extrema RunInputs.seconds RunInputs.massive_trace
        (RunInputs.massive_triple 4 300 None) = Run.Returns s /\
      triplesec_run.stdout s = [[2; 0.5]]%Q) /\
  (exists s,
      triplesec_run.ecc_extrema RunInputs.seconds
        (tl RunInputs.massive_trace)
        (RunInputs.massive_triple 4 300 None) = Run.Returns s /\
      triplesec_run.stdout s = [[2; 0.5]]%Q) /\
  (exists s,
      ts_vector_run.ecc_extrema RunInputs.vector_trace
        (RunInputs.vector_triple 4 300 0.6 None) = Run.Returns s /\
      ts_vector_run.stdout s = [[2; 0.5]]%Q) /\
  (exists s,
      ts_vector_run.ecc_extrema (tl RunInputs.vector_trace)
        (RunInputs.vector_triple 4 300 0.6 None) = Run.Returns s /\
      ts_vector_run.stdout s = [[2; 0.5]]%Q).
Proof.
  repeat split; eexists; (split; [ vm_compute; reflexivity | reflexivity ]).
Qed.

(** * Flips *)

Section Flips.

Import Run.
Open Scope Q_scope.

Lemma vector_emit_written :
  forall (l : line) (self : ts_vector_run.Triple_vector),
    ts_vector_run.can_write self ->
    exists s,
      ts_vector_run.emit l self = Returns s /\
      ts_vector_run.can_write s /\
      ts_vector_run.written s = ts_vector_run.written self ++ [l] /\
      ts_vector_run.now s = ts_vector_run.now self /\
      ts_vector_run.tstop s = ts_vector_run.tstop self /\
      (forall f, ts_vector_run.outfile self = Some f ->
                 ts_vector_run.outfile s = Some (file_write f l)) /\
      (ts_vector_run.outfile self = None ->
       ts_vector_run.outfile s = None).
Proof.
  intros l self Hw.
  unfold ts_vector_run.emit, ts_vector_run.can_write,
    ts_vector_run.written in *.
  destruct (ts_vector_run.outfile self) as [f | ].
  - rewrite Hw. eexists. split; [ reflexivity | ]. cbn.
    repeat split; try assumption; try discriminate.
    intros f0 [= <-]. reflexivity.
  - eexists. split; [ reflexivity | ]. cbn.
    repeat split; discriminate.
Qed.

(** The loop of [Triple_vector.printflips] writes the flips among the
    maxima it detects, and nothing else, when the stop time is reached
    before the solver states are used up. *)
Lemma vector_printflips_loop_flips :
  forall (samples : list ts_vector_run.elements)
         (t_prev e_prev e_prev2 : Q) (sign_prev : Z)
         (self : ts_vector_run.Triple_vector),
    ts_vector_run.can_write self ->
    ts_vector_run.reaches_tstop (ts_vector_run.tstop self) samples
      (ts_vector_run.t self) = true ->
    exists s,
      ts_vector_run.printflips_loop samples t_prev e_prev e_prev2
        sign_prev self = Returns s /\
      ts_vector_run.can_write s /\
      (ts_vector_run.outfile s = None <->
       ts_vector_run.outfile self = None) /\
      ts_vector_run.written s =
        ts_vector_run.written self ++
        ts_vector_run.flips sign_prev
          (ts_vector_run.detected_maxima (ts_vector_run.tstop self) samples
             (ts_vector_run.t self) t_prev e_prev e_prev2).
Proof.
  induction samples as [ | x samples IH];
    intros t_prev e_prev e_prev2 sign_prev self Hw Hreach;
    cbn [ts_vector_run.printflips_loop ts_vector_run.reaches_tstop
         ts_vector_run.detected_maxima] in *;
    destruct (Qltb (ts_vector_run.t self) (ts_vector_run.tstop self))
      eqn:Et;
    try discriminate;
    try (exists self; cbn [ts_vector_run.flips]; rewrite app_nil_r;
         repeat split; auto; fail).
  set (s1 := ts_vector_run._step x self) in *.
  assert (Hw1 : ts_vector_run.can_write s1) by exact Hw.
  change (ts_vector_run.np_linalg_norm_evec s1)
    with (ts_vector_run.s_norm x).
  change (ts_vector_run.jvec_2 s1)
    with (let '(_, _, jz) := ts_vector_run.s_jvec x in jz).
  set (sgn := np_sign (let '(_, _, jz) := ts_vector_run.s_jvec x in jz)).
  destruct (Qltb e_prev2 e_prev && Qltb (ts_vector_run.s_norm x) e_prev)
    eqn:Emax;
    cbn [andb ts_vector_run.flips ts_vector_run.m_sign
         ts_vector_run.m_record].
  - destruct (sgn =? sign_prev)%Z eqn:Es; cbn [negb obind].
    + destruct (IH (ts_vector_run.t s1) (ts_vector_run.s_norm x) e_prev sgn
                  s1 Hw1 Hreach) as [s [Hs [Hws [Hmode Hout]]]].
      exists s. repeat split; try assumption; try apply Hmode.
    + destruct (vector_emit_written [t_prev; e_prev] s1 Hw1)
        as [s2 [-> [Hw2 [Hwr2 [Hnow2 [Hstop2 [Hsome2 Hnone2]]]]]]].
      cbn [obind].
      assert (Ht2 : ts_vector_run.t s2 = ts_vector_run.s_t x).
      { unfold ts_vector_run.t. rewrite Hnow2. reflexivity. }
      assert (Hj2 : np_sign (ts_vector_run.jvec_2 s2) = sgn).
      { unfold ts_vector_run.jvec_2. rewrite Hnow2. reflexivity. }
      rewrite Ht2, Hj2.
      destruct (IH (ts_vector_run.s_t x) (ts_vector_run.s_norm x) e_prev sgn
                  s2 Hw2) as [s [Hs [Hws [Hmode Hout]]]].
      { rewrite Hstop2, Ht2. exact Hreach. }
      exists s. split; [ exact Hs | ]. split; [ exact Hws | ].
      split.
      * rewrite Hmode. split; intro Hn.
        -- destruct (ts_vector_run.outfile self) as [f | ] eqn:Ef;
             [ | reflexivity ].
           rewrite (Hsome2 f Ef) in Hn. discriminate.
        -- apply Hnone2. exact Hn.
      * rewrite Hout, Hwr2, Hstop2, Ht2, <- app_assoc. reflexivity.
  - cbn [obind].
    destruct (IH (ts_vector_run.t s1) (ts_vector_run.s_norm x) e_prev
                sign_prev s1 Hw1 Hreach) as [s [Hs [Hws [Hmode Hout]]]].
    exists s. repeat split; try assumption; try apply Hmode.
Qed.



End Flips.


(** Without an output file the two flips are printed, and the
    unconditional [self.outfile.close()] then raises. *)
Example vector_printflips_to_stdout :
  exists s,
    ts_vector_run.printflips RunInputs.flip_trace
      (RunInputs.vector_triple 10 300 0.6 None)
      = Run.Raises AttributeError s /\
    ts_vector_run.stdout s = [[5; 0.5]; [9; 0.5]]%Q.
Proof.
  eexists. split; [ vm_compute; reflexivity | reflexivity ].
Qed.


(** * Further properties of the test particle equations *)

Section VectorField.

Open Scope R_scope.

(** X14: Along [Triple_vector._deriv] the scalar product of [j] and [e] and
    the sum of their squared lengths have zero derivative, at every state
    and for every [epsoct]: [j . de + e . dj = 0] and [j . dj + e . de =
    0]. *)
Theorem vector_deriv_keeps_j_e_orthogonal_and_normalised :
  forall (t jx jy jz ex ey ez epsoct : R),
    let d := ts_vector._deriv t (jx, jy, jz, ex, ey, ez) epsoct in
    jx * item3 d + jy * item4 d + jz * item5 d +
    (ex * item0 d + ey * item1 d + ez * item2 d) = 0 /\
    jx * item0 d + jy * item1 d + jz * item2 d +
    (ex * item3 d + ey * item4 d + ez * item5 d) = 0.
Proof.
  intros. unfold d. cbn. split; field.
Qed.

End VectorField.

(** * Construction and units of the massive model *)

Section MassiveConstruction.

Open Scope R_scope.

Variables G c M_sun au yr2s : R.

(** The shape of what [calc_C], [calc_G2] and [update] return when they
    succeed: the object with some attributes assigned. *)
Lemma calc_C_shape :
  forall self s : triplesec.Triple,
    triplesec.calc_C G self = Ok s ->
    exists c2 c3,
      s = triplesec.set_C self c2 c3 /\
      (triplesec.octupole self = false -> c3 = 0) /\
      (triplesec.quadrupole self = false -> c2 = 0).
Proof.
  intros self s. unfold triplesec.calc_C.
  destruct (triplesec.quadrupole self), (triplesec.octupole self),
    (triplesec.e2 self);
    cbn [float_of bind]; try discriminate;
    intros [= <-]; eexists; eexists;
    (split; [ reflexivity | split; intro H; (discriminate H || reflexivity) ]).
Qed.

Lemma calc_G2_shape :
  forall self s : triplesec.Triple,
    triplesec.calc_G2 G self = Ok s ->
    exists v, s = triplesec.set_G2 self v.
Proof.
  intros self s. unfold triplesec.calc_G2.
  destruct (triplesec.e2 self); cbn [float_of bind]; try discriminate.
  intros [= <-]. eexists. reflexivity.
Qed.

Lemma update_shape :
  forall self s : triplesec.Triple,
    triplesec.update G au yr2s self = Ok s ->
    exists c2 c3 cp g1v g2v thv i,
      s = triplesec.set_units
            (triplesec.set_th
               (triplesec.set_G2
                  (triplesec.set_G1
                     (triplesec.set_cosphi (triplesec.set_C self c2 c3) cp)
                     g1v) g2v) thv)
            (i * 180 / PI) (PyFloat (triplesec._a1 self / au))
            (triplesec._t self / yr2s) /\
      math_acos thv = Ok i /\
      (triplesec.octupole self = false -> c3 = 0).
Proof.
  intros self s. unfold triplesec.update.
  destruct (triplesec.calc_C G self) as [s1 | e] eqn:E1;
    cbn [bind]; [ | discriminate ].
  apply calc_C_shape in E1. destruct E1 as [c2 [c3 [-> [Hc3 _]]]].
  unfold triplesec.calc_cosphi at 1.
  match goal with
  | |- context [triplesec.set_cosphi _ ?v] => generalize v; intro cp
  end.
  unfold triplesec.calc_G1 at 1.
  match goal with
  | |- context [triplesec.set_G1 _ ?v] => generalize v; intro g1v
  end.
  destruct (triplesec.calc_G2 G _) as [s2 | e] eqn:E2;
    cbn [bind]; [ | discriminate ].
  apply calc_G2_shape in E2. destruct E2 as [g2v ->].
  unfold triplesec.calc_th at 1 2 3.
  match goal with
  | |- context [triplesec.set_th _ ?v] => generalize v; intro thv
  end.
  cbn [triplesec.th triplesec.set_th].
  destruct (math_acos thv) as [i | e] eqn:Ei; cbn [bind]; [ | discriminate ].
  intros [= <-].
  exists c2, c3, cp, g1v, g2v, thv, i.
  split; [ reflexivity | ]. split; [ exact Ei | exact Hc3 ].
Qed.

(** What [Triple.__init__] leaves when it succeeds without [epsoct]: the
    shape of the object. *)
Lemma massive_init_shape :
  forall (args : triplesec.Triple_args) (self : triplesec.Triple),
    triplesec.arg_epsoct args = None ->
    triplesec.__init__ G M_sun au yr2s args = Ok self ->
    triplesec.octupole self =
      (if py_eq0 (PyFloat (triplesec.arg_e2 args)) then false
       else triplesec.arg_octupole args) /\
    triplesec.quadrupole self = triplesec.arg_quadrupole args /\
    triplesec.hexadecapole self = triplesec.arg_hexadecapole args /\
    triplesec.gr self = triplesec.arg_gr args /\
    triplesec.e2 self = PyFloat (triplesec.arg_e2 args) /\
    triplesec._a1 self = triplesec.arg_a1 args * au /\
    triplesec._a2 self = triplesec.arg_a2 args * au /\
    triplesec.a1 self = PyFloat (triplesec.arg_a1 args * au / au) /\
    triplesec.epsoct self =
      triplesec.arg_e2 args / (1 - triplesec.arg_e2 args ^ 2) *
      triplesec.arg_a1 args / triplesec.arg_a2 args /\
    (triplesec.octupole self = false -> triplesec.C3 self = 0).
Proof.
  intros args self Heps Hinit.
  unfold triplesec.__init__ in Hinit. rewrite Heps in Hinit.
  cbn [py_mul bind] in Hinit.
  match type of Hinit with
  | context [triplesec.calc_C G ?s0] => set (self0 := s0) in *
  end.
  destruct (triplesec.calc_C G self0) as [s1 | e] eqn:E1;
    cbn [bind] in Hinit; [ | discriminate ].
  apply calc_C_shape in E1. destruct E1 as [c2 [c3 [-> _]]].
  unfold triplesec.calc_G1 at 1 in Hinit.
  match type of Hinit with
  | context [triplesec.set_G1 _ ?v] => generalize dependent v; intro g1v
  end.
  intro Hinit.
  destruct (triplesec.calc_G2 G _) as [s2 | e] eqn:E2;
    cbn [bind] in Hinit; [ | discriminate ].
  apply calc_G2_shape in E2. destruct E2 as [g2v ->].
  match type of Hinit with
  | context [triplesec.set_H _ ?v] => generalize dependent v; intro h
  end.
  intro Hinit.
  apply update_shape in Hinit.
  destruct Hinit as [c2' [c3' [cp [g1v' [g2v' [thv [i [-> [_ Hc3]]]]]]]]].
  cbn [triplesec.set_units triplesec.set_th triplesec.set_G2
       triplesec.set_G1 triplesec.set_cosphi triplesec.set_C
       triplesec.set_H triplesec.octupole triplesec.quadrupole
       triplesec.hexadecapole triplesec.gr triplesec.e2 triplesec._a1
       triplesec._a2 triplesec.a1 triplesec.C3 triplesec.epsoct] in *.
  unfold self0.
  cbn [triplesec.octupole triplesec.quadrupole
       triplesec.hexadecapole triplesec.gr triplesec.e2 triplesec._a1
       triplesec._a2 triplesec.a1 triplesec.C3 triplesec.epsoct].
  repeat split; try reflexivity.
  exact Hc3.
Qed.

(** X1: [calc_th] inverts the relation by which the constructor derives [_H]
    from [_G1], [_G2] and the cosine of the inclination: for positive [_G1]
    and [_G2] and a cosine between -1 and 1, [calc_th] after [_H = sqrt (2
    G1 G2 th + G1^2 + G2^2)] gives that cosine back. *)
Theorem calc_th_recovers_inclination_cosine :
  forall (self : triplesec.Triple) (th0 : R),
    0 < triplesec._G1 self -> 0 < triplesec._G2 self ->
    -1 <= th0 <= 1 ->
    triplesec.th
      (triplesec.calc_th
         (triplesec.set_H self
            (sqrt (2 * triplesec._G1 self * triplesec._G2 self * th0 +
                   (triplesec._G1 self) ^ 2 + (triplesec._G2 self) ^ 2))))
    = th0.
Proof.
  intros self th0 H1 H2 Hth.
  cbn [triplesec.calc_th triplesec.set_th triplesec.set_H triplesec.th
       triplesec._H triplesec._G1 triplesec._G2].
  apply calc_th_inverts_H; assumption.
Qed.

(** [update] on an object whose [_H] was derived from the cosine of an
    angle between 0 and [PI]: the inclination comes back in degrees. *)
Lemma update_recovers_inc :
  forall (self : triplesec.Triple) (x i0 : R),
    let G1v :=
      triplesec._m1 self * triplesec._m2 self *
      sqrt (G * triplesec._a1 self * (1 - triplesec.e1 self ^ 2) /
            (triplesec._m1 self + triplesec._m2 self)) in
    let G2v :=
      (triplesec._m1 self + triplesec._m2 self) * triplesec._m3 self *
      sqrt (G * triplesec._a2 self * (1 - x ^ 2) /
            (triplesec._m1 self + triplesec._m2 self +
             triplesec._m3 self)) in
    triplesec.e2 self = PyFloat x ->
    0 < G -> 0 < triplesec._m1 self -> 0 < triplesec._m2 self ->
    0 < triplesec._m3 self ->
    0 < triplesec._a1 self -> 0 < triplesec._a2 self ->
    -1 < triplesec.e1 self < 1 -> -1 < x < 1 ->
    0 <= i0 <= PI ->
    triplesec._H self =
      sqrt (2 * G1v * G2v * cos i0 + G1v ^ 2 + G2v ^ 2) ->
    exists s,
      triplesec.update G au yr2s self = Ok s /\
      triplesec.th s = cos i0 /\
      triplesec.inc s = i0 * 180 / PI /\
      triplesec.a1 s = PyFloat (triplesec._a1 self / au) /\
      triplesec.t s = triplesec._t self / yr2s.
Proof.
  intros self x i0 G1v G2v He2 HG Hm1 Hm2 Hm3 Ha1 Ha2 He1 Hx Hi HH.
  assert (HG1 : 0 < G1v).
  { unfold G1v. apply Rmult_lt_0_compat.
    - apply Rmult_lt_0_compat; assumption.
    - apply sqrt_quotient_pos; try assumption. lra. }
  assert (HG2 : 0 < G2v).
  { unfold G2v. apply Rmult_lt_0_compat.
    - apply Rmult_lt_0_compat; [ lra | assumption ].
    - apply sqrt_quotient_pos; try assumption. lra. }
  destruct (update_float G au yr2s self x He2) as [c2 [c3 Hupd]].
  cbv zeta in Hupd. fold G1v G2v in Hupd.
  rewrite HH, (calc_th_inverts_H G1v G2v (cos i0) HG1 HG2 (COS_bound i0))
    in Hupd.
  rewrite Hupd. unfold math_acos.
  destruct (Rle_dec (-1) (cos i0)) as [_ | Hn];
    [ | exfalso; pose proof (COS_bound i0); lra ].
  destruct (Rle_dec (cos i0) 1) as [_ | Hn];
    [ | exfalso; pose proof (COS_bound i0); lra ].
  cbn [bind]. rewrite (acos_cos i0 Hi).
  eexists. split; [ reflexivity | ].
  repeat split.
Qed.

(** The constructor succeeds on physical arguments, and [update] at its
    end recovers the inclination and the inner semi-major axis. *)
Lemma massive_init_attributes :
  forall args : triplesec.Triple_args,
    0 < G -> 0 < M_sun -> 0 < au ->
    0 < triplesec.arg_m1 args -> 0 < triplesec.arg_m2 args ->
    0 < triplesec.arg_m3 args ->
    0 < triplesec.arg_a1 args -> 0 < triplesec.arg_a2 args ->
    -1 < triplesec.arg_e1 args < 1 ->
    -1 < triplesec.arg_e2 args < 1 ->
    0 <= triplesec.arg_inc args <= 180 ->
    triplesec.arg_epsoct args = None ->
    exists self,
      triplesec.__init__ G M_sun au yr2s args = Ok self /\
      triplesec.inc self = triplesec.arg_inc args /\
      triplesec.a1 self = PyFloat (triplesec.arg_a1 args) /\
      triplesec.th self = cos (triplesec.arg_inc args * PI / 180) /\
      triplesec.t self = 0.
Proof.
  intros args HG HM Hau Hm1 Hm2 Hm3 Ha1 Ha2 He1 He2 Hinc Heps.
  assert (Hpi : 0 < PI) by apply PI_RGT_0.
  assert (Hrad : 0 <= triplesec.arg_inc args * PI / 180 <= PI).
  { split.
    - apply Rmult_le_pos; [ apply Rmult_le_pos; lra | lra ].
    - replace PI with (180 * PI / 180) at 2 by field.
      apply Rmult_le_compat_r; [ lra | ].
      apply Rmult_le_compat_r; lra. }
  unfold triplesec.__init__. rewrite Heps.
  cbn [py_mul bind].
  match goal with
  | |- context [triplesec.calc_C G ?s] =>
      destruct (calc_C_float G s (triplesec.arg_e2 args) eq_refl)
        as [c2 [c3 ->]]
  end.
  cbn [bind].
  unfold triplesec.calc_G2 at 1.
  cbn [triplesec.calc_G1 triplesec.set_G1 triplesec.set_C triplesec.e2
       float_of bind].
  match goal with
  | |- context [triplesec.update G au yr2s ?s] =>
      destruct (update_recovers_inc s (triplesec.arg_e2 args)
                  (triplesec.arg_inc args * PI / 180))
        as [s' [Hs' [Hth [Hi [Ha Ht]]]]]
  end; try reflexivity; cbn; try assumption;
    try (apply Rmult_lt_0_compat; assumption).
  cbn [triplesec._a1 triplesec._t triplesec.set_H triplesec.set_G2
       triplesec.set_G1 triplesec.set_C triplesec.calc_G1] in Ha, Ht.
  exists s'. split; [ exact Hs' | ].
  split; [ rewrite Hi; field; lra | ].
  split; [ rewrite Ha; f_equal; field; lra | ].
  split; [ exact Hth | ].
  rewrite Ht. unfold Rdiv. ring.
Qed.


(** X3: With an outer eccentricity of exactly zero the constructor switches
    the octupole term off, whatever the flag it was given: [epsoct] and [C3]
    are zero, and without the hexadecapole term the equations of motion
    leave the outer eccentricity where it is, at every state. *)
Theorem circular_outer_orbit_has_no_octupole :
  forall (args : triplesec.Triple_args) (self : triplesec.Triple),
    triplesec.arg_epsoct args = None ->
    triplesec.arg_e2 args = 0 ->
    triplesec.arg_hexadecapole args = false ->
    triplesec.__init__ G M_sun au yr2s args = Ok self ->
    triplesec.octupole self = false /\
    triplesec.epsoct self = 0 /\
    triplesec.C3 self = 0 /\
    forall (t : R) (y : vec6), item3 (triplesec._deriv G c self t y) = 0.
Proof.
  intros args self Heps He2 Hhex Hinit.
  destruct (massive_init_shape args self Heps Hinit)
    as [Ho [_ [Hh [_ [_ [_ [_ [_ [Hepsoct HC3]]]]]]]]].
  rewrite He2 in Ho, Hepsoct. rewrite Hhex in Hh.
  cbn [py_eq0] in Ho.
  destruct (Req_dec_T 0 0) as [_ | Hn]; [ | exfalso; apply Hn; reflexivity ].
  split; [ exact Ho | ].
  split; [ rewrite Hepsoct; unfold Rdiv; ring | ].
  split; [ exact (HC3 Ho) | ].
  intros t y. destruct y as [[[[[y0 y1] y2] y3] y4] y5].
  unfold triplesec._deriv. rewrite Ho, Hh. reflexivity.
Qed.

End MassiveConstruction.

(** * Construction of the test particle model *)

Section VectorConstruction.

Open Scope R_scope.

Variable root : (ts_vector.vec3 -> list (option R)) ->
                ts_vector.vec3 -> result ts_vector.vec3.

Lemma sin2_cos2_pow : forall x : R, (sin x) ^ 2 + (cos x) ^ 2 = 1.
Proof.
  intro x. rewrite <- (sin2_cos2 x). unfold Rsqr. ring.
Qed.

(** What [Triple_vector.__init__] leaves when it succeeds: [epsoct] was
    not supplied, and the attributes are these. *)
Lemma vector_init_shape :
  forall (args : ts_vector.Triple_vector_args)
         (self : ts_vector.Triple_vector),
    ts_vector.__init__ root args = Ok self ->
    let inc := ts_vector.arg_inc args * PI / 180 in
    let Omega := ts_vector.arg_longascnode args * PI / 180 in
    let j := sqrt (1 - (ts_vector.arg_e1 args) ^ 2) in
    ts_vector.arg_epsoct args = None /\
    ts_vector.inc self = inc /\
    ts_vector.Omega self = Omega /\
    ts_vector.g1 self = ts_vector.arg_argperi args * PI / 180 /\
    ts_vector.th self = cos inc /\
    ts_vector.jvec self =
      ts_vector.np_scale j (ts_vector.init_jhatvec inc Omega) /\
    ts_vector.evec self =
      ts_vector.np_scale (ts_vector.arg_e1 args) (ts_vector.ehatvec self) /\
    ts_vector.e1 self = ts_vector.np_linalg_norm (ts_vector.evec self) /\
    ts_vector.Th self = (1 - (ts_vector.arg_e1 args) ^ 2) * (cos inc) ^ 2 /\
    root (fun x => ts_vector._evec_root x
                     (ts_vector.init_jhatvec inc Omega)
                     (ts_vector.arg_argperi args * PI / 180))
         (1 / 2, 1 / 2, 1 / 2) = Ok (ts_vector.ehatvec self) /\
    ts_vector.a1 self = PyFloat (ts_vector.arg_a1 args) /\
    ts_vector.a2 self = PyFloat (ts_vector.arg_a2 args) /\
    ts_vector.e2 self = PyFloat (ts_vector.arg_e2 args) /\
    ts_vector.m1 self = ts_vector.arg_m1 args /\
    ts_vector.m3 self = ts_vector.arg_m3 args /\
    ts_vector.quadrupole self = ts_vector.arg_quadrupole args /\
    ts_vector.octupole self = ts_vector.arg_octupole args /\
    ts_vector._t self = 0 /\
    ts_vector.t self = 0 * ts_vector.tsec self /\
    ts_vector.CKL self =
      (ts_vector.arg_e1 args) ^ 2 *
      (1 - 5 / 2 * (sin inc) ^ 2 *
           (sin (ts_vector.arg_argperi args * PI / 180)) ^ 2).
Proof.
  intros args self Hinit inc Omega j.
  unfold ts_vector.__init__ in Hinit.
  fold inc Omega in Hinit.
  destruct (root _ _) as [v | e] eqn:Er.
  2: { destruct (ts_vector.arg_epsoct args); cbn in Hinit; discriminate. }
  destruct (ts_vector.arg_epsoct args) as [eps | ];
    [ cbn in Hinit; discriminate | ].
  destruct v as [[v0 v1] v2].
  cbn [bind py_pow float_of] in Hinit.
  cbn [ts_vector.init_jhatvec ts_vector.np_scale] in Hinit.
  injection Hinit as <-.
  cbn [ts_vector.update ts_vector.calc_Th ts_vector.calc_CKL
       ts_vector.set_Th ts_vector.set_CKL ts_vector.set_t_e1
       ts_vector.inc ts_vector.Omega ts_vector.g1 ts_vector.th
       ts_vector.jvec ts_vector.evec ts_vector.e1 ts_vector.Th
       ts_vector.ehatvec ts_vector.a1 ts_vector.a2 ts_vector.e2
       ts_vector.m1 ts_vector.m3 ts_vector.quadrupole ts_vector.octupole
       ts_vector._t ts_vector.t ts_vector.tsec ts_vector.CKL
       ts_vector.init_jhatvec ts_vector.np_scale].
  repeat split; reflexivity.
Qed.
(** X17: The object that [Triple_vector.__init__] builds, for an
    eccentricity between -1 and 1: the squared length of [jvec] is [1 - e1 ^
    2], and Kozai's integral [Th], as [calc_Th] computes it from the
    eccentricity and the inclination, is the square of the third entry of
    [jvec]. *)
Theorem vector_init_jvec_and_Th :
  forall (args : ts_vector.Triple_vector_args)
         (self : ts_vector.Triple_vector),
    -1 <= ts_vector.arg_e1 args <= 1 ->
    ts_vector.__init__ root args = Ok self ->
    let '(jx, jy, jz) := ts_vector.jvec self in
    jx ^ 2 + jy ^ 2 + jz ^ 2 = 1 - (ts_vector.arg_e1 args) ^ 2 /\
    ts_vector.Th self = jz ^ 2.
Proof.
  intros args self He Hinit.
  destruct (vector_init_shape args self Hinit)
    as [_ [_ [_ [_ [_ [Hj [_ [_ [HTh _]]]]]]]]].
  rewrite Hj, HTh.
  cbn [ts_vector.init_jhatvec ts_vector.np_scale].
  set (i := ts_vector.arg_inc args * PI / 180).
  set (O := ts_vector.arg_longascnode args * PI / 180).
  assert (Hs : (sqrt (1 - ts_vector.arg_e1 args ^ 2)) ^ 2 =
               1 - ts_vector.arg_e1 args ^ 2).
  { apply pow2_sqrt. nra. }
  split.
  - replace ((sqrt (1 - ts_vector.arg_e1 args ^ 2) * (sin i * sin O)) ^ 2 +
             (sqrt (1 - ts_vector.arg_e1 args ^ 2) * (- sin i * cos O)) ^ 2 +
             (sqrt (1 - ts_vector.arg_e1 args ^ 2) * cos i) ^ 2)
      with ((sqrt (1 - ts_vector.arg_e1 args ^ 2)) ^ 2 *
            ((sin i) ^ 2 * ((sin O) ^ 2 + (cos O) ^ 2) + (cos i) ^ 2))
      by ring.
    rewrite (sin2_cos2_pow O), Rmult_1_r, (sin2_cos2_pow i), Hs. ring.
  - replace ((sqrt (1 - ts_vector.arg_e1 args ^ 2) * cos i) ^ 2)
      with ((sqrt (1 - ts_vector.arg_e1 args ^ 2)) ^ 2 * (cos i) ^ 2)
      by ring.
    rewrite Hs. reflexivity.
Qed.

Lemma norm_np_scale :
  forall (k : R) (v : ts_vector.vec3),
    ts_vector.np_linalg_norm (ts_vector.np_scale k v) =
    Rabs k * ts_vector.np_linalg_norm v.
Proof.
  intros k [[v0 v1] v2].
  unfold ts_vector.np_linalg_norm, ts_vector.np_scale.
  replace ((k * v0) ^ 2 + (k * v1) ^ 2 + (k * v2) ^ 2)
    with (Rsqr k * (v0 ^ 2 + v1 ^ 2 + v2 ^ 2)) by (unfold Rsqr; ring).
  rewrite sqrt_mult.
  - rewrite sqrt_Rsqr_abs. reflexivity.
  - apply Rle_0_sqr.
  - nra.
Qed.

(** Without [epsoct] the constructor succeeds as soon as the root finder
    hands back a point. *)
Lemma vector_init_succeeds :
  forall (args : ts_vector.Triple_vector_args) (v : ts_vector.vec3),
    ts_vector.arg_epsoct args = None ->
    (forall f x0, root f x0 = Ok v) ->
    exists self, ts_vector.__init__ root args = Ok self.
Proof.
  intros args v Heps Hroot.
  unfold ts_vector.__init__. rewrite Heps, Hroot.
  destruct v as [[v0 v1] v2]. cbn [bind py_pow float_of].
  cbn [ts_vector.init_jhatvec ts_vector.np_scale].
  eexists. reflexivity.
Qed.


(** [main] builds its object as soon as the root finder hands back a
    point and [--epsoct] is not given. *)
Lemma vector_main_succeeds :
  forall (cl : ts_vector.command_line) (v : ts_vector.vec3),
    ts_vector.opt_epsoct cl = None ->
    (forall f x0, root f x0 = Ok v) ->
    exists self, ts_vector.main root cl = Ok self.
Proof.
  intros cl v Heps Hroot.
  destruct (vector_init_succeeds ts_vector.default_args v eq_refl Hroot)
    as [d Hd].
  unfold ts_vector.main, ts_vector.process_command_line.
  rewrite Hd. cbn [bind].
  destruct (vector_init_shape _ _ Hd)
    as [_ [_ [_ [_ [_ [_ [_ [_ [_ [_ [Ha1 [Ha2 [He2 _]]]]]]]]]]]]].
  cbn [ts_vector.ns_a1 ts_vector.ns_a2 ts_vector.ns_e2].
  rewrite Ha1, Ha2, He2.
  destruct (ts_vector.opt_a1 cl), (ts_vector.opt_a2 cl),
    (ts_vector.opt_e2 cl);
    cbn [ts_vector.pyval_option float_of bind];
    apply (vector_init_succeeds _ v); try exact Hroot;
    cbn [ts_vector.arg_epsoct ts_vector.ns_epsoct]; exact Heps.
Qed.

(** X22: [main] of [ts_vector.py] takes the defaults of [--inc] and
    [--Omega] from the attributes of [Triple_vector()], which are in
    radians, and passes them on as degrees: without [--inc] the inclination
    of the object is not the 80 degrees of the constructor. *)
Theorem vector_main_converts_default_angles_twice :
  forall (cl : ts_vector.command_line) (self : ts_vector.Triple_vector),
    ts_vector.main root cl = Ok self ->
    ts_vector.inc self =
      ts_vector.float_option (ts_vector.opt_inc cl) (80 * PI / 180)
      * PI / 180 /\
    ts_vector.Omega self =
      ts_vector.float_option (ts_vector.opt_Omega cl) (180 * PI / 180)
      * PI / 180 /\
    (ts_vector.opt_inc cl = None ->
     ts_vector.inc self <> 80 * PI / 180).
Proof.
  intros cl self Hmain.
  unfold ts_vector.main, ts_vector.process_command_line in Hmain.
  destruct (ts_vector.__init__ root ts_vector.default_args)
    as [d | e] eqn:Ed; cbn [bind] in Hmain; [ | discriminate ].
  destruct (vector_init_shape _ _ Ed) as [_ [Hdi [HdO _]]].
  cbn [ts_vector.default_args ts_vector.arg_inc
       ts_vector.arg_longascnode] in Hdi, HdO.
  cbn [ts_vector.ns_a1 ts_vector.ns_a2 ts_vector.ns_e2] in Hmain.
  destruct (float_of _) as [a1_ | e]; cbn [bind] in Hmain;
    [ | discriminate ].
  destruct (float_of _) as [a2_ | e]; cbn [bind] in Hmain;
    [ | discriminate ].
  destruct (float_of _) as [e2_ | e]; cbn [bind] in Hmain;
    [ | discriminate ].
  destruct (vector_init_shape _ _ Hmain) as [_ [Hi [HO _]]].
  cbn [ts_vector.arg_inc ts_vector.arg_longascnode ts_vector.ns_inc
       ts_vector.ns_Omega] in Hi, HO.
  rewrite Hdi in Hi. rewrite HdO in HO.
  split; [ exact Hi | ]. split; [ exact HO | ].
  intro Hnone. rewrite Hi, Hnone. cbn [ts_vector.float_option].
  assert (Hpi : 0 < PI) by apply PI_RGT_0.
  assert (Hpi4 : PI <= 4) by apply PI_4.
  intro Heq.
  assert (H1 : 80 * PI / 180 * (PI / 180 - 1) = 0) by lra.
  apply Rmult_integral in H1. destruct H1 as [H1 | H1]; lra.
Qed.

(** X19: [update] calls [calc_Th] before it assigns the new [e1]: after two
    steps [Th] is computed from the eccentricity of the first step, not of
    the second, and from the inclination of the construction, which a step
    never changes. *)
Theorem vector_step_Th_is_one_step_behind :
  forall (self : ts_vector.Triple_vector) (t1 t2 : R) (y1 y2 : vec6),
    let s1 := ts_vector._step t1 y1 self in
    let s2 := ts_vector._step t2 y2 s1 in
    ts_vector.e1 s1 =
      ts_vector.np_linalg_norm (item3 y1, item4 y1, item5 y1) /\
    ts_vector.e1 s2 =
      ts_vector.np_linalg_norm (item3 y2, item4 y2, item5 y2) /\
    ts_vector.Th s2 =
      (1 - (ts_vector.e1 s1) ^ 2) * (cos (ts_vector.inc self)) ^ 2 /\
    ts_vector.inc s2 = ts_vector.inc self /\
    ts_vector.th s2 = ts_vector.th self /\
    ts_vector.t s2 = t2 * ts_vector.tsec self.
Proof.
  intros self t1 t2 y1 y2.
  destruct y1 as [[[[[a0 a1] a2] a3] a4] a5].
  destruct y2 as [[[[[b0 b1] b2] b3] b4] b5].
  cbn. repeat split; reflexivity.
Qed.

End VectorConstruction.

(** * A step of the massive model *)

Section MassiveStep.

Open Scope R_scope.

Variables G au yr2s : R.

Lemma py_mod_bounds :
  forall x m : R, 0 < m -> 0 <= py_mod x m < m.
Proof.
  intros x m Hm. unfold py_mod.
  destruct (base_Int_part (x / m)) as [Hlo Hhi].
  set (k := IZR (Int_part (x / m))) in *.
  assert (Hx : x = m * (x / m)) by (field; lra).
  split.
  - assert (m * k <= m * (x / m))
      by (apply Rmult_le_compat_l; lra).
    lra.
  - assert (m * (x / m - k) < m * 1)
      by (apply Rmult_lt_compat_l; lra).
    lra.
Qed.

Lemma sin_cos_shift :
  forall (x : R) (k : Z),
    sin (x - 2 * PI * IZR k) = sin x /\ cos (x - 2 * PI * IZR k) = cos x.
Proof.
  intros x k.
  destruct (Z_le_gt_dec 0 k) as [Hk | Hk].
  - rewrite <- (Z2Nat.id k Hk), <- INR_IZR_INZ.
    set (n := Z.to_nat k).
    split.
    + rewrite <- (sin_period (x - 2 * PI * INR n) n). f_equal. ring.
    + rewrite <- (cos_period (x - 2 * PI * INR n) n). f_equal. ring.
  - assert (Hk' : (0 <= - k)%Z) by lia.
    replace (IZR k) with (- IZR (- k)) by (rewrite opp_IZR; ring).
    rewrite <- (Z2Nat.id (- k) Hk'), <- INR_IZR_INZ.
    set (n := Z.to_nat (- k)).
    split.
    + rewrite <- (sin_period x n). f_equal. ring.
    + rewrite <- (cos_period x n). f_equal. ring.
Qed.

Lemma py_mod_2PI :
  forall x : R,
    0 <= py_mod x (2 * PI) < 2 * PI /\
    sin (py_mod x (2 * PI)) = sin x /\
    cos (py_mod x (2 * PI)) = cos x.
Proof.
  intro x.
  assert (Hpi : 0 < 2 * PI) by (pose proof PI_RGT_0; lra).
  split; [ apply py_mod_bounds; exact Hpi | ].
  unfold py_mod. apply sin_cos_shift.
Qed.

(** A step succeeds on a state whose total angular momentum is the one
    of its elements at an inclination [i0], computed with the [_a1] of
    the object: [update] then finds the cosine of [i0] again. *)
Lemma massive_step_succeeds :
  forall (sol_t y0 y1 y2 y3 y4 i0 : R) (self : triplesec.Triple),
    let G1v :=
      triplesec._m1 self * triplesec._m2 self *
      sqrt (G * triplesec._a1 self * (1 - y1 ^ 2) /
            (triplesec._m1 self + triplesec._m2 self)) in
    let G2v :=
      (triplesec._m1 self + triplesec._m2 self) * triplesec._m3 self *
      sqrt (G * triplesec._a2 self * (1 - y3 ^ 2) /
            (triplesec._m1 self + triplesec._m2 self +
             triplesec._m3 self)) in
    0 < G -> 0 < triplesec._m1 self -> 0 < triplesec._m2 self ->
    0 < triplesec._m3 self ->
    0 < triplesec._a1 self -> 0 < triplesec._a2 self ->
    -1 < y1 < 1 -> -1 < y3 < 1 -> 0 <= i0 <= PI ->
    exists s,
      triplesec._step G au yr2s sol_t
        (y0, y1, y2, y3, y4,
         sqrt (2 * G1v * G2v * cos i0 + G1v ^ 2 + G2v ^ 2)) self = Ok s /\
      triplesec.th s = cos i0 /\
      triplesec.inc s = i0 * 180 / PI.
Proof.
  intros sol_t y0 y1 y2 y3 y4 i0 self G1v G2v
    HG Hm1 Hm2 Hm3 Ha1 Ha2 Hy1 Hy3 Hi.
  unfold triplesec._step.
  match goal with
  | |- context [triplesec.update G au yr2s ?X] =>
      destruct (update_recovers_inc G au yr2s X y3 i0)
        as [s [Hs [Hth [Hinc _]]]]
  end; try assumption; try reflexivity.
  exists s. split; [ exact Hs | ]. split; assumption.
Qed.

(** X5: After a step of the massive model the two arguments of periapsis lie
    in [[0, 2 PI)], and have the sine and the cosine of the angles that the
    solver handed back. *)
Theorem massive_step_wraps_the_angles :
  forall (sol_t : R) (sol_y : vec6) (self s : triplesec.Triple),
    triplesec._step G au yr2s sol_t sol_y self = Ok s ->
    (0 <= triplesec.g1 s < 2 * PI /\
     sin (triplesec.g1 s) = sin (item2 sol_y) /\
     cos (triplesec.g1 s) = cos (item2 sol_y)) /\
    (0 <= triplesec.g2 s < 2 * PI /\
     sin (triplesec.g2 s) = sin (item4 sol_y) /\
     cos (triplesec.g2 s) = cos (item4 sol_y)).
Proof.
  intros sol_t sol_y self s Hstep.
  destruct sol_y as [[[[[y0 y1] y2] y3] y4] y5].
  unfold triplesec._step in Hstep.
  apply update_shape in Hstep.
  destruct Hstep as [c2 [c3 [cp [g1v [g2v [thv [i [-> _]]]]]]]].
  cbn [triplesec.set_units triplesec.set_th triplesec.set_G2
       triplesec.set_G1 triplesec.set_cosphi triplesec.set_C
       triplesec.set_g1 triplesec.set_g2 triplesec.set_solution
       triplesec.g1 triplesec.g2 item2 item4].
  split; apply py_mod_2PI.
Qed.

(** X6: A step never takes the inner semi-major axis from the solver: the
    first entry of the state is assigned to [a1] and overwritten by [update]
    with [_a1 / au], and [_a1] is left as it was; the other entries do reach
    the attributes. *)
Theorem massive_step_keeps_the_initial_a1 :
  forall (sol_t : R) (sol_y : vec6) (self s : triplesec.Triple),
    triplesec._step G au yr2s sol_t sol_y self = Ok s ->
    triplesec.a1 s = PyFloat (triplesec._a1 self / au) /\
    triplesec._a1 s = triplesec._a1 self /\
    triplesec.e1 s = item1 sol_y /\
    triplesec.e2 s = PyFloat (item3 sol_y) /\
    triplesec._H s = item5 sol_y /\
    triplesec.t s = sol_t / yr2s.
Proof.
  intros sol_t sol_y self s Hstep.
  destruct sol_y as [[[[[y0 y1] y2] y3] y4] y5].
  unfold triplesec._step in Hstep.
  apply update_shape in Hstep.
  destruct Hstep as [c2 [c3 [cp [g1v [g2v [thv [i [-> _]]]]]]]].
  cbn [triplesec.set_units triplesec.set_th triplesec.set_G2
       triplesec.set_G1 triplesec.set_cosphi triplesec.set_C
       triplesec.set_g1 triplesec.set_g2 triplesec.set_solution
       triplesec.a1 triplesec._a1 triplesec.e1 triplesec.e2
       triplesec._H triplesec.t triplesec._t item1 item3 item5].
  repeat split; reflexivity.
Qed.

(** X7: The angular momentum [_G1] that a step leaves is computed from the
    stale [_a1] and the new eccentricity, where [_deriv] uses the semi-major
    axis of the state. *)
Theorem massive_step_G1_uses_the_initial_a1 :
  forall (sol_t : R) (sol_y : vec6) (self s : triplesec.Triple),
    triplesec._step G au yr2s sol_t sol_y self = Ok s ->
    triplesec._G1 s =
      triplesec._m1 self * triplesec._m2 self *
      sqrt (G * triplesec._a1 self * (1 - (item1 sol_y) ^ 2) /
            (triplesec._m1 self + triplesec._m2 self)) /\
    triplesec.l_G1 (triplesec._deriv_locals G self sol_y) =
      triplesec._m1 self * triplesec._m2 self *
      sqrt (G * item0 sol_y * (1 - (item1 sol_y) ^ 2) /
            (triplesec._m1 self + triplesec._m2 self)).
Proof.
  intros sol_t sol_y self s Hstep.
  destruct sol_y as [[[[[y0 y1] y2] y3] y4] y5].
  split; [ | reflexivity ].
  unfold triplesec._step in Hstep.
  match type of Hstep with
  | triplesec.update G au yr2s ?X = _ =>
      destruct (update_float G au yr2s X y3 eq_refl) as [c2 [c3 Hupd]];
      rewrite Hupd in Hstep; clear Hupd
  end.
  cbv zeta in Hstep.
  destruct (math_acos _) as [i | e]; cbn [bind] in Hstep;
    [ | discriminate ].
  injection Hstep as <-.
  reflexivity.
Qed.

End MassiveStep.

(** * [Triple.integrate] *)

Section MassiveIntegrate.

Import Run.
Open Scope Q_scope.

Variable clock : nat -> Q.

(** Writing a record, when it can be written: the record is appended and
    nothing else changes. *)
Lemma massive_emit_shape :
  forall (l : line) (self : triplesec_run.Triple),
    triplesec_run.can_write self ->
    exists f o,
      triplesec_run.emit l self
        = Returns (triplesec_run.set_output self f o) /\
      triplesec_run.written (triplesec_run.set_output self f o)
        = triplesec_run.written self ++ [l] /\
      triplesec_run.can_write (triplesec_run.set_output self f o).
Proof.
  intros l self Hw.
  unfold triplesec_run.emit, triplesec_run.can_write,
    triplesec_run.written in *.
  destruct (triplesec_run.outfile self) as [f | ].
  - rewrite Hw. eexists. eexists. split; [ reflexivity | ].
    cbn. split; [ reflexivity | exact Hw ].
  - eexists. eexists. split; [ reflexivity | ].
    cbn. split; [ reflexivity | exact I ].
Qed.

(** X8: [integrate] with [outfreq = 0]: the first step ends in the
    [ZeroDivisionError] of [self.nstep % self.outfreq], after the initial
    record has been written and one step has been counted, and before
    anything is closed. *)
Theorem massive_integrate_outfreq_zero :
  forall (x : triplesec_run.elements)
         (samples : list triplesec_run.elements)
         (self : triplesec_run.Triple),
    triplesec_run.outfreq self = 0%Z ->
    triplesec_run.can_write self ->
    Qltb (triplesec_run.t self) (triplesec_run.tstop self) = true ->
    Qltb (clock (S (triplesec_run.ticks self))
          - clock (triplesec_run.ticks self))
         (triplesec_run.cputstop self) = true ->
    exists s,
      triplesec_run.integrate clock (x :: samples) self
        = Raises ZeroDivisionError s /\
      triplesec_run.written s
        = triplesec_run.written self ++ [triplesec_run.record_now self] /\
      triplesec_run.can_write s /\
      triplesec_run.nstep s = (triplesec_run.nstep self + 1)%Z.
Proof.
  intros x samples self Hfreq Hw Ht Hcpu.
  unfold triplesec_run.integrate, triplesec_run.ts_printout.
  destruct (massive_emit_shape (triplesec_run.record_now self) self Hw)
    as [f [o [He [Hwr Hw1]]]].
  unfold triplesec_run.record_now in He.
  unfold triplesec_run.t at 1, triplesec_run.a1 at 1.
  rewrite He. cbn [obind].
  cbn [triplesec_run.time_time triplesec_run.integrate_loop
       triplesec_run.set_clock triplesec_run.set_output
       triplesec_run.ticks triplesec_run.tstart triplesec_run.cputstop
       triplesec_run.tstop triplesec_run.t triplesec_run.now].
  unfold triplesec_run.t in *.
  cbn [triplesec_run.now triplesec_run.set_clock triplesec_run.set_output].
  rewrite Ht, Hcpu.
  cbn [triplesec_run._step triplesec_run.set_now triplesec_run.outfreq
       triplesec_run.set_clock triplesec_run.set_output].
  rewrite Hfreq. cbn [Z.eqb obind].
  eexists. split; [ reflexivity | ].
  split; [ exact Hwr | ]. split; [ exact Hw1 | reflexivity ].
Qed.

(** X9: [integrate] closes the output file and does not open it again: on an
    object with an output file, a second call of [integrate] after one that
    returned raises [ValueError] at its first [ts_printout], with the object
    unchanged. *)
Theorem massive_integrate_twice_raises :
  forall (samples samples' : list triplesec_run.elements)
         (self s : triplesec_run.Triple),
    triplesec_run.outfile self <> None ->
    triplesec_run.integrate clock samples self = Returns s ->
    triplesec_run.integrate clock samples' s = Raises ValueError s.
Proof.
  intros samples samples' self s Hf Hs.
  destruct (massive_integrate_closes_file clock samples self s Hf Hs)
    as [f [Hout Hclosed]].
  unfold triplesec_run.integrate, triplesec_run.ts_printout,
    triplesec_run.emit.
  rewrite Hout, Hclosed. reflexivity.
Qed.

Lemma massive_ts_printout_is_emit :
  forall self : triplesec_run.Triple,
    triplesec_run.ts_printout self
    = triplesec_run.emit (triplesec_run.record_now self) self.
Proof. reflexivity. Qed.

Lemma massive_close_shape :
  forall self s : triplesec_run.Triple,
    (match triplesec_run.outfile self with
     | Some _ => triplesec_run.outfile_close self
     | None => Returns self
     end) = Returns s ->
    exists f, s = triplesec_run.set_output self f (triplesec_run.stdout self)
              /\ triplesec_run.written s = triplesec_run.written self.
Proof.
  intros self s. unfold triplesec_run.outfile_close.
  destruct (triplesec_run.outfile self) as [f | ] eqn:Ef.
  - intros [= <-]. exists (Some (file_close f)).
    split; [ reflexivity | ].
    unfold triplesec_run.written. rewrite Ef. reflexivity.
  - intros [= <-]. exists None. split.
    + destruct self. cbn in *. subst. reflexivity.
    + reflexivity.
Qed.

(** With [outfreq = 1] the loop of [integrate] keeps the last record
    written equal to the record of the current state, one record per
    step. *)
Lemma massive_integrate_loop_records :
  forall (W0 : list line) (n0 : Z)
         (samples : list triplesec_run.elements)
         (self s : triplesec_run.Triple),
    triplesec_run.can_write self ->
    triplesec_run.outfreq self = 1%Z ->
    (exists pre,
        triplesec_run.written self
          = W0 ++ pre ++ [triplesec_run.record_now self] /\
        Z.of_nat (length pre) = (triplesec_run.nstep self - n0)%Z) ->
    triplesec_run.integrate_loop clock samples self = Returns s ->
    triplesec_run.can_write s /\
    (exists pre,
        triplesec_run.written s
          = W0 ++ pre ++ [triplesec_run.record_now s] /\
        Z.of_nat (length pre) = (triplesec_run.nstep s - n0)%Z).
Proof.
  intros W0 n0 samples.
  induction samples as [ | x samples IH]; intros self s Hw Hfreq Hinv;
    cbn [triplesec_run.integrate_loop triplesec_run.time_time];
    destruct (Qltb (triplesec_run.t self) (triplesec_run.tstop self));
    try (intros [= <-]; split; assumption);
    destruct (Qltb _ _);
    try discriminate;
    try (intros [= <-]; split; assumption).
  set (s1 := triplesec_run._step x _).
  assert (Hfreq1 : triplesec_run.outfreq s1 = 1%Z) by exact Hfreq.
  rewrite Hfreq1. cbn [Z.eqb].
  rewrite Z.mod_1_r. cbn [Z.eqb].
  rewrite massive_ts_printout_is_emit.
  assert (Hw1 : triplesec_run.can_write s1) by exact Hw.
  destruct (massive_emit_shape (triplesec_run.record_now s1) s1 Hw1)
    as [f [o [-> [Hwr Hw2]]]].
  cbn [obind].
  set (s2 := triplesec_run.set_output s1 f o) in *.
  assert (Hinv2 :
            exists pre,
              triplesec_run.written s2
                = W0 ++ pre ++ [triplesec_run.record_now s2] /\
              Z.of_nat (length pre) = (triplesec_run.nstep s2 - n0)%Z).
  { destruct Hinv as [pre [Hpre Hlen]].
    exists (pre ++ [triplesec_run.record_now self]). split.
    - rewrite Hwr.
      change (triplesec_run.written s1) with (triplesec_run.written self).
      rewrite Hpre. rewrite <- !app_assoc. reflexivity.
    - rewrite length_app. cbn [length].
      change (triplesec_run.nstep s2) with (triplesec_run.nstep self + 1)%Z.
      lia. }
  destruct (Qltb _ _).
  - intros [= <-]. split; [ exact Hw2 | exact Hinv2 ].
  - apply IH; [ exact Hw2 | exact Hfreq | exact Hinv2 ].
Qed.

(** X10: With [outfreq = 1], [integrate] writes one record for the initial
    state, one for each step, and the record of the final state once more:
    the output ends with the same record twice. *)
Theorem massive_integrate_writes_last_record_twice :
  forall (samples : list triplesec_run.elements)
         (self s : triplesec_run.Triple),
    triplesec_run.can_write self ->
    triplesec_run.outfreq self = 1%Z ->
    triplesec_run.integrate clock samples self = Returns s ->
    exists pre,
      triplesec_run.written s
        = triplesec_run.written self ++ pre ++
          [triplesec_run.record_now s; triplesec_run.record_now s] /\
      Z.of_nat (length pre)
        = (triplesec_run.nstep s - triplesec_run.nstep self)%Z.
Proof.
  intros samples self s Hw Hfreq.
  unfold triplesec_run.integrate.
  rewrite massive_ts_printout_is_emit.
  destruct (massive_emit_shape (triplesec_run.record_now self) self Hw)
    as [f [o [-> [Hwr Hw1]]]].
  cbn [obind triplesec_run.time_time].
  set (s1 := triplesec_run.set_clock _ _ _).
  destruct (triplesec_run.integrate_loop clock samples s1)
    as [s2 | e s2 | ] eqn:Eloop; cbn [obind]; try discriminate.
  destruct (massive_integrate_loop_records (triplesec_run.written self)
              (triplesec_run.nstep self) samples s1 s2)
    as [Hw2 [pre [Hpre Hlen]]].
  { exact Hw1. }
  { exact Hfreq. }
  { exists []. split; [ exact Hwr | ]. cbn. lia. }
  { exact Eloop. }
  rewrite massive_ts_printout_is_emit.
  destruct (massive_emit_shape (triplesec_run.record_now s2) s2 Hw2)
    as [f3 [o3 [-> [Hwr3 Hw3]]]].
  cbn [obind].
  intro Hclose. apply massive_close_shape in Hclose.
  destruct Hclose as [f4 [-> Hwr4]].
  exists pre. split.
  - rewrite Hwr4, Hwr3, Hpre. rewrite <- !app_assoc. reflexivity.
  - exact Hlen.
Qed.

(** The loop of [integrate], while the clock stays within the budget:
    it is left by a collision or by the stop time. *)
Lemma massive_integrate_loop_ends :
  forall (samples : list triplesec_run.elements)
         (self s : triplesec_run.Triple),
    (forall n, Qltb (clock n - triplesec_run.tstart self)
                 (triplesec_run.cputstop self) = true) ->
    triplesec_run.integrate_loop clock samples self = Returns s ->
    (triplesec_run.collision s = true /\
     Qltb (triplesec_run.a1 s * (1 - triplesec_run.e1 s))
       (triplesec_run.r1 s + triplesec_run.r2 s) = true) \/
    (triplesec_run.collision s = triplesec_run.collision self /\
     Qltb (triplesec_run.t s) (triplesec_run.tstop s) = false).
Proof.
  induction samples as [ | x samples IH]; intros self s Hcpu;
    cbn [triplesec_run.integrate_loop triplesec_run.time_time];
    destruct (Qltb (triplesec_run.t self) (triplesec_run.tstop self))
      eqn:Et;
    try (intros [= <-]; right; split; [ reflexivity | exact Et ]);
    cbn [triplesec_run.tstart triplesec_run.cputstop
         triplesec_run.set_clock];
    rewrite Hcpu; try discriminate.
  set (s1 := triplesec_run._step x _).
  destruct (triplesec_run.outfreq s1 =? 0)%Z; [ discriminate | ].
  assert (Hstep :
            forall s2,
              triplesec_run.now s2 = triplesec_run.now s1 ->
              triplesec_run.r1 s2 = triplesec_run.r1 s1 ->
              triplesec_run.r2 s2 = triplesec_run.r2 s1 ->
              triplesec_run.tstart s2 = triplesec_run.tstart self ->
              triplesec_run.cputstop s2 = triplesec_run.cputstop self ->
              triplesec_run.collision s2 = triplesec_run.collision self ->
              (if Qltb (triplesec_run.a1 s2 * (1 - triplesec_run.e1 s2))
                    (triplesec_run.r1 s2 + triplesec_run.r2 s2)
               then Returns (triplesec_run.set_collision s2 true)
               else triplesec_run.integrate_loop clock samples s2)
              = Returns s ->
              (triplesec_run.collision s = true /\
               Qltb (triplesec_run.a1 s * (1 - triplesec_run.e1 s))
                 (triplesec_run.r1 s + triplesec_run.r2 s) = true) \/
              (triplesec_run.collision s = triplesec_run.collision self /\
               Qltb (triplesec_run.t s) (triplesec_run.tstop s) = false)).
  { intros s2 Hnow Hr1 Hr2 Hts Hcp Hcol.
    destruct (Qltb (triplesec_run.a1 s2 * (1 - triplesec_run.e1 s2))
                (triplesec_run.r1 s2 + triplesec_run.r2 s2)) eqn:Ecol.
    - intros [= <-]. left. split; [ reflexivity | exact Ecol ].
    - intro Hloop. apply IH in Hloop.
      + rewrite Hcol in Hloop. exact Hloop.
      + intro n. rewrite Hts, Hcp. apply Hcpu. }
  destruct (triplesec_run.nstep s1 mod triplesec_run.outfreq s1 =? 0)%Z.
  - unfold triplesec_run.ts_printout, triplesec_run.emit.
    destruct (triplesec_run.outfile s1) as [f | ].
    + destruct (closed f); cbn [obind]; [ discriminate | ].
      apply Hstep; reflexivity.
    + cbn [obind]. apply Hstep; reflexivity.
  - cbn [obind]. apply Hstep; reflexivity.
Qed.

Lemma massive_emit_returns :
  forall (l : line) (self s : triplesec_run.Triple),
    triplesec_run.emit l self = Returns s ->
    exists f o, s = triplesec_run.set_output self f o.
Proof.
  intros l self s. unfold triplesec_run.emit.
  destruct (triplesec_run.outfile self) as [f | ].
  - destruct (closed f); [ discriminate | ].
    intros [= <-]. eauto.
  - intros [= <-]. eauto.
Qed.

(** X11: When no reading of the clock exhausts the CPU budget, [integrate]
    on an object without a collision returns for one of two reasons: a
    collision, with the flag set and the periastron of the final state below
    the sum of the radii, or a final time that is not before the stop time,
    with the flag still unset. *)
Theorem massive_integrate_ends_by_collision_or_tstop :
  forall (samples : list triplesec_run.elements)
         (self s : triplesec_run.Triple),
    (forall n m, Qltb (clock n - clock m) (triplesec_run.cputstop self)
                 = true) ->
    triplesec_run.collision self = false ->
    triplesec_run.integrate clock samples self = Returns s ->
    (triplesec_run.collision s = true /\
     Qltb (triplesec_run.a1 s * (1 - triplesec_run.e1 s))
       (triplesec_run.r1 s + triplesec_run.r2 s) = true) \/
    (triplesec_run.collision s = false /\
     Qltb (triplesec_run.t s) (triplesec_run.tstop s) = false).
Proof.
  intros samples self s Hcpu Hcol.
  unfold triplesec_run.integrate.
  rewrite massive_ts_printout_is_emit.
  destruct (triplesec_run.emit _ self) as [s0 | e s0 | ] eqn:E0;
    cbn [obind]; try discriminate.
  apply massive_emit_returns in E0. destruct E0 as [f0 [o0 ->]].
  cbn [triplesec_run.time_time].
  set (s1 := triplesec_run.set_clock _ _ _).
  destruct (triplesec_run.integrate_loop clock samples s1)
    as [s2 | e s2 | ] eqn:Eloop; cbn [obind]; try discriminate.
  apply massive_integrate_loop_ends in Eloop.
  2: { intro n. apply Hcpu. }
  change (triplesec_run.collision s1) with (triplesec_run.collision self)
    in Eloop.
  rewrite Hcol in Eloop.
  rewrite massive_ts_printout_is_emit.
  destruct (triplesec_run.emit _ s2) as [s3 | e s3 | ] eqn:E3;
    cbn [obind]; try discriminate.
  apply massive_emit_returns in E3. destruct E3 as [f3 [o3 ->]].
  intro Hclose. apply massive_close_shape in Hclose.
  destruct Hclose as [f4 [-> _]].
  exact Eloop.
Qed.

End MassiveIntegrate.

(** * The drivers of the test particle model *)

Section VectorDrivers.

Import Run.
Open Scope Q_scope.

(** ** Eccentricity maxima of the test particle model *)

(** The loop of [Triple_vector.ecc_extrema] writes the records of the
    maxima that the three-sample test detects, and nothing else. *)
Lemma vector_ecc_extrema_loop_maxima :
  forall (samples : list ts_vector_run.elements)
         (t_prev e_prev e_prev2 : Q)
         (self s : ts_vector_run.Triple_vector),
    ts_vector_run.can_write self ->
    ts_vector_run.ecc_extrema_loop samples t_prev e_prev e_prev2 self
      = Returns s ->
    ts_vector_run.can_write s /\
    ts_vector_run.written s =
      ts_vector_run.written self ++
      map ts_vector_run.m_record
        (ts_vector_run.detected_maxima (ts_vector_run.tstop self) samples
           (ts_vector_run.t self) t_prev e_prev e_prev2).
Proof.
  induction samples as [ | x samples IH];
    intros t_prev e_prev e_prev2 self s Hw;
    cbn [ts_vector_run.ecc_extrema_loop ts_vector_run.detected_maxima];
    destruct (Qltb (ts_vector_run.t self) (ts_vector_run.tstop self));
    try discriminate;
    try (intros [= <-]; cbn [map]; rewrite app_nil_r; split;
         [ exact Hw | reflexivity ]).
  set (s1 := ts_vector_run._step x self).
  assert (Hw1 : ts_vector_run.can_write s1) by exact Hw.
  change (ts_vector_run.np_linalg_norm_evec s1)
    with (ts_vector_run.s_norm x).
  destruct (Qltb e_prev2 e_prev && Qltb (ts_vector_run.s_norm x) e_prev).
  - destruct (vector_emit_written [t_prev; e_prev] s1 Hw1)
      as [s2 [-> [Hw2 [Hwr2 [Hnow2 [Hstop2 _]]]]]].
    cbn [obind]. intro Hs.
    assert (Ht2 : ts_vector_run.t s2 = ts_vector_run.s_t x).
    { unfold ts_vector_run.t. rewrite Hnow2. reflexivity. }
    rewrite Ht2 in Hs.
    apply IH in Hs; [ | exact Hw2 ].
    destruct Hs as [Hws Hout]. split; [ exact Hws | ].
    rewrite Hout, Hwr2, Hstop2, Ht2.
    cbn [map ts_vector_run.m_record]. rewrite <- app_assoc. reflexivity.
  - cbn [obind]. intro Hs. apply IH in Hs; [ | exact Hw1 ]. exact Hs.
Qed.

Lemma vector_close_written :
  forall self s : ts_vector_run.Triple_vector,
    (match ts_vector_run.outfile self with
     | Some _ => ts_vector_run.outfile_close self
     | None => Returns self
     end) = Returns s ->
    ts_vector_run.written s = ts_vector_run.written self.
Proof.
  intros self s. unfold ts_vector_run.outfile_close.
  destruct (ts_vector_run.outfile self) as [f | ] eqn:Ef.
  - intros [= <-]. unfold ts_vector_run.written. rewrite Ef. reflexivity.
  - intros [= <-]. reflexivity.
Qed.

(** X23: [ecc_extrema] starts its history of eccentricities at zero, not at
    the eccentricity of the object: when the second state that the solver
    leaves has a lower eccentricity than the first, the first is written as
    a maximum, whatever the eccentricity before the first step was. *)
Theorem vector_ecc_extrema_reports_first_sample :
  forall (x1 x2 : ts_vector_run.elements)
         (samples : list ts_vector_run.elements)
         (self s : ts_vector_run.Triple_vector),
    ts_vector_run.can_write self ->
    ts_vector_run.t self < ts_vector_run.tstop self ->
    ts_vector_run.s_t x1 < ts_vector_run.tstop self ->
    0 < ts_vector_run.s_norm x1 ->
    ts_vector_run.s_norm x2 < ts_vector_run.s_norm x1 ->
    ts_vector_run.ecc_extrema (x1 :: x2 :: samples) self = Returns s ->
    exists rest,
      ts_vector_run.written s =
        ts_vector_run.written self ++
        [ts_vector_run.s_t x1; ts_vector_run.s_norm x1] :: rest.
Proof.
  intros x1 x2 samples self s Hw Ht Ht1 He1 He2.
  unfold ts_vector_run.ecc_extrema.
  destruct (ts_vector_run.ecc_extrema_loop _ 0 0 0 self)
    as [s1 | e s1 | ] eqn:Eloop; cbn [obind]; try discriminate.
  intro Hclose. apply vector_close_written in Hclose.
  apply vector_ecc_extrema_loop_maxima in Eloop; [ | exact Hw ].
  destruct Eloop as [_ Hout].
  rewrite Hclose, Hout.
  cbn [ts_vector_run.detected_maxima].
  apply Qltb_lt in Ht, Ht1, He1, He2.
  rewrite Ht, Ht1, He1, He2.
  replace (Qltb 0 0) with false by reflexivity.
  cbn [andb map ts_vector_run.m_record].
  eexists. reflexivity.
Qed.

(** While the eccentricity never goes down, the loop of [ecc_extrema]
    writes nothing. *)
Lemma vector_ecc_extrema_loop_silent :
  forall (samples : list ts_vector_run.elements)
         (t_prev e_prev e_prev2 : Q)
         (self : ts_vector_run.Triple_vector),
    ts_vector_run.never_decreases e_prev samples ->
    ts_vector_run.reaches_tstop (ts_vector_run.tstop self) samples
      (ts_vector_run.t self) = true ->
    exists s,
      ts_vector_run.ecc_extrema_loop samples t_prev e_prev e_prev2 self
        = Returns s /\
      ts_vector_run.outfile s = ts_vector_run.outfile self /\
      ts_vector_run.stdout s = ts_vector_run.stdout self.
Proof.
  induction samples as [ | x samples IH];
    intros t_prev e_prev e_prev2 self Hup;
    cbn [ts_vector_run.ecc_extrema_loop ts_vector_run.reaches_tstop];
    destruct (Qltb (ts_vector_run.t self) (ts_vector_run.tstop self));
    try discriminate;
    try (intros _; exists self; repeat split; reflexivity).
  destruct Hup as [Hle Hup].
  set (s1 := ts_vector_run._step x self).
  change (ts_vector_run.np_linalg_norm_evec s1)
    with (ts_vector_run.s_norm x).
  assert (Hno : Qltb (ts_vector_run.s_norm x) e_prev = false).
  { destruct (Qltb (ts_vector_run.s_norm x) e_prev) eqn:E;
      [ | reflexivity ].
    apply Qltb_lt in E. exfalso. exact (Qlt_not_le _ _ E Hle). }
  rewrite Hno, andb_false_r. cbn [obind].
  intro Hreach.
  exact (IH (ts_vector_run.t s1) (ts_vector_run.s_norm x) e_prev s1
            Hup Hreach).
Qed.

(** X24: [ecc_extrema] on a run whose eccentricity never goes down returns
    without having written anything, to the file or to the standard
    output. *)
Theorem vector_ecc_extrema_silent_when_never_decreasing :
  forall (samples : list ts_vector_run.elements)
         (self : ts_vector_run.Triple_vector),
    ts_vector_run.never_decreases 0 samples ->
    ts_vector_run.reaches_tstop (ts_vector_run.tstop self) samples
      (ts_vector_run.t self) = true ->
    exists s,
      ts_vector_run.ecc_extrema samples self = Returns s /\
      ts_vector_run.written s = ts_vector_run.written self /\
      ts_vector_run.stdout s = ts_vector_run.stdout self.
Proof.
  intros samples self Hup Hreach.
  destruct (vector_ecc_extrema_loop_silent samples 0 0 0 self Hup Hreach)
    as [s1 [Hloop [Hfile Hstd]]].
  unfold ts_vector_run.ecc_extrema. rewrite Hloop. cbn [obind].
  unfold ts_vector_run.outfile_close, ts_vector_run.written.
  rewrite Hfile.
  destruct (ts_vector_run.outfile self) as [f | ].
  - eexists. split; [ reflexivity | ].
    cbn. split; [ reflexivity | exact Hstd ].
  - exists s1. split; [ reflexivity | ].
    rewrite Hfile. split; exact Hstd.
Qed.

(** ** Flips of the test particle model *)

(** X26: Without an output file [Triple_vector.printflips] prints the flips
    and then fails: [self.outfile.close()] is not guarded, and the attribute
    does not exist. *)
Theorem vector_printflips_without_file_raises :
  forall (samples : list ts_vector_run.elements)
         (self : ts_vector_run.Triple_vector),
    ts_vector_run.outfile self = None ->
    ts_vector_run.reaches_tstop (ts_vector_run.tstop self) samples
      (ts_vector_run.t self) = true ->
    exists s,
      ts_vector_run.printflips samples self = Raises AttributeError s /\
      ts_vector_run.stdout s =
        ts_vector_run.stdout self ++
        ts_vector_run.flips (np_sign (ts_vector_run.jvec_2 self))
          (ts_vector_run.detected_maxima (ts_vector_run.tstop self)
             samples (ts_vector_run.t self) 0 0 0).
Proof.
  intros samples self Hnone Hreach.
  assert (Hw : ts_vector_run.can_write self).
  { unfold ts_vector_run.can_write. rewrite Hnone. exact I. }
  destruct (vector_printflips_loop_flips samples 0 0 0
              (np_sign (ts_vector_run.jvec_2 self)) self Hw Hreach)
    as [s [Hloop [_ [Hmode Hout]]]].
  exists s. unfold ts_vector_run.printflips. rewrite Hloop.
  cbn [obind]. unfold ts_vector_run.outfile_close.
  apply Hmode in Hnone as Hnone'.
  unfold ts_vector_run.written in Hout.
  rewrite Hnone, Hnone' in Hout. rewrite Hnone'.
  split; [ reflexivity | exact Hout ].
Qed.

(** ** [flip_times] *)

Lemma vector_printout_is_emit :
  forall self : ts_vector_run.Triple_vector,
    ts_vector_run.printout self
    = ts_vector_run.emit (ts_vector_run.record_now self) self.
Proof.
  intro self.
  unfold ts_vector_run.printout, ts_vector_run.record_now.
  destruct (ts_vector_run.s_jvec (ts_vector_run.now self))
    as [[jx jy] jz].
  destruct (ts_vector_run.s_evec (ts_vector_run.now self))
    as [[ex ey] ez].
  reflexivity.
Qed.

Lemma vector_flip_times_loop_done :
  forall (samples : list ts_vector_run.elements) (nflips flip_count : Z)
         (sign_prev : Z) (self : ts_vector_run.Triple_vector),
    (nflips <= flip_count)%Z ->
    ts_vector_run.flip_times_loop samples nflips flip_count sign_prev self
    = Returns self.
Proof.
  intros samples nflips flip_count sign_prev self Hle.
  assert (E : (flip_count <? nflips)%Z = false)
    by (apply Z.ltb_ge; exact Hle).
  destruct samples; cbn [ts_vector_run.flip_times_loop]; rewrite E;
    reflexivity.
Qed.

Lemma vector_flip_times_loop_starved :
  forall (samples : list ts_vector_run.elements) (nflips flip_count : Z)
         (sign_prev : Z) (self : ts_vector_run.Triple_vector),
    ts_vector_run.can_write self ->
    (flip_count +
     Z.of_nat (length (ts_vector_run.sign_changes sign_prev samples))
     < nflips)%Z ->
    ts_vector_run.flip_times_loop samples nflips flip_count sign_prev self
    = Starved.
Proof.
  induction samples as [ | x samples IH];
    intros nflips flip_count sign_prev self Hw Hlt;
    cbn [ts_vector_run.flip_times_loop ts_vector_run.sign_changes] in *.
  - cbn [length] in Hlt.
    assert (E : (flip_count <? nflips)%Z = true)
      by (apply Z.ltb_lt; lia).
    rewrite E. reflexivity.
  - set (s1 := ts_vector_run._step x self).
    assert (Hw1 : ts_vector_run.can_write s1) by exact Hw.
    change (ts_vector_run.jvec_2 s1)
      with (let '(_, _, jz) := ts_vector_run.s_jvec x in jz).
    set (sgn := np_sign (let '(_, _, jz) := ts_vector_run.s_jvec x in jz))
      in *.
    assert (E : (flip_count <? nflips)%Z = true).
    { apply Z.ltb_lt.
      pose proof (Nat2Z.is_nonneg
                    (length (if (sgn =? sign_prev)%Z
                             then ts_vector_run.sign_changes sgn samples
                             else ts_vector_run.s_t x ::
                                  ts_vector_run.sign_changes sgn samples))).
      lia. }
    rewrite E.
    destruct (sgn =? sign_prev)%Z; cbn [negb].
    + apply IH; assumption.
    + cbn [length] in Hlt.
      rewrite vector_printout_is_emit.
      destruct (vector_emit_written (ts_vector_run.record_now s1) s1 Hw1)
        as [s2 [-> [Hw2 _]]].
      cbn [obind]. apply IH; [ exact Hw2 | lia ].
Qed.

(** X27: [flip_times] does not look at the stop time: on a run with fewer
    than [nflips] changes of the sign of [j_z] from one step to the next it
    goes on for as long as the solver delivers states. *)
Theorem vector_flip_times_needs_nflips_sign_changes :
  forall (samples : list ts_vector_run.elements) (nflips : Z)
         (self : ts_vector_run.Triple_vector),
    ts_vector_run.can_write self ->
    (Z.of_nat
       (length
          (ts_vector_run.sign_changes
             (np_sign (ts_vector_run.jvec_2 self)) samples))
     < nflips)%Z ->
    ts_vector_run.flip_times samples nflips self = Starved.
Proof.
  intros samples nflips self Hw Hlt.
  unfold ts_vector_run.flip_times.
  apply vector_flip_times_loop_starved; [ exact Hw | lia ].
Qed.

Lemma vector_flip_times_loop_records :
  forall (samples : list ts_vector_run.elements) (nflips flip_count : Z)
         (sign_prev : Z) (self s : ts_vector_run.Triple_vector),
    ts_vector_run.can_write self ->
    (flip_count < nflips)%Z ->
    ts_vector_run.flip_times_loop samples nflips flip_count sign_prev self
      = Returns s ->
    exists pre,
      ts_vector_run.written s =
        ts_vector_run.written self ++ pre ++
        [ts_vector_run.record_now s] /\
      (Z.of_nat (length pre) + 1 = nflips - flip_count)%Z.
Proof.
  induction samples as [ | x samples IH];
    intros nflips flip_count sign_prev self s Hw Hlt;
    cbn [ts_vector_run.flip_times_loop];
    (assert (E : (flip_count <? nflips)%Z = true)
      by (apply Z.ltb_lt; exact Hlt));
    rewrite E; try discriminate.
  set (s1 := ts_vector_run._step x self).
  assert (Hw1 : ts_vector_run.can_write s1) by exact Hw.
  destruct (negb _).
  - rewrite vector_printout_is_emit.
    destruct (vector_emit_written (ts_vector_run.record_now s1) s1 Hw1)
      as [s2 [-> [Hw2 [Hwr2 [Hnow2 _]]]]].
    cbn [obind].
    assert (Hrec : ts_vector_run.record_now s2
                   = ts_vector_run.record_now s1).
    { unfold ts_vector_run.record_now, ts_vector_run.t.
      rewrite Hnow2. reflexivity. }
    destruct (Z_lt_ge_dec (flip_count + 1) nflips) as [Hmore | Hdone].
    + intro Hs. apply IH in Hs; [ | exact Hw2 | exact Hmore ].
      destruct Hs as [pre [Hpre Hlen]].
      exists (ts_vector_run.record_now s1 :: pre). split.
      * rewrite Hpre, Hwr2, <- app_assoc. reflexivity.
      * cbn [length]. lia.
    + rewrite vector_flip_times_loop_done by lia.
      intros [= <-]. exists []. split.
      * rewrite Hwr2, Hrec. reflexivity.
      * cbn [length]. lia.
  - intro Hs. apply IH in Hs; [ | exact Hw1 | exact Hlt ].
    exact Hs.
Qed.

(** X28: When [flip_times] returns it has written exactly [nflips] records,
    and the last of them is the record of the state it stops in: the run
    ends at the step of the last flip. *)
Theorem vector_flip_times_stops_at_last_flip :
  forall (samples : list ts_vector_run.elements) (nflips : Z)
         (self s : ts_vector_run.Triple_vector),
    ts_vector_run.can_write self ->
    (0 < nflips)%Z ->
    ts_vector_run.flip_times samples nflips self = Returns s ->
    exists pre,
      ts_vector_run.written s =
        ts_vector_run.written self ++ pre ++
        [ts_vector_run.record_now s] /\
      (Z.of_nat (length pre) + 1 = nflips)%Z.
Proof.
  intros samples nflips self s Hw Hpos Hs.
  unfold ts_vector_run.flip_times in Hs.
  apply vector_flip_times_loop_records in Hs; [ | exact Hw | exact Hpos ].
  destruct Hs as [pre [Hpre Hlen]].
  exists pre. split; [ exact Hpre | lia ].
Qed.

(** ** [flip_period] *)

(** X29: [flip_period] asked for no period takes no step and hands back the
    mean of the empty list, which is [nan]. *)
Theorem vector_flip_period_of_no_flips_is_nan :
  forall (samples : list ts_vector_run.elements) (nflips : Z)
         (self : ts_vector_run.Triple_vector),
    (nflips <= 0)%Z ->
    ts_vector_run.flip_period samples nflips self = Returns (None, self).
Proof.
  intros samples nflips self Hle.
  unfold ts_vector_run.flip_period.
  assert (E : (Z.of_nat (@length Q []) <? nflips)%Z = false)
    by (apply Z.ltb_ge; cbn; exact Hle).
  destruct samples; cbn [ts_vector_run.flip_period_loop]; rewrite E;
    reflexivity.
Qed.

Lemma vector_flip_period_loop_done :
  forall (samples : list ts_vector_run.elements) (nflips : Z)
         (sign_prev : Z) (fliptime_prev : Q) (periods : list Q)
         (self : ts_vector_run.Triple_vector),
    (nflips <= Z.of_nat (length periods))%Z ->
    ts_vector_run.flip_period_loop samples nflips sign_prev fliptime_prev
      periods self
    = Returns (periods, self).
Proof.
  intros samples nflips sign_prev fliptime_prev periods self Hle.
  assert (E : (Z.of_nat (length periods) <? nflips)%Z = false)
    by (apply Z.ltb_ge; exact Hle).
  destruct samples; cbn [ts_vector_run.flip_period_loop]; rewrite E;
    reflexivity.
Qed.

Lemma fold_left_Qplus_snoc :
  forall (l : list Q) (d : Q),
    fold_left Qplus (l ++ [d]) 0 = fold_left Qplus l 0 + d.
Proof. intros l d. rewrite fold_left_app. reflexivity. Qed.

(** Once a first flip has been seen, at [t_first], the periods collected
    sum up to the time from the first flip to the last one. *)
Lemma vector_flip_period_loop_sum :
  forall (samples : list ts_vector_run.elements) (nflips : Z)
         (sign_prev : Z) (fliptime_prev t_first : Q) (periods ps : list Q)
         (self s : ts_vector_run.Triple_vector),
    Forall (fun x => ~ ts_vector_run.s_t x == 0) samples ->
    ~ fliptime_prev == 0 ->
    fold_left Qplus periods 0 == fliptime_prev - t_first ->
    (Z.of_nat (length periods) < nflips)%Z ->
    ts_vector_run.flip_period_loop samples nflips sign_prev fliptime_prev
      periods self = Returns (ps, s) ->
    fold_left Qplus ps 0 == ts_vector_run.t s - t_first /\
    Z.of_nat (length ps) = nflips /\
    (nflips - Z.of_nat (length periods)
     <= Z.of_nat (length (ts_vector_run.sign_changes sign_prev samples)))%Z.
Proof.
  induction samples as [ | x samples IH];
    intros nflips sign_prev fliptime_prev t_first periods ps self s
      Hnz Hprev Hsum Hlt;
    cbn [ts_vector_run.flip_period_loop ts_vector_run.sign_changes];
    (assert (E : (Z.of_nat (length periods) <? nflips)%Z = true)
      by (apply Z.ltb_lt; exact Hlt));
    rewrite E; try discriminate.
  inversion Hnz as [ | x' l' Hx Hrest]; subst x' l'.
  set (s1 := ts_vector_run._step x self).
  change (ts_vector_run.t s1) with (ts_vector_run.s_t x).
  change (ts_vector_run.jvec_2 s1)
    with (let '(_, _, jz) := ts_vector_run.s_jvec x in jz).
  set (sgn := np_sign (let '(_, _, jz) := ts_vector_run.s_jvec x in jz)).
  destruct (sgn =? sign_prev)%Z; cbn [negb].
  - apply IH; assumption.
  - assert (Eq : Qeq_bool fliptime_prev 0 = false).
    { destruct (Qeq_bool fliptime_prev 0) eqn:Eq; [ | reflexivity ].
      apply Qeq_bool_iff in Eq. contradiction. }
    rewrite Eq. cbn [negb].
    assert (Hsum' :
              fold_left Qplus
                (periods ++ [ts_vector_run.s_t x - fliptime_prev]) 0
              == ts_vector_run.s_t x - t_first).
    { rewrite fold_left_Qplus_snoc, Hsum. ring. }
    assert (Hlen :
              length (periods ++ [ts_vector_run.s_t x - fliptime_prev])
              = S (length periods)).
    { rewrite length_app. cbn [length]. lia. }
    destruct (Z_lt_ge_dec
                (Z.of_nat
                   (length
                      (periods ++ [ts_vector_run.s_t x - fliptime_prev])))
                nflips) as [Hmore | Hdone].
    + intro Hs.
      apply (IH nflips sgn (ts_vector_run.s_t x) t_first _ ps s1 s)
        in Hs; try assumption.
      destruct Hs as [H1 [H2 H3]].
      split; [ exact H1 | ]. split; [ exact H2 | ].
      cbn [length]. rewrite Hlen in H3. lia.
    + rewrite vector_flip_period_loop_done by lia.
      intros [= <- <-]. split; [ exact Hsum' | ].
      rewrite Hlen in *. cbn [length]. lia.
Qed.

Lemma vector_flip_period_loop_first :
  forall (samples : list ts_vector_run.elements) (nflips : Z)
         (sign_prev : Z) (ps : list Q)
         (self s : ts_vector_run.Triple_vector),
    Forall (fun x => ~ ts_vector_run.s_t x == 0) samples ->
    (0 < nflips)%Z ->
    ts_vector_run.flip_period_loop samples nflips sign_prev 0 [] self
      = Returns (ps, s) ->
    exists t_first rest,
      ts_vector_run.sign_changes sign_prev samples = t_first :: rest /\
      (nflips <= Z.of_nat (length rest))%Z /\
      fold_left Qplus ps 0 == ts_vector_run.t s - t_first /\
      Z.of_nat (length ps) = nflips.
Proof.
  induction samples as [ | x samples IH];
    intros nflips sign_prev ps self s Hnz Hpos;
    cbn [ts_vector_run.flip_period_loop ts_vector_run.sign_changes];
    (assert (E : (Z.of_nat (@length Q []) <? nflips)%Z = true)
      by (apply Z.ltb_lt; exact Hpos));
    rewrite E; try discriminate.
  inversion Hnz as [ | x' l' Hx Hrest]; subst x' l'.
  set (s1 := ts_vector_run._step x self).
  change (ts_vector_run.t s1) with (ts_vector_run.s_t x).
  change (ts_vector_run.jvec_2 s1)
    with (let '(_, _, jz) := ts_vector_run.s_jvec x in jz).
  set (sgn := np_sign (let '(_, _, jz) := ts_vector_run.s_jvec x in jz)).
  destruct (sgn =? sign_prev)%Z; cbn [negb].
  - apply IH; assumption.
  - replace (Qeq_bool 0 0) with true by reflexivity. cbn [negb].
    intro Hs.
    apply (vector_flip_period_loop_sum samples nflips sgn
             (ts_vector_run.s_t x) (ts_vector_run.s_t x) [] ps s1 s)
      in Hs; try assumption.
    + destruct Hs as [H1 [H2 H3]].
      eexists. eexists. split; [ reflexivity | ].
      cbn [length] in H3.
      split; [ lia | ]. split; assumption.
    + cbn [fold_left]. ring.
Qed.

(** X30: The mean that [flip_period] hands back is the time from the first
    change of the sign of [j_z] to the last one it has waited for, divided
    by [nflips]: the run has to see [nflips + 1] changes.  The times of the
    run are taken to differ from zero, the value by which the method stands
    for no flip yet. *)
Theorem vector_flip_period_is_mean_time_between_flips :
  forall (samples : list ts_vector_run.elements) (nflips : Z)
         (self s : ts_vector_run.Triple_vector) (m : option Q),
    Forall (fun x => ~ ts_vector_run.s_t x == 0) samples ->
    (0 < nflips)%Z ->
    ts_vector_run.flip_period samples nflips self = Returns (m, s) ->
    exists t_first rest v,
      ts_vector_run.sign_changes (np_sign (ts_vector_run.jvec_2 self))
        samples = t_first :: rest /\
      (nflips <= Z.of_nat (length rest))%Z /\
      m = Some v /\
      v == (ts_vector_run.t s - t_first) / inject_Z nflips.
Proof.
  intros samples nflips self s m Hnz Hpos.
  unfold ts_vector_run.flip_period.
  destruct (ts_vector_run.flip_period_loop samples nflips _ 0 [] self)
    as [[ps s1] | e [ps s1] | ] eqn:Eloop; try discriminate.
  intros [= <- <-].
  apply vector_flip_period_loop_first in Eloop; try assumption.
  destruct Eloop as [t_first [rest [Hch [Hlen [Hsum Hn]]]]].
  exists t_first, rest.
  destruct ps as [ | p ps].
  - cbn [length] in Hn. lia.
  - eexists. split; [ exact Hch | ]. split; [ exact Hlen | ].
    split; [ reflexivity | ].
    rewrite Hn, Hsum. reflexivity.
Qed.

End VectorDrivers.

(** * [reset] and the command line *)

Section VectorReset.

Open Scope R_scope.

Variable root : (ts_vector.vec3 -> list (option R)) ->
                ts_vector.vec3 -> result ts_vector.vec3.

(** X20: [reset] overwrites everything that a step assigns: after it the
    object is the same whether a step was taken or not.  (The solver is not
    reset.) *)
Theorem vector_reset_forgets_the_steps :
  forall (p : ts_vector.initial_params) (sol_t : R) (sol_y : vec6)
         (self : ts_vector.Triple_vector),
    ts_vector.reset p (ts_vector._step sol_t sol_y self)
    = ts_vector.reset p self.
Proof.
  intros p sol_t [[[[[y0 y1] y2] y3] y4] y5] self.
  reflexivity.
Qed.

(** [reset] with the values saved from an object gives that object back
    exactly when the object is at time zero and its derived attributes
    are up to date. *)
Lemma vector_reset_fixed_point :
  forall self : ts_vector.Triple_vector,
    ts_vector._t self = 0 ->
    ts_vector.t self = 0 * ts_vector.tsec self ->
    ts_vector.e1 self = ts_vector.np_linalg_norm (ts_vector.evec self) ->
    ts_vector.Th self =
      (1 - (ts_vector.e1 self) ^ 2) * (cos (ts_vector.inc self)) ^ 2 ->
    ts_vector.CKL self =
      (ts_vector.e1 self) ^ 2 *
      (1 - 5 / 2 * (sin (ts_vector.inc self)) ^ 2 *
           (sin (ts_vector.g1 self)) ^ 2) ->
    ts_vector.reset (ts_vector._save_initial_params self) self = self.
Proof.
  intros self Ht0 Ht He HTh HCKL.
  destruct self.
  cbn in *. subst. reflexivity.
Qed.

(** X21: Straight after the construction [reset] changes nothing, when the
    eccentricity given lies between 0 and 1 and the root finder has handed
    back a vector of length one for its direction. *)
Theorem vector_reset_restores_the_constructed_object :
  forall (args : ts_vector.Triple_vector_args)
         (self : ts_vector.Triple_vector),
    0 <= ts_vector.arg_e1 args <= 1 ->
    ts_vector.__init__ root args = Ok self ->
    ts_vector.np_linalg_norm (ts_vector.ehatvec self) = 1 ->
    ts_vector.reset (ts_vector._save_initial_params self) self = self.
Proof.
  intros args self [He _] Hinit Hnorm.
  pose proof (vector_init_shape root args self Hinit) as Hs.
  cbv zeta in Hs.
  destruct Hs as [_ [Hinc [_ [Hg1 [_ [_ [Hev [He1 [HTh [_ [_ [_ [_ [_ [_
                 [_ [_ [Ht0 [Ht HCKL]]]]]]]]]]]]]]]]]]].
  assert (He1' : ts_vector.e1 self = ts_vector.arg_e1 args).
  { rewrite He1, Hev, norm_np_scale, Hnorm, Rabs_pos_eq by exact He.
    ring. }
  apply vector_reset_fixed_point; try assumption.
  - rewrite HTh, He1', Hinc. reflexivity.
  - rewrite HCKL, He1', Hinc, Hg1. reflexivity.
Qed.

End VectorReset.

Section MassiveCommandLine.

Open Scope R_scope.

Variables G M_sun au yr2s : R.

(** The attributes that [Triple.__init__] copies from its arguments. *)
Lemma massive_init_fields :
  forall (args : triplesec.Triple_args) (self : triplesec.Triple),
    triplesec.arg_epsoct args = None ->
    triplesec.__init__ G M_sun au yr2s args = Ok self ->
    triplesec.m1 self = triplesec.arg_m1 args /\
    triplesec.m2 self = triplesec.arg_m2 args /\
    triplesec.m3 self = triplesec.arg_m3 args /\
    triplesec.r1 self = triplesec.arg_r1 args /\
    triplesec.r2 self = triplesec.arg_r2 args /\
    triplesec.a2 self = PyFloat (triplesec.arg_a2 args) /\
    triplesec.g1 self = triplesec.arg_argperi1 args * PI / 180 /\
    triplesec.g2 self = triplesec.arg_argperi2 args * PI / 180 /\
    triplesec.e1 self = triplesec.arg_e1 args.
Proof.
  intros args self Heps Hinit.
  unfold triplesec.__init__ in Hinit. rewrite Heps in Hinit.
  cbn [py_mul bind] in Hinit.
  match type of Hinit with
  | context [triplesec.calc_C G ?s0] => set (self0 := s0) in *
  end.
  destruct (triplesec.calc_C G self0) as [s1 | e] eqn:E1;
    cbn [bind] in Hinit; [ | discriminate ].
  apply calc_C_shape in E1. destruct E1 as [c2 [c3 [-> _]]].
  unfold triplesec.calc_G1 at 1 in Hinit.
  match type of Hinit with
  | context [triplesec.set_G1 _ ?v] => generalize dependent v; intro g1v
  end.
  intro Hinit.
  destruct (triplesec.calc_G2 G _) as [s2 | e] eqn:E2;
    cbn [bind] in Hinit; [ | discriminate ].
  apply calc_G2_shape in E2. destruct E2 as [g2v ->].
  match type of Hinit with
  | context [triplesec.set_H _ ?v] => generalize dependent v; intro h
  end.
  intro Hinit.
  apply update_shape in Hinit.
  destruct Hinit as [c2' [c3' [cp [g1v' [g2v' [thv [i [-> _]]]]]]]].
  cbn [triplesec.set_units triplesec.set_th triplesec.set_G2
       triplesec.set_G1 triplesec.set_cosphi triplesec.set_C
       triplesec.set_H triplesec.m1 triplesec.m2 triplesec.m3
       triplesec.r1 triplesec.r2 triplesec.a2 triplesec.g1 triplesec.g2
       triplesec.e1].
  unfold self0.
  cbn [triplesec.m1 triplesec.m2 triplesec.m3
       triplesec.r1 triplesec.r2 triplesec.a2 triplesec.g1 triplesec.g2
       triplesec.e1].
  repeat split; reflexivity.
Qed.

End MassiveCommandLine.

Section MassiveMain.

Open Scope R_scope.

Variables G M_sun au yr2s : R.

(** X13: [main] of [triplesec.py] takes the default of every option from the
    attributes of [Triple()].  For positive constants the derived attributes
    of that object give back the defaults of the constructor, so that an
    option that is not given reaches the constructor as its own default;
    this is unlike [main] of [ts_vector.py]. *)
Theorem massive_main_passes_the_constructor_defaults :
  forall cl : triplesec.command_line,
    0 < G -> 0 < M_sun -> 0 < au ->
    triplesec.main G M_sun au yr2s cl =
    triplesec.__init__ G M_sun au yr2s
      {| triplesec.arg_a1 :=
           triplesec.float_option (triplesec.opt_a1 cl) 1;
         triplesec.arg_a2 :=
           triplesec.float_option (triplesec.opt_a2 cl) 20;
         triplesec.arg_e1 :=
           triplesec.float_option (triplesec.opt_e1 cl) (1 / 10);
         triplesec.arg_e2 :=
           triplesec.float_option (triplesec.opt_e2 cl) (3 / 10);
         triplesec.arg_inc :=
           triplesec.float_option (triplesec.opt_inc cl) 80;
         triplesec.arg_argperi1 :=
           triplesec.float_option (triplesec.opt_g1 cl) 0;
         triplesec.arg_argperi2 :=
           triplesec.float_option (triplesec.opt_g2 cl) 0;
         triplesec.arg_m1 :=
           triplesec.float_option (triplesec.opt_m1 cl) 1;
         triplesec.arg_m2 :=
           triplesec.float_option (triplesec.opt_m2 cl) 1;
         triplesec.arg_m3 :=
           triplesec.float_option (triplesec.opt_m3 cl) 1;
         triplesec.arg_r1 :=
           triplesec.float_option (triplesec.opt_r1 cl) 0;
         triplesec.arg_r2 :=
           triplesec.float_option (triplesec.opt_r2 cl) 0;
         triplesec.arg_epsoct := None;
         triplesec.arg_quadrupole := negb (triplesec.opt_noquad cl);
         triplesec.arg_octupole := negb (triplesec.opt_nooct cl);
         triplesec.arg_hexadecapole := triplesec.opt_hex cl;
         triplesec.arg_gr := triplesec.opt_GR cl |}.
Proof.
  intros cl HG HM Hau.
  destruct (massive_init_attributes G M_sun au yr2s triplesec.default_args)
    as [d [Hd [Hinc [Ha1 _]]]];
    try assumption; cbn [triplesec.default_args triplesec.arg_m1
      triplesec.arg_m2 triplesec.arg_m3 triplesec.arg_a1 triplesec.arg_a2
      triplesec.arg_e1 triplesec.arg_e2 triplesec.arg_inc
      triplesec.arg_epsoct]; try lra; try reflexivity.
  destruct (massive_init_shape G M_sun au yr2s triplesec.default_args d
              eq_refl Hd)
    as [Hoct [Hquad [Hhex [Hgr [He2 _]]]]].
  destruct (massive_init_fields G M_sun au yr2s triplesec.default_args d
              eq_refl Hd)
    as [Hm1 [Hm2 [Hm3 [Hr1 [Hr2 [Ha2 [Hg1 [Hg2 He1]]]]]]]].
  cbn [triplesec.default_args triplesec.arg_m1
      triplesec.arg_m2 triplesec.arg_m3 triplesec.arg_a1 triplesec.arg_a2
      triplesec.arg_e1 triplesec.arg_e2 triplesec.arg_inc
      triplesec.arg_r1 triplesec.arg_r2 triplesec.arg_argperi1
      triplesec.arg_argperi2 triplesec.arg_quadrupole
      triplesec.arg_octupole triplesec.arg_hexadecapole triplesec.arg_gr]
    in *.
  assert (Hoct' : triplesec.octupole d = true).
  { rewrite Hoct. unfold py_eq0.
    destruct (Req_dec_T (3 / 10) 0) as [H0 | _]; [ lra | reflexivity ]. }
  unfold triplesec.main, triplesec.process_command_line.
  rewrite Hd. cbn [bind].
  cbn [triplesec.ns_a1 triplesec.ns_a2 triplesec.ns_e2 triplesec.ns_m1
       triplesec.ns_m2 triplesec.ns_m3 triplesec.ns_r1 triplesec.ns_r2
       triplesec.ns_g1 triplesec.ns_g2 triplesec.ns_e1 triplesec.ns_inc
       triplesec.ns_quad triplesec.ns_oct triplesec.ns_gr
       triplesec.ns_hex].
  rewrite Hm1, Hm2, Hm3, Hr1, Hr2, Ha1, Ha2, Hg1, Hg2, He1, He2, Hinc,
    Hquad, Hoct', Hhex, Hgr.
  replace (0 * PI / 180) with 0 by (unfold Rdiv; ring).
  destruct (triplesec.opt_a1 cl), (triplesec.opt_a2 cl),
    (triplesec.opt_e2 cl), (triplesec.opt_noquad cl),
    (triplesec.opt_nooct cl), (triplesec.opt_GR cl),
    (triplesec.opt_hex cl);
    reflexivity.
Qed.

End MassiveMain.

(** * Instances *)

Section RealWitnesses.

Open Scope R_scope.

Lemma calc_th_recovers_inclination_cosine_witness :
  triplesec.th
    (triplesec.calc_th
       (triplesec.set_H
          (triplesec.set_G2
             (triplesec.set_G1 Inputs.quadrupole_triple 1) 2)
          (sqrt (2 * 1 * 2 * (1 / 2) + 1 ^ 2 + 2 ^ 2))))
  = 1 / 2.
Proof.
  apply (calc_th_recovers_inclination_cosine
           (triplesec.set_G2
              (triplesec.set_G1 Inputs.quadrupole_triple 1) 2) (1 / 2));
    cbn; lra.
Defined.


Lemma circular_outer_orbit_has_no_octupole_witness :
  exists self,
    triplesec.__init__ 1 1 1 1 Inputs.circular_args = Ok self /\
    triplesec.octupole self = false /\
    triplesec.epsoct self = 0 /\
    triplesec.C3 self = 0 /\
    forall (t : R) (y : vec6), item3 (triplesec._deriv 1 1 self t y) = 0.
Proof.
  destruct (massive_init_attributes 1 1 1 1 Inputs.circular_args)
    as [self [Hinit _]]; cbn; try lra; try reflexivity.
  exists self. split; [ exact Hinit | ].
  apply (circular_outer_orbit_has_no_octupole 1 1 1 1 1
           Inputs.circular_args self);
    try reflexivity; exact Hinit.
Defined.

Lemma vector_init_jvec_and_Th_witness :
  exists self,
    ts_vector.__init__ Inputs.constant_root (Inputs.vector_args true None)
      = Ok self /\
    (let '(jx, jy, jz) := ts_vector.jvec self in
     jx ^ 2 + jy ^ 2 + jz ^ 2 = 1 - (1 / 10) ^ 2 /\
     ts_vector.Th self = jz ^ 2).
Proof.
  destruct (vector_init_succeeds Inputs.constant_root
              (Inputs.vector_args true None) (1, 0, 0) eq_refl
              (fun _ _ => eq_refl)) as [self Hinit].
  exists self. split; [ exact Hinit | ].
  apply (vector_init_jvec_and_Th Inputs.constant_root
           (Inputs.vector_args true None) self);
    [ cbn; lra | exact Hinit ].
Defined.


Lemma vector_main_converts_default_angles_twice_witness :
  exists self,
    ts_vector.main Inputs.constant_root Inputs.vector_no_options
      = Ok self /\
    ts_vector.inc self = 80 * PI / 180 * PI / 180 /\
    ts_vector.Omega self = 180 * PI / 180 * PI / 180 /\
    (@None R = None -> ts_vector.inc self <> 80 * PI / 180).
Proof.
  destruct (vector_main_succeeds Inputs.constant_root
              Inputs.vector_no_options (1, 0, 0) eq_refl
              (fun _ _ => eq_refl)) as [self Hmain].
  exists self. split; [ exact Hmain | ].
  exact (vector_main_converts_default_angles_twice Inputs.constant_root
           Inputs.vector_no_options self Hmain).
Defined.

(** The step of [quadrupole_triple] to [solver_state] succeeds. *)
Lemma solver_state_step :
  exists s,
    triplesec._step 1 1 1 5 Inputs.solver_state Inputs.quadrupole_triple
      = Ok s.
Proof.
  assert (Hpi : 0 < PI) by apply PI_RGT_0.
  destruct (massive_step_succeeds 1 1 1 5 2 (1 / 10) 7 (3 / 10) (-1)
              (PI / 2) Inputs.quadrupole_triple
              ltac:(lra) ltac:(cbn; lra) ltac:(cbn; lra) ltac:(cbn; lra)
              ltac:(cbn; lra) ltac:(cbn; lra) ltac:(lra) ltac:(lra)
              ltac:(lra))
    as [s [Hstep _]].
  exists s. exact Hstep.
Qed.

Lemma massive_step_wraps_the_angles_witness :
  exists s,
    triplesec._step 1 1 1 5 Inputs.solver_state Inputs.quadrupole_triple
      = Ok s /\
    (0 <= triplesec.g1 s < 2 * PI /\
     sin (triplesec.g1 s) = sin 7 /\ cos (triplesec.g1 s) = cos 7) /\
    (0 <= triplesec.g2 s < 2 * PI /\
     sin (triplesec.g2 s) = sin (-1) /\ cos (triplesec.g2 s) = cos (-1)).
Proof.
  destruct solver_state_step as [s Hstep].
  exists s. split; [ exact Hstep | ].
  exact (massive_step_wraps_the_angles 1 1 1 5 Inputs.solver_state
           Inputs.quadrupole_triple s Hstep).
Defined.

Lemma massive_step_keeps_the_initial_a1_witness :
  exists s,
    triplesec._step 1 1 1 5 Inputs.solver_state Inputs.quadrupole_triple
      = Ok s /\
    triplesec.a1 s = PyFloat (1 / 1) /\
    triplesec._a1 s = 1 /\
    triplesec.e1 s = 1 / 10 /\
    triplesec.e2 s = PyFloat (3 / 10) /\
    triplesec._H s = item5 Inputs.solver_state /\
    triplesec.t s = 5 / 1.
Proof.
  destruct solver_state_step as [s Hstep].
  exists s. split; [ exact Hstep | ].
  exact (massive_step_keeps_the_initial_a1 1 1 1 5 Inputs.solver_state
           Inputs.quadrupole_triple s Hstep).
Defined.

Lemma massive_step_G1_uses_the_initial_a1_witness :
  exists s,
    triplesec._step 1 1 1 5 Inputs.solver_state Inputs.quadrupole_triple
      = Ok s /\
    triplesec._G1 s =
      2 * 1 * sqrt (1 * 1 * (1 - (1 / 10) ^ 2) / (2 + 1)) /\
    triplesec.l_G1
      (triplesec._deriv_locals 1 Inputs.quadrupole_triple
         Inputs.solver_state) =
      2 * 1 * sqrt (1 * 2 * (1 - (1 / 10) ^ 2) / (2 + 1)).
Proof.
  destruct solver_state_step as [s Hstep].
  exists s. split; [ exact Hstep | ].
  exact (massive_step_G1_uses_the_initial_a1 1 1 1 5 Inputs.solver_state
           Inputs.quadrupole_triple s Hstep).
Defined.

Lemma vector_reset_restores_the_constructed_object_witness :
  exists self,
    ts_vector.__init__ Inputs.constant_root (Inputs.vector_args true None)
      = Ok self /\
    ts_vector.reset (ts_vector._save_initial_params self) self = self.
Proof.
  destruct (vector_init_succeeds Inputs.constant_root
              (Inputs.vector_args true None) (1, 0, 0) eq_refl
              (fun _ _ => eq_refl)) as [self Hinit].
  exists self. split; [ exact Hinit | ].
  apply (vector_reset_restores_the_constructed_object
           Inputs.constant_root (Inputs.vector_args true None) self);
    [ cbn; lra | exact Hinit | ].
  destruct (vector_init_shape Inputs.constant_root _ _ Hinit)
    as [_ [_ [_ [_ [_ [_ [_ [_ [_ [Hroot _]]]]]]]]]].
  injection Hroot as <-.
  unfold ts_vector.np_linalg_norm.
  replace (1 ^ 2 + 0 ^ 2 + 0 ^ 2) with 1 by ring.
  apply sqrt_1.
Defined.

Lemma massive_main_passes_the_constructor_defaults_witness :
  triplesec.main 1 1 1 1 Inputs.massive_no_options =
  triplesec.__init__ 1 1 1 1 triplesec.default_args.
Proof.
  apply (massive_main_passes_the_constructor_defaults 1 1 1 1
           Inputs.massive_no_options); lra.
Defined.

Lemma deriv_dHdt_zero_without_gr_witness :
  item5 (triplesec._deriv 1 1 Inputs.quadrupole_triple 0
           Inputs.massive_state) = 0.
Proof.
  apply (deriv_dHdt_zero_without_gr 1 1 Inputs.quadrupole_triple 0
           Inputs.massive_state).
  reflexivity.
Defined.

Lemma kozai_integral_constant_for_zero_epsoct_witness :
  derivable_pt_lim
    (fun _ : R => item2 Inputs.vector_state * item2 Inputs.vector_state)
    0 0.
Proof.
  apply (kozai_integral_constant_for_zero_epsoct
           (fun _ => Inputs.vector_state) 0).
  rewrite vector_jz_constant_for_zero_epsoct.
  apply derivable_pt_lim_const.
Defined.


End RealWitnesses.

Section RunWitnesses.

Import Run.
Open Scope Q_scope.

Lemma massive_integrate_outfreq_zero_witness :
  exists s,
    triplesec_run.integrate RunInputs.seconds RunInputs.massive_trace
      (RunInputs.massive_triple_outfreq_zero 4 300 None)
      = Raises ZeroDivisionError s /\
    triplesec_run.written s
      = [] ++
        [triplesec_run.record_now
           (RunInputs.massive_triple_outfreq_zero 4 300 None)] /\
    triplesec_run.can_write s /\
    triplesec_run.nstep s = (0 + 1)%Z.
Proof.
  apply (massive_integrate_outfreq_zero RunInputs.seconds
           (RunInputs.massive_elements 0 0.1 0.17)
           (tl RunInputs.massive_trace)
           (RunInputs.massive_triple_outfreq_zero 4 300 None));
    try reflexivity; exact I.
Defined.

Lemma massive_integrate_twice_raises_witness :
  exists s,
    triplesec_run.integrate RunInputs.seconds RunInputs.massive_trace
      (RunInputs.massive_triple 4 300 (Some RunInputs.fresh_file))
      = Returns s /\
    triplesec_run.integrate RunInputs.seconds RunInputs.massive_trace s
      = Raises ValueError s.
Proof.
  eexists. split; [ vm_compute; reflexivity | ].
  apply (massive_integrate_twice_raises RunInputs.seconds
           RunInputs.massive_trace RunInputs.massive_trace
           (RunInputs.massive_triple 4 300 (Some RunInputs.fresh_file)));
    [ discriminate | vm_compute; reflexivity ].
Defined.

Lemma massive_integrate_writes_last_record_twice_witness :
  exists s,
    triplesec_run.integrate RunInputs.seconds RunInputs.massive_trace
      (RunInputs.massive_triple 4 300 None) = Returns s /\
    exists pre,
      triplesec_run.written s
        = [] ++ pre ++
          [triplesec_run.record_now s; triplesec_run.record_now s] /\
      Z.of_nat (length pre) = (triplesec_run.nstep s - 0)%Z.
Proof.
  eexists. split; [ vm_compute; reflexivity | ].
  apply (massive_integrate_writes_last_record_twice RunInputs.seconds
           RunInputs.massive_trace
           (RunInputs.massive_triple 4 300 None));
    [ exact I | reflexivity | vm_compute; reflexivity ].
Defined.

Lemma massive_integrate_ends_by_collision_or_tstop_witness :
  exists s,
    triplesec_run.integrate RunInputs.stopped_clock
      RunInputs.massive_trace (RunInputs.massive_triple 4 300 None)
      = Returns s /\
    ((triplesec_run.collision s = true /\
      Qltb (triplesec_run.a1 s * (1 - triplesec_run.e1 s))
        (triplesec_run.r1 s + triplesec_run.r2 s) = true) \/
     (triplesec_run.collision s = false /\
      Qltb (triplesec_run.t s) (triplesec_run.tstop s) = false)).
Proof.
  eexists. split; [ vm_compute; reflexivity | ].
  apply (massive_integrate_ends_by_collision_or_tstop
           RunInputs.stopped_clock RunInputs.massive_trace
           (RunInputs.massive_triple 4 300 None));
    [ intros n m; reflexivity | reflexivity | vm_compute; reflexivity ].
Defined.

Lemma vector_ecc_extrema_reports_first_sample_witness :
  exists s,
    ts_vector_run.ecc_extrema RunInputs.flip_trace
      (RunInputs.vector_triple 10 300 0.6 None) = Returns s /\
    exists rest,
      ts_vector_run.written s = [] ++ [1; 0.5] :: rest.
Proof.
  eexists. split; [ vm_compute; reflexivity | ].
  apply (vector_ecc_extrema_reports_first_sample
           (RunInputs.vector_elements 1 0.5 0.6)
           (RunInputs.vector_elements 2 0.1 0.6)
           (tl (tl RunInputs.flip_trace))
           (RunInputs.vector_triple 10 300 0.6 None));
    try reflexivity; exact I.
Defined.

Lemma vector_ecc_extrema_silent_when_never_decreasing_witness :
  exists s,
    ts_vector_run.ecc_extrema RunInputs.rising_trace
      (RunInputs.vector_triple 2 300 0.6 (Some RunInputs.fresh_file))
      = Returns s /\
    ts_vector_run.written s = [] /\
    ts_vector_run.stdout s = [].
Proof.
  apply (vector_ecc_extrema_silent_when_never_decreasing
           RunInputs.rising_trace
           (RunInputs.vector_triple 2 300 0.6
              (Some RunInputs.fresh_file)));
    [ | reflexivity ].
  cbn. repeat split; discriminate.
Defined.

Lemma vector_printflips_without_file_raises_witness :
  exists s,
    ts_vector_run.printflips RunInputs.flip_trace
      (RunInputs.vector_triple 10 300 0.6 None)
      = Raises AttributeError s /\
    ts_vector_run.stdout s = [] ++ [[5; 0.5]; [9; 0.5]].
Proof.
  apply (vector_printflips_without_file_raises RunInputs.flip_trace
           (RunInputs.vector_triple 10 300 0.6 None));
    reflexivity.
Defined.

Lemma vector_flip_times_needs_nflips_sign_changes_witness :
  ts_vector_run.flip_times RunInputs.flip_trace 3
    (RunInputs.vector_triple 10 300 0.6 None) = Starved.
Proof.
  apply (vector_flip_times_needs_nflips_sign_changes RunInputs.flip_trace
           3 (RunInputs.vector_triple 10 300 0.6 None));
    [ exact I | reflexivity ].
Defined.

Lemma vector_flip_times_stops_at_last_flip_witness :
  exists s,
    ts_vector_run.flip_times RunInputs.flip_trace 2
      (RunInputs.vector_triple 10 300 0.6 None) = Returns s /\
    exists pre,
      ts_vector_run.written s =
        [] ++ pre ++ [ts_vector_run.record_now s] /\
      (Z.of_nat (length pre) + 1 = 2)%Z.
Proof.
  eexists. split; [ vm_compute; reflexivity | ].
  apply (vector_flip_times_stops_at_last_flip RunInputs.flip_trace 2
           (RunInputs.vector_triple 10 300 0.6 None));
    [ exact I | reflexivity | vm_compute; reflexivity ].
Defined.

Lemma vector_flip_period_of_no_flips_is_nan_witness :
  ts_vector_run.flip_period RunInputs.flip_trace 0
    (RunInputs.vector_triple 10 300 0.6 None)
  = Returns (None, RunInputs.vector_triple 10 300 0.6 None).
Proof.
  apply (vector_flip_period_of_no_flips_is_nan RunInputs.flip_trace 0
           (RunInputs.vector_triple 10 300 0.6 None)).
  discriminate.
Defined.

Lemma vector_flip_period_is_mean_time_between_flips_witness :
  exists m s,
    ts_vector_run.flip_period RunInputs.flip_trace 1
      (RunInputs.vector_triple 10 300 0.6 None) = Returns (m, s) /\
    exists t_first rest v,
      ts_vector_run.sign_changes 1 RunInputs.flip_trace
        = t_first :: rest /\
      (1 <= Z.of_nat (length rest))%Z /\
      m = Some v /\
      v == (ts_vector_run.t s - t_first) / inject_Z 1.
Proof.
  eexists. eexists. split; [ vm_compute; reflexivity | ].
  apply (vector_flip_period_is_mean_time_between_flips
           RunInputs.flip_trace 1
           (RunInputs.vector_triple 10 300 0.6 None));
    [ | reflexivity | vm_compute; reflexivity ].
  repeat constructor; discriminate.
Defined.

Lemma massive_printflips_name_error_witness :
  triplesec_run.printflips None RunInputs.massive_trace
    (RunInputs.massive_triple 4 300 (Some RunInputs.fresh_file))
  = Raises NameError
      (triplesec_run._step (RunInputs.massive_elements 0 0.1 0.17)
         (RunInputs.massive_triple 4 300 (Some RunInputs.fresh_file))).
Proof.
  apply (massive_printflips_name_error
           (RunInputs.massive_elements 0 0.1 0.17)
           (tl RunInputs.massive_trace)
           (RunInputs.massive_triple 4 300 (Some RunInputs.fresh_file))
           RunInputs.fresh_file);
    reflexivity.
Defined.

Lemma vector_ecc_extrema_closes_file_witness :
  exists s,
    ts_vector_run.ecc_extrema RunInputs.vector_trace
      (RunInputs.vector_triple 4 300 0.6 (Some RunInputs.fresh_file))
      = Returns s /\
    exists f, ts_vector_run.outfile s = Some f /\ closed f = true.
Proof.
  eexists. split; [ vm_compute; reflexivity | ].
  apply (vector_ecc_extrema_closes_file RunInputs.vector_trace
           (RunInputs.vector_triple 4 300 0.6
              (Some RunInputs.fresh_file)));
    [ discriminate | vm_compute; reflexivity ].
Defined.

End RunWitnesses.
